(** * Employee Task Manager: the dual-mode authentication layer

    A shallow embedding of the authentication and authorization code of the
    FastAPI Employee Task Manager ([auth.py], [jwt_auth.py],
    [auth_dependencies.py], [routers/auth_router.py], with the data of
    [models.py], [schemas.py] and [config.py]), followed by the properties
    of the identity resolver, the authorization gates, login and
    registration.

    Conventions of the embedding:
    - the [users] table reached through a SQLAlchemy session is a list of
      rows in insertion order; code that takes [db] runs in the monad [M],
      which threads the table and carries the raised exception, if any;
    - the UTC clock read by [datetime.utcnow()] is an explicit argument
      [now], in microseconds since the epoch;
    - bcrypt is an interface ([Bcrypt]); nothing is assumed about it. *)

From Stdlib Require Import String List ZArith Bool Lia DecimalString.
Import ListNotations.

Open Scope string_scope.
Open Scope Z_scope.

(* ================================================================= *)
(** ** Python runtime: exceptions, truthiness, time *)

Module Py.

(** jose's [JWTError] and its two subclasses; [except JWTError] catches
    all three. *)
Inductive JWTErrorKind : Type :=
| JWTError_base
| ExpiredSignatureError
| JWTClaimsError.

(** The exceptions that the modelled code raises or lets through.
    [Exception] stands for any other Python exception, by the name of
    its class ([RecursionError], [ValueError], [OverflowError]); no
    [except] clause of the modelled code catches one. *)
Inductive exn : Type :=
| HTTPException (status_code : Z) (detail : string)
                (headers : list (string * string))
| JWTError (kind : JWTErrorKind)
| IntegrityError (constraint : string)
| Exception (class_name : string).

Inductive Result (A : Type) : Type :=
| Ok (a : A)
| Raise (e : exn).
Arguments Ok {A} & a.
Arguments Raise {A} e.

(** [bool(s)] for a [str]. *)
Definition truthy_str (s : string) : bool :=
  negb (String.eqb s "").

(** [datetime] and [timedelta] have microsecond resolution. *)
Definition datetime := Z.
Definition timedelta := Z.

Definition timedelta_minutes (m : Z) : timedelta := m * 60 * 1000000.
Definition timedelta_seconds (s : Z) : timedelta := s * 1000000.

(** [bool(td)] for a [timedelta]: false exactly for the zero duration. *)
Definition truthy_timedelta (d : timedelta) : bool := negb (d =? 0).

(** [calendar.timegm(d.utctimetuple())]: whole seconds since the epoch,
    the microseconds dropped. *)
Definition timegm (d : datetime) : Z := d / 1000000.

End Py.
Export Py.

(** [status.HTTP_*] of Starlette. *)
Definition HTTP_400_BAD_REQUEST : Z := 400.
Definition HTTP_401_UNAUTHORIZED : Z := 401.
Definition HTTP_403_FORBIDDEN : Z := 403.

(* ================================================================= *)
(** ** models.py *)

Inductive UserRole : Type :=
| ADMIN
| CLIENT.

(** [UserRole.value] *)
Definition UserRole_value (r : UserRole) : string :=
  match r with
  | ADMIN => "admin"
  | CLIENT => "client"
  end.

Definition UserRole_eqb (a b : UserRole) : bool :=
  match a, b with
  | ADMIN, ADMIN | CLIENT, CLIENT => true
  | _, _ => false
  end.

(** A [User] object.  [role] is [None] for an object whose role attribute
    is missing (Python [None]); rows loaded from the table always carry a
    member of [UserRole]. *)
Record User : Type := mkUser {
  id : Z;
  username : string;
  email : string;
  full_name : option string;
  hashed_password : string;
  role : option UserRole;
  is_active : bool
}.

(** [user.role != UserRole.ADMIN] *)
Definition role_ne (r : option UserRole) (x : UserRole) : bool :=
  match r with
  | Some r' => negb (UserRole_eqb r' x)
  | None => true
  end.

(* ================================================================= *)
(** ** config.py: the settings the authentication code reads *)

Module settings.
Definition API_KEY : string := "your-secret-api-key-12345".
Definition JWT_SECRET_KEY : string :=
  "your-super-secret-jwt-key-change-this-in-production-09d25e094faa6ca2556c818166b7a9563b93f7099f6f0f4caa6cf63b88e8d3e7".
Definition JWT_ALGORITHM : string := "HS256".
Definition JWT_EXPIRATION_MINUTES : Z := 1440.
End settings.

(* ================================================================= *)
(** ** database.py: the session, and the monad of code that uses it *)

(** The [users] table behind a session. *)
Definition Session : Type := list User.

Definition M (A : Type) : Type := Session -> Result A * Session.

Definition ret {A} (a : A) : M A := fun db => (Ok a, db).

Definition raise {A} (e : exn) : M A := fun db => (Raise e, db).

Definition bind {A B} (m : M A) (k : A -> M B) : M B :=
  fun db =>
    match m db with
    | (Ok a, db') => k a db'
    | (Raise e, db') => (Raise e, db')
    end.

Notation "x <- m ;; k" := (bind m (fun x => k))
  (at level 61, m at next level, right associativity).

(** Code that does not touch the session. *)
Definition lift {A} (r : Result A) : M A := fun db => (r, db).

(** [db.query(User).filter(p).first()] *)
Definition query_first (p : User -> bool) : M (option User) :=
  fun db => (Ok (find p db), db).

(** [db.query(User).count()] *)
Definition query_count : M Z :=
  fun db => (Ok (Z.of_nat (length db)), db).

(** The primary key given to the next inserted row: one more than the
    largest key in the table. *)
Definition next_id (db : Session) : Z :=
  1 + fold_right (fun u m => Z.max (id u) m) 0 db.

(** [db.add(u); db.commit(); db.refresh(u)].  The table declares
    [username] and [email] unique: the commit of a colliding row raises
    [IntegrityError] and leaves the table as it was. *)
Definition add_commit_refresh (u : User) : M User :=
  fun db =>
    if existsb (fun r => String.eqb (username r) (username u)) db then
      (Raise (IntegrityError "users.username"), db)
    else if existsb (fun r => String.eqb (email r) (email u)) db then
      (Raise (IntegrityError "users.email"), db)
    else
      let row := mkUser (next_id db) (username u) (email u) (full_name u)
                        (hashed_password u) (role u) (is_active u) in
      (Ok row, (db ++ [row])%list).

(** [db.query(User).all()] *)
Definition query_all : M (list User) :=
  fun db => (Ok db, db).

(* ================================================================= *)
(** ** python-jose: [jwt.encode] and [jwt.decode] with default options

    A token string is modelled by what jose makes of it.  A well-formed
    JWS whose payload is a JSON object with claims of the types jose
    expects is [Signed], with the algorithm of its header, the key its
    signature was made with and its payload.  A signature verifies
    exactly when it was made with the verifying key.  Any other string
    is [Undecodable], together with what jose raises on it. *)

Module jwt.

(** The payload: [sub], [role] and [exp], which the application writes,
    and the other registered claims that [jwt.decode] looks at by
    default.  [exp], [nbf] and [iat] are NumericDates, whole seconds
    since the epoch. *)
Record Payload : Type := mkPayload {
  sub : option string;
  role_claim : option string;
  exp : option Z;
  iat : option Z;
  nbf : option Z;
  aud : option (list string);
  iss : option string;
  jti : option string;
  at_hash : option string
}.

(** The dictionary the application encodes: [sub], [role], [exp] and
    nothing else. *)
Record Claims : Type := mkClaims {
  claims_sub : option string;
  claims_role : option string;
  claims_exp : option Z
}.

(** That dictionary as a payload. *)
Definition payload (c : Claims) : Payload :=
  mkPayload (claims_sub c) (claims_role c) (claims_exp c)
            None None None None None None.

(** What jose raises on a string it does not decode: a [JWTError] (not
    three segments, bad base64, a header or a payload that is not JSON
    or not an object, a [sub] or [jti] that is not a string, ...), or
    an exception outside [JWTError]: the header is parsed with
    [json.loads] under [except ValueError], so the [RecursionError] of
    a deeply nested header passes. *)
Inductive DecodeError : Type :=
| RaisesJWTError
| RaisesOther (class_name : string).

Inductive Token : Type :=
| Undecodable (raw : string) (raises : DecodeError)
| Signed (alg : string) (key : string) (claims : Payload).

Definition encode (claims : Claims) (key : string) (algorithm : string)
  : Token :=
  Signed algorithm key (payload claims).

(** [_validate_claims] with the default options and no audience, issuer,
    subject or access token given: [nbf] must not be after the current
    second and [exp] not before it (no leeway); an [aud] and an
    [at_hash] claim have nothing to be compared with and are refused;
    [iat], [iss] and [jti] pass.  No claim is required: a payload
    without [exp] passes. *)
Definition validate_claims (claims : Payload) (now : datetime)
  : Result unit :=
  if match nbf claims with
     | Some n => timegm now <? n
     | None => false
     end
  then Raise (JWTError JWTClaimsError)
  else if match exp claims with
          | Some e => e <? timegm now
          | None => false
          end
  then Raise (JWTError ExpiredSignatureError)
  else if match aud claims with
          | Some _ => true
          | None => false
          end
  then Raise (JWTError JWTClaimsError)
  else if match at_hash claims with
          | Some _ => true
          | None => false
          end
  then Raise (JWTError JWTClaimsError)
  else Ok tt.

(** [jwt.decode(token, key, algorithms=algorithms)]: the header's
    algorithm must be listed, the signature must verify, and the claims
    must pass [validate_claims]. *)
Definition decode (token : Token) (key : string)
           (algorithms : list string) (now : datetime)
  : Result Payload :=
  match token with
  | Undecodable _ RaisesJWTError => Raise (JWTError JWTError_base)
  | Undecodable _ (RaisesOther class_name) => Raise (Exception class_name)
  | Signed alg k claims =>
      if negb (existsb (String.eqb alg) algorithms) then
        Raise (JWTError JWTError_base)
      else if negb (String.eqb k key) then
        Raise (JWTError JWTError_base)
      else
        match validate_claims claims now with
        | Ok _ => Ok claims
        | Raise e => Raise e
        end
  end.

End jwt.

Coercion jwt.payload : jwt.Claims >-> jwt.Payload.

(** What [HTTPBearer] hands over: the scheme and the token. *)
Record HTTPAuthorizationCredentials : Type := mkCredentials {
  scheme : string;
  credentials : jwt.Token
}.

(* ================================================================= *)
(** ** bcrypt *)

Class Bcrypt : Type := {
(** The hash [bcrypt.hashpw(password, salt)] returns, for a password it
    takes (see [hash_password]). *)
  bcrypt_hashpw : string -> string -> string;
(** [bcrypt.checkpw(password, hashed)]; [None] when it raises (for
    instance on a malformed hash). *)
  bcrypt_checkpw : string -> string -> option bool
}.

(* ================================================================= *)
(** ** schemas.py *)

Record UserCreate : Type := mkUserCreate {
  uc_username : string;
  uc_email : string;
  uc_full_name : option string;
  uc_password : string;
  uc_role : UserRole
}.

Record UserLogin : Type := mkUserLogin {
  ul_username : string;
  ul_password : string
}.

(** The dictionary returned by [register] and [login]. *)
Record TokenResponse : Type := mkTokenResponse {
  access_token : jwt.Token;
  token_type : string;
  user : User
}.

(* ================================================================= *)
(** ** jwt_auth.py *)

Module jwt_auth.

Definition SECRET_KEY : string := settings.JWT_SECRET_KEY.
Definition ALGORITHM : string := settings.JWT_ALGORITHM.
Definition ACCESS_TOKEN_EXPIRE_MINUTES : Z :=
  settings.JWT_EXPIRATION_MINUTES.

Section Passwords.
Context `{Bcrypt}.

(** [salt] is what [bcrypt.gensalt()] draws.  [bcrypt.hashpw] refuses a
    password of more than 72 bytes with [ValueError], and nothing here
    catches it.  A string is its UTF-8 bytes; [UserCreate] lets a
    password of up to 100 characters through. *)
Definition hash_password (password : string) (salt : string)
  : Result string :=
  if 72 <? Z.of_nat (String.length password) then
    Raise (Exception "ValueError")
  else Ok (bcrypt_hashpw password salt).

Definition verify_password (plain_password hashed_password : string)
  : bool :=
  match bcrypt_checkpw plain_password hashed_password with
  | Some b => b
  | None => false            (* except Exception: return False *)
  end.
End Passwords.

Definition get_user_by_username (username' : string) : M (option User) :=
  query_first (fun u => String.eqb (username u) username').

Definition get_user_by_email (email' : string) : M (option User) :=
  query_first (fun u => String.eqb (email u) email').

Section Accounts.
Context `{Bcrypt}.

(** The object is built without a primary key (written 0 here); the
    commit assigns one. *)
Definition create_user (username' email' password : string)
           (full_name' : option string) (role' : UserRole)
           (salt : string) : M User :=
  hashed_password' <- lift (hash_password password salt) ;;
  let db_user := mkUser 0 username' email' full_name' hashed_password'
                        (Some role') true in
  add_commit_refresh db_user.

Definition authenticate_user (username' password : string)
  : M (option User) :=
  user <- get_user_by_username username' ;;
  match user with
  | None => ret None
  | Some user =>
      if negb (verify_password password (hashed_password user)) then
        ret None
      else if negb (is_active user) then
        ret None
      else ret (Some user)
  end.
End Accounts.

(** [data] carries no [exp] of its own at the two call sites; the
    [exp] written here is the datetime [expire], which [jwt.encode]
    turns into whole seconds with [timegm]. *)
Definition create_access_token (data : jwt.Claims)
           (expires_delta : option timedelta) (now : datetime)
  : jwt.Token :=
  let to_encode := data in
  let expire :=
    match expires_delta with
    | Some d =>
        if truthy_timedelta d then now + d
        else now + timedelta_minutes ACCESS_TOKEN_EXPIRE_MINUTES
    | None => now + timedelta_minutes ACCESS_TOKEN_EXPIRE_MINUTES
    end in
  let to_encode :=
    jwt.mkClaims (jwt.sub to_encode) (jwt.role_claim to_encode)
                 (Some (timegm expire)) in
  jwt.encode to_encode SECRET_KEY ALGORITHM.

Definition credentials_exception : exn :=
  HTTPException HTTP_401_UNAUTHORIZED "Could not validate credentials"
                [("WWW-Authenticate", "Bearer")].

(** The [try] block of [get_current_user]: decode, read [sub]. *)
Definition decode_subject (token : jwt.Token) (now : datetime)
  : Result string :=
  match jwt.decode token SECRET_KEY [ALGORITHM] now with
  | Ok payload =>
      match jwt.sub payload with
      | None => Raise credentials_exception
      | Some username' => Ok username'
      end
  | Raise (JWTError _) => Raise credentials_exception
  | Raise e => Raise e
  end.

Definition get_current_user (credentials' : HTTPAuthorizationCredentials)
           (now : datetime) : M User :=
  let token := credentials credentials' in
  username' <- lift (decode_subject token now) ;;
  user <- get_user_by_username username' ;;
  match user with
  | None => raise credentials_exception
  | Some user => ret user
  end.

Definition get_current_active_user (current_user : User) : M User :=
  if negb (is_active current_user) then
    raise (HTTPException 400 "Inactive user" [])
  else ret current_user.

Definition get_current_admin_user (current_user : User) : M User :=
  if role_ne (role current_user) ADMIN then
    raise (HTTPException HTTP_403_FORBIDDEN "Admin privileges required" [])
  else ret current_user.

(** The body of [get_optional_current_user]. *)
Definition get_optional_current_user
           (credentials' : option HTTPAuthorizationCredentials)
           (now : datetime) : M (option User) :=
  match credentials' with
  | None => ret None
  | Some creds =>
      fun db =>
        match get_current_user creds now db with
        | (Ok user, db') => (Ok (Some user), db')
        | (Raise (HTTPException _ _ _), db') => (Ok None, db')
        | (Raise e, db') => (Raise e, db')
        end
  end.

End jwt_auth.

(* ================================================================= *)
(** ** auth.py *)

Module auth.

Definition API_KEY : string := settings.API_KEY.

(** [api_key] is the value of the [X-API-Key] header, [None] when the
    header is absent. *)
Definition get_api_key (api_key : option string) : Result (option string) :=
  match api_key with
  | None => Ok None
  | Some k =>
      if String.eqb k API_KEY then Ok (Some k)
      else Raise (HTTPException HTTP_401_UNAUTHORIZED "Invalid API Key"
                                [("WWW-Authenticate", "ApiKey")])
  end.

End auth.

(* ================================================================= *)
(** ** auth_dependencies.py *)

Module auth_dependencies.

Definition jwt_get_current_user := jwt_auth.get_current_user.

Definition virtual_admin : User :=
  mkUser 0 "api_key_user" "api@system.com" (Some "API Key User") ""
         (Some ADMIN) true.

(** The part of [get_current_user_dual] after the bearer attempt. *)
Definition try_api_key (api_key : option string) : M (option User) :=
  match api_key with
  | Some k =>
      if truthy_str k then ret (Some virtual_admin) else ret None
  | None => ret None
  end.

(** The function body; [api_key] is what the dependency [get_api_key]
    returned. *)
Definition get_current_user_dual
           (bearer_credentials : option HTTPAuthorizationCredentials)
           (api_key : option string) (now : datetime)
  : M (option User) :=
  match bearer_credentials with
  | Some creds =>
      fun db =>
        match jwt_get_current_user creds now db with
        | (Ok user, db') => (Ok (Some user), db')
        | (Raise (HTTPException _ _ _), db') =>    (* pass *)
            try_api_key api_key db'
        | (Raise e, db') => (Raise e, db')
        end
  | None => try_api_key api_key
  end.

Definition require_authentication (user : option User) : M User :=
  match user with
  | None =>
      raise (HTTPException HTTP_401_UNAUTHORIZED
        "Authentication required. Provide either JWT token (Authorization: Bearer) or API Key (X-API-Key)"
        [("WWW-Authenticate", "Bearer")])
  | Some user => ret user
  end.

Definition require_admin (user : User) : M User :=
  if role_ne (role user) ADMIN then
    raise (HTTPException HTTP_403_FORBIDDEN "Admin privileges required" [])
  else ret user.

End auth_dependencies.


(* ================================================================= *)
(** ** routers/auth_router.py *)

Module auth_router.
Export jwt_auth.

Section Routes.
Context `{Bcrypt}.

(** [POST /auth/register].  [salt] is the salt drawn while hashing the
    password, [now] the clock when the token is made. *)
Definition register (user_data : UserCreate) (salt : string)
           (now : datetime) : M TokenResponse :=
  by_username <- get_user_by_username (uc_username user_data) ;;
  match by_username with
  | Some _ =>
      raise (HTTPException HTTP_400_BAD_REQUEST
                           "Username already registered" [])
  | None =>
      by_email <- get_user_by_email (uc_email user_data) ;;
      match by_email with
      | Some _ =>
          raise (HTTPException HTTP_400_BAD_REQUEST
                               "Email already registered" [])
      | None =>
          user_count <- query_count ;;
          if (0 <? user_count)
             && String.eqb (UserRole_value (uc_role user_data)) "admin"
          then
            raise (HTTPException HTTP_403_FORBIDDEN
              "Cannot self-register as admin. Please contact an existing admin."
              [])
          else
            db_user <- create_user (uc_username user_data)
                         (uc_email user_data) (uc_password user_data)
                         (uc_full_name user_data) (uc_role user_data)
                         salt ;;
            let access_token_expires :=
              timedelta_minutes ACCESS_TOKEN_EXPIRE_MINUTES in
            let access_token' :=
              create_access_token
                (jwt.mkClaims (Some (username db_user))
                              (option_map UserRole_value (role db_user))
                              None)
                (Some access_token_expires) now in
            ret (mkTokenResponse access_token' "bearer" db_user)
      end
  end.

(** [POST /auth/login] *)
Definition login (user_data : UserLogin) (now : datetime)
  : M TokenResponse :=
  user <- authenticate_user (ul_username user_data)
                            (ul_password user_data) ;;
  match user with
  | None =>
      raise (HTTPException HTTP_401_UNAUTHORIZED
                           "Incorrect username or password"
                           [("WWW-Authenticate", "Bearer")])
  | Some user =>
      let access_token_expires :=
        timedelta_minutes ACCESS_TOKEN_EXPIRE_MINUTES in
      let access_token' :=
        create_access_token
          (jwt.mkClaims (Some (username user))
                        (option_map UserRole_value (role user))
                        None)
          (Some access_token_expires) now in
      ret (mkTokenResponse access_token' "bearer" user)
  end.

(** [GET /auth/me], the body. *)
Definition get_current_user_info (current_user : User) : M User :=
  ret current_user.

(** [POST /auth/create-admin], the body; [current_admin] is what the
    dependency [get_current_admin_user] returned. *)
Definition create_admin_user (user_data : UserCreate)
           (current_admin : User) (salt : string) : M User :=
  by_username <- get_user_by_username (uc_username user_data) ;;
  match by_username with
  | Some _ =>
      raise (HTTPException HTTP_400_BAD_REQUEST
                           "Username already registered" [])
  | None =>
      by_email <- get_user_by_email (uc_email user_data) ;;
      match by_email with
      | Some _ =>
          raise (HTTPException HTTP_400_BAD_REQUEST
                               "Email already registered" [])
      | None =>
          (* Force admin role *)
          create_user (uc_username user_data) (uc_email user_data)
                      (uc_password user_data) (uc_full_name user_data)
                      ADMIN salt
      end
  end.

(** [GET /auth/users], the body. *)
Definition list_all_users (current_admin : User) : M (list User) :=
  query_all.

End Routes.
End auth_router.

(* ================================================================= *)
(** ** FastAPI: how [Depends] chains run for one request

    A request carries the bearer credentials that
    [HTTPBearer(auto_error=False)] extracts from the [Authorization]
    header ([None] when there are none) and the raw value of the
    [X-API-Key] header ([None] when the header is absent).  FastAPI
    evaluates the dependencies of a function before it calls the
    function; an exception raised by a dependency ends the request with
    that exception. *)

Record Request : Type := mkRequest {
  authorization : option HTTPAuthorizationCredentials;
  x_api_key : option string
}.

(** [APIKeyHeader(name="X-API-Key", auto_error=False)]: the header
    value, or [None] when it is absent or empty. *)
Definition api_key_header (req : Request) : option string :=
  match x_api_key req with
  | Some k => if truthy_str k then Some k else None
  | None => None
  end.

Module Depends.

(** [Depends(get_current_user_dual)] *)
Definition get_current_user_dual (req : Request) (now : datetime)
  : M (option User) :=
  api_key <- lift (auth.get_api_key (api_key_header req)) ;;
  auth_dependencies.get_current_user_dual (authorization req) api_key now.

(** [Depends(require_authentication)] *)
Definition require_authentication (req : Request) (now : datetime)
  : M User :=
  user <- get_current_user_dual req now ;;
  auth_dependencies.require_authentication user.

(** [Depends(require_admin)] *)
Definition require_admin (req : Request) (now : datetime) : M User :=
  user <- require_authentication req now ;;
  auth_dependencies.require_admin user.

End Depends.

(** The chains of jwt_auth.py, used by the routes under [/auth].  Their
    scheme is [HTTPBearer()], which ends the request itself when the
    header carries no bearer credentials; the chains are given for a
    request that carries some. *)
Module DependsJWT.

(** [Depends(get_current_active_user)] *)
Definition get_current_active_user
           (creds : HTTPAuthorizationCredentials) (now : datetime)
  : M User :=
  current_user <- jwt_auth.get_current_user creds now ;;
  jwt_auth.get_current_active_user current_user.

(** [Depends(get_current_admin_user)] *)
Definition get_current_admin_user
           (creds : HTTPAuthorizationCredentials) (now : datetime)
  : M User :=
  current_user <- get_current_active_user creds now ;;
  jwt_auth.get_current_admin_user current_user.

End DependsJWT.

(** The routes under [/auth] that sit behind those chains, each with
    its dependency. *)
Module AuthRoutes.
Section Routes.
Context `{Bcrypt}.

Definition me (creds : HTTPAuthorizationCredentials) (now : datetime)
  : M User :=
  current_user <- DependsJWT.get_current_active_user creds now ;;
  auth_router.get_current_user_info current_user.

Definition create_admin (user_data : UserCreate)
           (creds : HTTPAuthorizationCredentials) (salt : string)
           (now : datetime) : M User :=
  current_admin <- DependsJWT.get_current_admin_user creds now ;;
  auth_router.create_admin_user user_data current_admin salt.

Definition users (creds : HTTPAuthorizationCredentials) (now : datetime)
  : M (list User) :=
  current_admin <- DependsJWT.get_current_admin_user creds now ;;
  auth_router.list_all_users current_admin.

End Routes.
End AuthRoutes.

(* ================================================================= *)
(** ** create_default_users.py *)

Module default_users.
Section Script.
Context `{Bcrypt}.

(** [create_default_users()].  The three salts are those drawn while
    the passwords are hashed.  The rows are added in order and written
    by one commit; on any exception the script rolls back and returns. *)
Definition create_default_users (salt1 salt2 salt3 : string) : M unit :=
  fun db =>
    match query_count db with
    | (Ok existing_users, _) =>
        if 0 <? existing_users then (Ok tt, db)
        else
          match jwt_auth.hash_password "admin123" salt1,
                jwt_auth.hash_password "client123" salt2,
                jwt_auth.hash_password "demo123" salt3 with
          | Ok hashed1, Ok hashed2, Ok hashed3 =>
              let admin_user :=
                mkUser 0 "admin" "admin@example.com" (Some "Admin User")
                       hashed1 (Some ADMIN) true in
              let client_user :=
                mkUser 0 "client" "client@example.com" (Some "Client User")
                       hashed2 (Some CLIENT) true in
              let demo_admin :=
                mkUser 0 "demoadmin" "demoadmin@example.com"
                       (Some "Demo Admin") hashed3 (Some ADMIN) true in
              match (_ <- add_commit_refresh admin_user ;;
                     _ <- add_commit_refresh client_user ;;
                     _ <- add_commit_refresh demo_admin ;;
                     ret tt) db with
              | (Ok _, db') => (Ok tt, db')
              | (Raise _, _) => (Ok tt, db)       (* db.rollback() *)
              end
          | _, _, _ => (Ok tt, db)                (* db.rollback() *)
          end
    | (Raise e, db') => (Raise e, db')
    end.

End Script.
End default_users.

(* ================================================================= *)
(** ** models.py and schemas.py: employees and tasks *)

Inductive TaskStatus : Type :=
| PENDING
| IN_PROGRESS
| COMPLETED.

Definition TaskStatus_eqb (a b : TaskStatus) : bool :=
  match a, b with
  | PENDING, PENDING | IN_PROGRESS, IN_PROGRESS | COMPLETED, COMPLETED => true
  | _, _ => false
  end.

Module Employee.
Record t : Type := mk {
  id : Z;
  name : string;
  email : string;
  role : string;
  phone : option string
}.
End Employee.

Module Task.
Record t : Type := mk {
  id : Z;
  title : string;
  description : string;
  status : TaskStatus;
  employee_id : option Z
}.
End Task.

Record EmployeeCreate : Type := mkEmployeeCreate {
  ec_name : string;
  ec_email : string;
  ec_role : string
}.

(** A field of an update schema: left out of the request ([Unset]) or
    given, possibly as [null] ([Given None]).  All fields default to
    [None]; [model_dump(exclude_unset=True)] keeps the given ones. *)
Inductive Field (A : Type) : Type :=
| Unset
| Given (v : option A).
Arguments Unset {A}.
Arguments Given {A} v.

(** Attribute access on the schema object. *)
Definition field_value {A} (f : Field A) : option A :=
  match f with
  | Unset => None
  | Given v => v
  end.

Record EmployeeUpdate : Type := mkEmployeeUpdate {
  eu_name : Field string;
  eu_email : Field string;
  eu_role : Field string
}.

(** [EmployeeResponse.model_validate(emp)] *)
Record EmployeeResponse : Type := mkEmployeeResponse {
  er_id : Z;
  er_name : string;
  er_email : string;
  er_role : string
}.

Definition EmployeeResponse_model_validate (emp : Employee.t)
  : EmployeeResponse :=
  mkEmployeeResponse (Employee.id emp) (Employee.name emp)
                     (Employee.email emp) (Employee.role emp).

Record TaskCreate : Type := mkTaskCreate {
  tc_title : string;
  tc_description : string;
  tc_status : TaskStatus;
  tc_employee_id : option Z
}.

Record TaskUpdate : Type := mkTaskUpdate {
  tu_title : Field string;
  tu_description : Field string;
  tu_status : Field TaskStatus;
  tu_employee_id : Field Z
}.

(** [TaskWithEmployee.model_validate(task)]: the task and, through the
    relationship, the employee it points to. *)
Record TaskWithEmployee : Type := mkTaskWithEmployee {
  twe_task : Task.t;
  twe_employee : option EmployeeResponse
}.

(** The dictionaries returned by the two listing routes. *)
Record Page (A : Type) : Type := mkPage {
  total : Z;
  page_skip : Z;
  page_limit : Z;
  items : list A
}.
Arguments mkPage {A}.
Arguments total {A}.
Arguments page_skip {A}.
Arguments page_limit {A}.
Arguments items {A}.

(** [str(n)] for an [int], as an f-string prints it. *)
Definition str_int (n : Z) : string :=
  NilZero.string_of_int (Z.to_int n).

(** [bool(n)] for an [int]. *)
Definition truthy_int (n : Z) : bool := negb (n =? 0).

(* ================================================================= *)
(** ** database.py: the three tables

    [foreign_keys] tells whether the engine enforces the foreign key of
    [tasks.employee_id] (PostgreSQL does; SQLite, as it is opened here,
    does not).  [ilike] is the engine's case-insensitive [LIKE].  The
    queries of the routers have no [ORDER BY]; rows come back in table
    order. *)

Record Database : Type := mkDatabase {
  foreign_keys : bool;
  users : Session;
  employees : list Employee.t;
  tasks : list Task.t
}.

Class Ilike : Type := {
  (** [column.ilike(pattern)] on a column value *)
  ilike : string -> string -> bool
}.

Definition Tx (A : Type) : Type := Database -> Result A * Database.

Definition tx_ret {A} (a : A) : Tx A := fun d => (Ok a, d).

Definition tx_raise {A} (e : exn) : Tx A := fun d => (Raise e, d).

Definition tx_bind {A B} (m : Tx A) (k : A -> Tx B) : Tx B :=
  fun d =>
    match m d with
    | (Ok a, d') => k a d'
    | (Raise e, d') => (Raise e, d')
    end.

Declare Scope tx_scope.
Delimit Scope tx_scope with tx.
Notation "x <- m ;; k" := (tx_bind m (fun x => k))
  (at level 61, m at next level, right associativity) : tx_scope.

(** Code that uses only the [users] table, run on the whole database. *)
Definition with_users {A} (m : M A) : Tx A :=
  fun d =>
    match m (users d) with
    | (r, s) => (r, mkDatabase (foreign_keys d) s (employees d) (tasks d))
    end.

(** The driver passes a Python [int] to the engine as a parameter of a
    statement only if it fits a signed 64-bit integer; on any other it
    raises [OverflowError] (sqlite3, the engine of [database.py]). *)
Definition binds (n : Z) : bool := (- 2 ^ 63 <=? n) && (n <? 2 ^ 63).

Definition binds_opt (n : option Z) : bool :=
  match n with
  | Some i => binds i
  | None => true                        (* [None] is sent as NULL *)
  end.

Definition OverflowError : exn := Exception "OverflowError".

Definition employee_by_id (i : Z) (d : Database) : option Employee.t :=
  find (fun e => Employee.id e =? i) (employees d).

Definition employee_by_email (a : string) (d : Database)
  : option Employee.t :=
  find (fun e => String.eqb (Employee.email e) a) (employees d).

Definition task_by_id (i : Z) (d : Database) : option Task.t :=
  find (fun t => Task.id t =? i) (tasks d).

Definition next_employee_id (d : Database) : Z :=
  1 + fold_right (fun e m => Z.max (Employee.id e) m) 0 (employees d).

Definition next_task_id (d : Database) : Z :=
  1 + fold_right (fun t m => Z.max (Task.id t) m) 0 (tasks d).

(** The foreign key of a task row holds, or is not enforced. *)
Definition foreign_key_ok (d : Database) (employee_id : option Z) : bool :=
  match employee_id with
  | None => true
  | Some i =>
      negb (foreign_keys d)
      || existsb (fun e => Employee.id e =? i) (employees d)
  end.

(** [db.add(e); db.commit(); db.refresh(e)] for a new employee:
    [employees.email] is unique. *)
Definition insert_employee (name email role : string) : Tx Employee.t :=
  fun d =>
    if existsb (fun e => String.eqb (Employee.email e) email) (employees d)
    then (Raise (IntegrityError "employees.email"), d)
    else
      let row := Employee.mk (next_employee_id d) name email role None in
      (Ok row,
       mkDatabase (foreign_keys d) (users d)
                  (employees d ++ [row])%list (tasks d)).

(** [db.commit(); db.refresh(e)] after attributes of the row [e] were
    set: the row with the key of [e] becomes [e], unless its email is
    the email of another row. *)
Definition update_employee_row (e : Employee.t) : Tx Employee.t :=
  fun d =>
    if existsb (fun r => negb (Employee.id r =? Employee.id e)
                         && String.eqb (Employee.email r) (Employee.email e))
               (employees d)
    then (Raise (IntegrityError "employees.email"), d)
    else
      (Ok e,
       mkDatabase (foreign_keys d) (users d)
                  (map (fun r => if Employee.id r =? Employee.id e
                                 then e else r) (employees d))
                  (tasks d)).

(** [db.delete(e); db.commit()]: the relationship [Employee.tasks]
    cascades, the tasks of the employee are deleted with it. *)
Definition delete_employee_row (e : Employee.t) : Tx unit :=
  fun d =>
    (Ok tt,
     mkDatabase (foreign_keys d) (users d)
                (filter (fun r => negb (Employee.id r =? Employee.id e))
                        (employees d))
                (filter (fun t =>
                           match Task.employee_id t with
                           | Some i => negb (i =? Employee.id e)
                           | None => true
                           end) (tasks d))).

(** [db.add(t); db.commit(); db.refresh(t)] for a new task.  The
    [employee_id] written is one [create_task] looked up before, 0 or
    none. *)
Definition insert_task (title description : string) (status : TaskStatus)
           (employee_id : option Z) : Tx Task.t :=
  fun d =>
    if negb (foreign_key_ok d employee_id)
    then (Raise (IntegrityError "tasks.employee_id"), d)
    else
      let row := Task.mk (next_task_id d) title description status
                         employee_id in
      (Ok row,
       mkDatabase (foreign_keys d) (users d) (employees d)
                  (tasks d ++ [row])%list).

(** [db.commit(); db.refresh(t)] after attributes of the row [t] were
    set.  The [employee_id] written is a parameter of the statement and
    must bind.  The foreign key of the written row is checked whenever
    the engine enforces it; an engine that checks it only when the
    column changes behaves the same on tables whose references hold. *)
Definition update_task_row (t : Task.t) : Tx Task.t :=
  fun d =>
    if negb (binds_opt (Task.employee_id t))
    then (Raise OverflowError, d)
    else if negb (foreign_key_ok d (Task.employee_id t))
    then (Raise (IntegrityError "tasks.employee_id"), d)
    else
      (Ok t,
       mkDatabase (foreign_keys d) (users d) (employees d)
                  (map (fun r => if Task.id r =? Task.id t then t else r)
                       (tasks d))).

(** [db.delete(t); db.commit()] *)
Definition delete_task_row (t : Task.t) : Tx unit :=
  fun d =>
    (Ok tt,
     mkDatabase (foreign_keys d) (users d) (employees d)
                (filter (fun r => negb (Task.id r =? Task.id t)) (tasks d))).

(** [setattr] of a given field on a column that is not nullable: a
    [null] makes the commit fail. *)
Definition set_required {A} (f : Field A) (old : A) : option A :=
  match f with
  | Unset => Some old
  | Given (Some v) => Some v
  | Given None => None
  end.

(** [setattr] of a given field on a nullable column. *)
Definition set_nullable {A} (f : Field A) (old : option A) : option A :=
  match f with
  | Unset => old
  | Given v => v
  end.

(** The queries of the two routers.  The key looked up is a parameter of
    the query: it binds if it is the key of a row, which the engine
    stored, and otherwise only if it fits 64 bits. *)
Definition query_employee_by_id (i : Z) : Tx (option Employee.t) :=
  fun d =>
    match employee_by_id i d with
    | Some e => (Ok (Some e), d)
    | None => if binds i then (Ok None, d) else (Raise OverflowError, d)
    end.

Definition query_employee_by_email (a : string) : Tx (option Employee.t) :=
  fun d => (Ok (employee_by_email a d), d).

Definition query_task_by_id (i : Z) : Tx (option Task.t) :=
  fun d =>
    match task_by_id i d with
    | Some t => (Ok (Some t), d)
    | None => if binds i then (Ok None, d) else (Raise OverflowError, d)
    end.

(** The rows [query.offset(skip).limit(limit).all()] returns, when
    [skip] and [limit] bind. *)
Definition offset_limit {A} (skip limit : Z) (query : list A) : list A :=
  firstn (Z.to_nat limit) (skipn (Z.to_nat skip) query).

Definition HTTP_404_NOT_FOUND : Z := 404.

(* ================================================================= *)
(** ** routers/employees.py: the bodies of the routes *)

Module employees_router.
Local Open Scope tx_scope.

Definition employee_not_found (employee_id : Z) : exn :=
  HTTPException HTTP_404_NOT_FOUND
    ("Employee with ID " ++ str_int employee_id ++ " not found") [].

Definition email_exists (email : string) : exn :=
  HTTPException HTTP_400_BAD_REQUEST
    ("Employee with email '" ++ email ++ "' already exists") [].

Definition create_employee (employee : EmployeeCreate) : Tx Employee.t :=
  existing_employee <- query_employee_by_email (ec_email employee) ;;
  match existing_employee with
  | Some _ => tx_raise (email_exists (ec_email employee))
  | None =>
      insert_employee (ec_name employee) (ec_email employee)
                      (ec_role employee)
  end.

Section Listing.
Context `{Ilike}.

Definition get_all_employees (skip limit : Z)
           (role search : option string) : Tx (Page EmployeeResponse) :=
  fun d =>
    let query := employees d in
    let query :=
      match role with
      | Some r =>
          if truthy_str r then
            filter (fun e => ilike (Employee.role e) ("%" ++ r ++ "%")) query
          else query
      | None => query
      end in
    let query :=
      match search with
      | Some s =>
          if truthy_str s then
            let search_term := "%" ++ s ++ "%" in
            filter (fun e => ilike (Employee.name e) search_term
                             || ilike (Employee.email e) search_term) query
          else query
      | None => query
      end in
    let total := Z.of_nat (length query) in
    if binds skip && binds limit then
      let employees := offset_limit skip limit query in
      (Ok (mkPage total skip limit
                  (map EmployeeResponse_model_validate employees)), d)
    else (Raise OverflowError, d).

End Listing.

Definition get_employee_by_id (employee_id : Z) : Tx Employee.t :=
  employee <- query_employee_by_id employee_id ;;
  match employee with
  | None => tx_raise (employee_not_found employee_id)
  | Some employee => tx_ret employee
  end.

Definition update_employee (employee_id : Z)
           (employee_update : EmployeeUpdate) : Tx Employee.t :=
  db_employee <- query_employee_by_id employee_id ;;
  match db_employee with
  | None => tx_raise (employee_not_found employee_id)
  | Some db_employee =>
      (* the rows to write, after the email check *)
      let write : Tx Employee.t :=
        match set_required (eu_name employee_update)
                           (Employee.name db_employee),
              set_required (eu_email employee_update)
                           (Employee.email db_employee),
              set_required (eu_role employee_update)
                           (Employee.role db_employee) with
        | Some n, Some a, Some r =>
            update_employee_row
              (Employee.mk (Employee.id db_employee) n a r
                           (Employee.phone db_employee))
        | _, _, _ => tx_raise (IntegrityError "NOT NULL")
        end in
      match field_value (eu_email employee_update) with
      | Some email =>
          if truthy_str email
             && negb (String.eqb email (Employee.email db_employee))
          then
            existing <- query_employee_by_email email ;;
            match existing with
            | Some _ => tx_raise (email_exists email)
            | None => write
            end
          else write
      | None => write
      end
  end.

Definition delete_employee (employee_id : Z) : Tx unit :=
  db_employee <- query_employee_by_id employee_id ;;
  match db_employee with
  | None => tx_raise (employee_not_found employee_id)
  | Some db_employee => delete_employee_row db_employee
  end.

End employees_router.

(* ================================================================= *)
(** ** routers/tasks.py: the bodies of the routes *)

Module tasks_router.
Local Open Scope tx_scope.

Definition task_not_found (task_id : Z) : exn :=
  HTTPException HTTP_404_NOT_FOUND
    ("Task with ID " ++ str_int task_id ++ " not found") [].

Definition employee_not_found (employee_id : Z) : exn :=
  HTTPException HTTP_404_NOT_FOUND
    ("Employee with ID " ++ str_int employee_id ++ " not found") [].

Definition create_task (task : TaskCreate) : Tx Task.t :=
  let add : Tx Task.t :=
    insert_task (tc_title task) (tc_description task) (tc_status task)
                (tc_employee_id task) in
  match tc_employee_id task with
  | Some i =>
      if truthy_int i then
        employee <- query_employee_by_id i ;;
        match employee with
        | None => tx_raise (employee_not_found i)
        | Some _ => add
        end
      else add
  | None => add
  end.

(** The employee a task row shows through its relationship. *)
Definition task_with_employee (d : Database) (t : Task.t)
  : TaskWithEmployee :=
  mkTaskWithEmployee t
    match Task.employee_id t with
    | Some i => option_map EmployeeResponse_model_validate
                           (employee_by_id i d)
    | None => None
    end.

Section Listing.
Context `{Ilike}.

Definition get_all_tasks (skip limit : Z)
           (status_filter : option TaskStatus) (employee_id : option Z)
           (search : option string) : Tx (Page TaskWithEmployee) :=
  fun d =>
    let query := tasks d in
    let query :=
      match status_filter with
      | Some st => filter (fun t => TaskStatus_eqb (Task.status t) st) query
      | None => query
      end in
    let query :=
      match employee_id with
      | Some i =>
          filter (fun t => match Task.employee_id t with
                           | Some j => j =? i
                           | None => false
                           end) query
      | None => query
      end in
    let query :=
      match search with
      | Some s =>
          if truthy_str s then
            let search_term := "%" ++ s ++ "%" in
            filter (fun t => ilike (Task.title t) search_term
                             || ilike (Task.description t) search_term)
                   query
          else query
      | None => query
      end in
    if negb (binds_opt employee_id)
    then (Raise OverflowError, d)       (* at [query.count()] *)
    else
      let total := Z.of_nat (length query) in
      if binds skip && binds limit then
        let tasks := offset_limit skip limit query in
        (Ok (mkPage total skip limit (map (task_with_employee d) tasks)), d)
      else (Raise OverflowError, d).

End Listing.

Definition get_task_by_id (task_id : Z) : Tx Task.t :=
  task <- query_task_by_id task_id ;;
  match task with
  | None => tx_raise (task_not_found task_id)
  | Some task => tx_ret task
  end.

Definition update_task (task_id : Z) (task_update : TaskUpdate)
  : Tx Task.t :=
  db_task <- query_task_by_id task_id ;;
  match db_task with
  | None => tx_raise (task_not_found task_id)
  | Some db_task =>
      let write : Tx Task.t :=
        match set_required (tu_title task_update) (Task.title db_task),
              set_required (tu_description task_update)
                           (Task.description db_task),
              set_required (tu_status task_update) (Task.status db_task)
        with
        | Some ti, Some de, Some st =>
            update_task_row
              (Task.mk (Task.id db_task) ti de st
                       (set_nullable (tu_employee_id task_update)
                                     (Task.employee_id db_task)))
        | _, _, _ => tx_raise (IntegrityError "NOT NULL")
        end in
      match field_value (tu_employee_id task_update) with
      | Some i =>
          if 0 <? i then
            employee <- query_employee_by_id i ;;
            match employee with
            | None => tx_raise (employee_not_found i)
            | Some _ => write
            end
          else write
      | None => write
      end
  end.

Definition delete_task (task_id : Z) : Tx unit :=
  db_task <- query_task_by_id task_id ;;
  match db_task with
  | None => tx_raise (task_not_found task_id)
  | Some db_task => delete_task_row db_task
  end.

Definition assign_task_to_employee (task_id employee_id : Z)
  : Tx Task.t :=
  db_task <- query_task_by_id task_id ;;
  match db_task with
  | None => tx_raise (task_not_found task_id)
  | Some db_task =>
      db_employee <- query_employee_by_id employee_id ;;
      match db_employee with
      | None => tx_raise (employee_not_found employee_id)
      | Some _ =>
          update_task_row
            (Task.mk (Task.id db_task) (Task.title db_task)
                     (Task.description db_task) (Task.status db_task)
                     (Some employee_id))
      end
  end.

End tasks_router.

(* ================================================================= *)
(** ** The protected routes, each behind its dependency *)

Module App.
Local Open Scope tx_scope.

Definition create_employee (req : Request) (now : datetime)
           (employee : EmployeeCreate) : Tx Employee.t :=
  current_user <- with_users (Depends.require_authentication req now) ;;
  employees_router.create_employee employee.

Definition update_employee (req : Request) (now : datetime)
           (employee_id : Z) (employee_update : EmployeeUpdate)
  : Tx Employee.t :=
  current_user <- with_users (Depends.require_authentication req now) ;;
  employees_router.update_employee employee_id employee_update.

Definition delete_employee (req : Request) (now : datetime)
           (employee_id : Z) : Tx unit :=
  current_admin <- with_users (Depends.require_admin req now) ;;
  employees_router.delete_employee employee_id.

Definition create_task (req : Request) (now : datetime)
           (task : TaskCreate) : Tx Task.t :=
  current_user <- with_users (Depends.require_authentication req now) ;;
  tasks_router.create_task task.

Definition update_task (req : Request) (now : datetime)
           (task_id : Z) (task_update : TaskUpdate) : Tx Task.t :=
  current_user <- with_users (Depends.require_authentication req now) ;;
  tasks_router.update_task task_id task_update.

Definition delete_task (req : Request) (now : datetime) (task_id : Z)
  : Tx unit :=
  current_admin <- with_users (Depends.require_admin req now) ;;
  tasks_router.delete_task task_id.

Definition assign_task_to_employee (req : Request) (now : datetime)
           (task_id employee_id : Z) : Tx Task.t :=
  current_user <- with_users (Depends.require_authentication req now) ;;
  tasks_router.assign_task_to_employee task_id employee_id.

End App.

(* ================================================================= *)
(** ** Vocabulary of the properties *)

Import jwt_auth.

(** The reasons for which bearer verification rejects a token: a string
    on which jose raises a [JWTError], an algorithm other than the
    configured one, a signature made with another key, an expiry before
    the current second, a not-before after it, an audience or an
    access-token hash claim, no subject, a subject that names no row.
    A string on which jose raises outside [JWTError] is not among them:
    verification does not reject it, the exception leaves the
    dependency. *)
Inductive BearerFailure (db : Session) (now : datetime)
  : jwt.Token -> Prop :=
| Fail_undecodable raw :
    BearerFailure db now (jwt.Undecodable raw jwt.RaisesJWTError)
| Fail_algorithm alg k c :
    alg <> ALGORITHM ->
    BearerFailure db now (jwt.Signed alg k c)
| Fail_signature alg k c :
    k <> SECRET_KEY ->
    BearerFailure db now (jwt.Signed alg k c)
| Fail_expired alg k c e :
    jwt.exp c = Some e -> e < timegm now ->
    BearerFailure db now (jwt.Signed alg k c)
| Fail_not_yet_valid alg k c n :
    jwt.nbf c = Some n -> timegm now < n ->
    BearerFailure db now (jwt.Signed alg k c)
| Fail_audience alg k c a :
    jwt.aud c = Some a ->
    BearerFailure db now (jwt.Signed alg k c)
| Fail_at_hash alg k c h :
    jwt.at_hash c = Some h ->
    BearerFailure db now (jwt.Signed alg k c)
| Fail_no_subject alg k c :
    jwt.sub c = None ->
    BearerFailure db now (jwt.Signed alg k c)
| Fail_unknown_subject alg k c name :
    jwt.sub c = Some name ->
    find (fun u => String.eqb (username u) name) db = None ->
    BearerFailure db now (jwt.Signed alg k c).

(** The registered claims of a payload pass jose's validation, apart
    from [exp]. *)
Definition registered_claims_pass (now : datetime) (c : jwt.Payload)
  : Prop :=
  (forall n, jwt.nbf c = Some n -> n <= timegm now)
  /\ jwt.aud c = None
  /\ jwt.at_hash c = None.

(** A token that bearer verification accepts, and the row it names. *)
Definition BearerValid (db : Session) (now : datetime)
           (token : jwt.Token) (u : User) : Prop :=
  exists c name,
    token = jwt.Signed ALGORITHM SECRET_KEY c
    /\ (forall e, jwt.exp c = Some e -> timegm now <= e)
    /\ jwt.sub c = Some name
    /\ find (fun r => String.eqb (username r) name) db = Some u
    /\ registered_claims_pass now c.

(** A token on which jose raises outside [JWTError]. *)
Definition BearerCrash (token : jwt.Token) (class_name : string) : Prop :=
  exists raw, token = jwt.Undecodable raw (jwt.RaisesOther class_name).

(** The bearer scheme yields no identity: no credentials, or credentials
    that fail verification ([get_current_user] raises its 401). *)
Definition bearer_yields_nothing (db : Session) (now : datetime)
           (b : option HTTPAuthorizationCredentials) : Prop :=
  match b with
  | None => True
  | Some creds => BearerFailure db now (credentials creds)
  end.

(** The failures of the specification, as the exceptions the code
    raises for them. *)
Definition InvalidApiKey : exn :=
  HTTPException 401 "Invalid API Key" [("WWW-Authenticate", "ApiKey")].

Definition Unauthenticated : exn :=
  HTTPException 401
    "Authentication required. Provide either JWT token (Authorization: Bearer) or API Key (X-API-Key)"
    [("WWW-Authenticate", "Bearer")].

Definition Forbidden : exn :=
  HTTPException 403 "Admin privileges required" [].

Definition InvalidCredentials : exn :=
  HTTPException 401 "Incorrect username or password"
                [("WWW-Authenticate", "Bearer")].

Definition AlreadyExists_username : exn :=
  HTTPException 400 "Username already registered" [].

Definition AlreadyExists_email : exn :=
  HTTPException 400 "Email already registered" [].

Definition Forbidden_self_admin : exn :=
  HTTPException 403
    "Cannot self-register as admin. Please contact an existing admin." [].

(** The lifetime [create_access_token] gives a token. *)
Definition lifetime (expires_delta : option timedelta) : timedelta :=
  match expires_delta with
  | Some d =>
      if truthy_timedelta d then d
      else timedelta_minutes ACCESS_TOKEN_EXPIRE_MINUTES
  | None => timedelta_minutes ACCESS_TOKEN_EXPIRE_MINUTES
  end.

(** The three ways a login attempt fails. *)
Inductive LoginFailure `{Bcrypt} (db : Session) (user_data : UserLogin)
  : Prop :=
| Login_unknown_username :
    find (fun u => String.eqb (username u) (ul_username user_data)) db
    = None ->
    LoginFailure db user_data
| Login_wrong_password u :
    find (fun u => String.eqb (username u) (ul_username user_data)) db
    = Some u ->
    verify_password (ul_password user_data) (hashed_password u) = false ->
    LoginFailure db user_data
| Login_inactive u :
    find (fun u => String.eqb (username u) (ul_username user_data)) db
    = Some u ->
    verify_password (ul_password user_data) (hashed_password u) = true ->
    is_active u = false ->
    LoginFailure db user_data.

Definition username_taken (db : Session) (name : string) : bool :=
  existsb (fun u => String.eqb (username u) name) db.

Definition email_taken (db : Session) (addr : string) : bool :=
  existsb (fun u => String.eqb (email u) addr) db.

(* ================================================================= *)
(** ** Sample data (after create_default_users.py) *)

Module Sample.

(** A stand-in for bcrypt: the hash is the password behind a prefix. *)
Definition toy_bcrypt : Bcrypt :=
  {| bcrypt_hashpw := fun password _ => "$2b$" ++ password;
     bcrypt_checkpw := fun password hashed =>
       Some (String.eqb hashed ("$2b$" ++ password)) |}.

Definition admin_user : User :=
  mkUser 1 "admin" "admin@example.com" (Some "Admin User")
         "$2b$admin123" (Some ADMIN) true.

Definition client_user : User :=
  mkUser 2 "client" "client@example.com" (Some "Client User")
         "$2b$client123" (Some CLIENT) true.

Definition demo_admin : User :=
  mkUser 3 "demoadmin" "demoadmin@example.com" (Some "Demo Admin")
         "$2b$demo123" (Some ADMIN) true.

(** [demoadmin] after deactivation. *)
Definition demo_admin_off : User :=
  mkUser 3 "demoadmin" "demoadmin@example.com" (Some "Demo Admin")
         "$2b$demo123" (Some ADMIN) false.

Definition db0 : Session := [admin_user; client_user; demo_admin].
Definition db_off : Session := [admin_user; client_user; demo_admin_off].

(** 2024-01-01 00:00:00.25 UTC, in microseconds. *)
Definition t0 : datetime := 1704067200250000.

(** The token a login at [t0] hands to [u]. *)
Definition token_of (u : User) : jwt.Token :=
  create_access_token
    (jwt.mkClaims (Some (username u))
                  (option_map UserRole_value (role u)) None)
    (Some (timedelta_minutes ACCESS_TOKEN_EXPIRE_MINUTES)) t0.

Definition bearer (t : jwt.Token) : HTTPAuthorizationCredentials :=
  mkCredentials "Bearer" t.

(** A token whose header segment decodes to JSON nested deeper than the
    interpreter's recursion limit: jose's header parser raises
    [RecursionError].  No key is needed to make one. *)
Definition nested_header : jwt.Token :=
  jwt.Undecodable "[[[[...]]]].e30.sig" (jwt.RaisesOther "RecursionError").

(** A token for [client], signed with the configured key, with no [exp]
    and an [nbf] one hour after [t0]. *)
Definition token_not_before : jwt.Token :=
  jwt.Signed ALGORITHM SECRET_KEY
    (jwt.mkPayload (Some "client") (Some "client") None None
                   (Some (timegm t0 + 3600)) None None None None).

End Sample.

(* ================================================================= *)
(** ** Vocabulary of the further properties *)

(** A key that fits a signed 64-bit integer. *)
Definition int64 (n : Z) : Prop := - 2 ^ 63 <= n < 2 ^ 63.

(** What a route answers when it looks up the key [i] and no row has
    it: [not_found], if the key binds. *)
Definition no_row {A} (i : Z) (not_found : exn) (d : Database)
  : Result A * Database :=
  if binds i then (Raise not_found, d) else (Raise OverflowError, d).

(** A password that [hashpw] takes: at most 72 bytes. *)
Definition bcrypt_takes (password : string) : Prop :=
  Z.of_nat (String.length password) <= 72.

(** [checkpw] accepts a password that [hashpw] takes against its own
    hash. *)
Definition bcrypt_correct `{Bcrypt} : Prop :=
  forall password salt,
    bcrypt_takes password ->
    bcrypt_checkpw password (bcrypt_hashpw password salt) = Some true.

(** The row [create_user] writes into a table. *)
Definition new_row `{Bcrypt} (db : Session) (n e p : string)
           (f : option string) (r : UserRole) (salt : string) : User :=
  mkUser (next_id db) n e f (bcrypt_hashpw p salt) (Some r) true.

(** The uniqueness the [users] table declares. *)
Definition users_unique (db : Session) : Prop :=
  NoDup (map id db) /\ NoDup (map username db) /\ NoDup (map email db).

Definition count_admins (db : Session) : nat :=
  length (filter (fun u => negb (role_ne (role u) ADMIN)) db).

(** Every task that names an employee names a row of [employees]. *)
Definition references_hold (d : Database) : Prop :=
  forall t i,
    In t (tasks d) -> Task.employee_id t = Some i ->
    exists e, In e (employees d) /\ Employee.id e = i.

Definition employee_ids_unique (d : Database) : Prop :=
  NoDup (map Employee.id (employees d)).

Definition task_ids_unique (d : Database) : Prop :=
  NoDup (map Task.id (tasks d)).

(** The row an update leaves, when no [null] goes into a column that
    is not nullable. *)
Definition task_after_update (u : TaskUpdate) (t : Task.t)
  : option Task.t :=
  match set_required (tu_title u) (Task.title t),
        set_required (tu_description u) (Task.description t),
        set_required (tu_status u) (Task.status t) with
  | Some ti, Some de, Some st =>
      Some (Task.mk (Task.id t) ti de st
                    (set_nullable (tu_employee_id u) (Task.employee_id t)))
  | _, _, _ => None
  end.

Definition employee_after_update (u : EmployeeUpdate) (e : Employee.t)
  : option Employee.t :=
  match set_required (eu_name u) (Employee.name e),
        set_required (eu_email u) (Employee.email e),
        set_required (eu_role u) (Employee.role e) with
  | Some n, Some a, Some r =>
      Some (Employee.mk (Employee.id e) n a r (Employee.phone e))
  | _, _, _ => None
  end.

(** The tasks of one employee. *)
Definition tasks_of (i : Z) (d : Database) : list Task.t :=
  filter (fun t => match Task.employee_id t with
                   | Some j => j =? i
                   | None => false
                   end) (tasks d).

Module Sample2.

(** A stand-in for [ILIKE]: the pattern is the value between two
    percent signs. *)
Definition toy_ilike : Ilike :=
  {| ilike := fun value pattern =>
       String.eqb pattern ("%" ++ value ++ "%") |}.

Definition john : Employee.t :=
  Employee.mk 1 "John Doe" "john.doe@company.com" "Software Engineer" None.

Definition jane : Employee.t :=
  Employee.mk 2 "Jane Smith" "jane.smith@company.com" "Project Manager"
              None.

Definition task1 : Task.t :=
  Task.mk 1 "Implement User Authentication"
          "Add JWT-based authentication to the API" IN_PROGRESS (Some 1).

Definition task2 : Task.t :=
  Task.mk 2 "Write release notes" "Summarize the changes" PENDING (Some 2).

Definition task3 : Task.t :=
  Task.mk 3 "Clean the backlog" "Close stale tickets" PENDING None.

Definition d0 : Database :=
  mkDatabase false Sample.db0 [john; jane] [task1; task2; task3].

Definition client_request : Request :=
  mkRequest (Some (Sample.bearer (Sample.token_of Sample.client_user)))
            None.

Definition admin_request : Request :=
  mkRequest (Some (Sample.bearer (Sample.token_of Sample.admin_user)))
            None.

Definition api_key_request : Request :=
  mkRequest None (Some auth.API_KEY).

(** A registration into [db0], and what it returns. *)
Definition eve_create : UserCreate :=
  mkUserCreate "eve" "eve@example.com" None "evepass" CLIENT.

Definition eve_row : User :=
  mkUser 4 "eve" "eve@example.com" None "$2b$evepass" (Some CLIENT) true.

Definition eve_response : TokenResponse :=
  mkTokenResponse
    (create_access_token
       (jwt.mkClaims (Some "eve") (Some "client") None)
       (Some (timedelta_minutes 1440)) Sample.t0)
    "bearer" eve_row.

(** A password of 73 bytes, within the 100 characters that
    [UserCreate] allows. *)
Definition long_password : string :=
  "correct horse battery staple correct horse battery staple correct horse b".

(** What a login of [admin] at [t0] returns. *)
Definition admin_response : TokenResponse :=
  mkTokenResponse (Sample.token_of Sample.admin_user) "bearer"
                  Sample.admin_user.

End Sample2.

(* ================================================================= *)
(** * Properties *)

(** ** Bearer verification *)

Ltac unfold_bearer :=
  unfold get_current_user, decode_subject, jwt.decode, get_user_by_username,
    query_first, bind, lift, ret, raise.

Lemma algorithm_listed (alg : string) :
  existsb (String.eqb alg) [ALGORITHM] = String.eqb alg ALGORITHM.
Proof. simpl. now rewrite orb_false_r. Qed.

(** What [validate_claims] raises is a [JWTError]. *)
Lemma validate_claims_raises (c : jwt.Payload) (now : datetime) (e : exn) :
  jwt.validate_claims c now = Raise e -> exists kind, e = JWTError kind.
Proof.
  unfold jwt.validate_claims.
  repeat match goal with
         | |- context [if ?b then _ else _] => destruct b
         end; intros [= <-]; eauto.
Qed.

(** The payloads that pass [validate_claims]. *)
Lemma validate_claims_ok (c : jwt.Payload) (now : datetime) :
  jwt.validate_claims c now = Ok tt <->
  (forall e, jwt.exp c = Some e -> timegm now <= e)
  /\ registered_claims_pass now c.
Proof.
  unfold jwt.validate_claims, registered_claims_pass. split.
  - destruct (jwt.nbf c) as [n |]; [destruct (Z.ltb_spec (timegm now) n) |];
      try discriminate;
      (destruct (jwt.exp c) as [e |];
       [destruct (Z.ltb_spec e (timegm now)) |]);
      try discriminate;
      (destruct (jwt.aud c); [discriminate |]);
      (destruct (jwt.at_hash c); [discriminate |]);
      intros _;
      (split; [| split; [| split; reflexivity]]);
      intros z Hz; inversion Hz; subst; assumption.
  - intros (Hexp & Hnbf & -> & ->).
    destruct (jwt.nbf c) as [n |].
    + specialize (Hnbf n eq_refl).
      destruct (Z.ltb_spec (timegm now) n); [lia |].
      destruct (jwt.exp c) as [e |]; [| reflexivity].
      specialize (Hexp e eq_refl).
      destruct (Z.ltb_spec e (timegm now)); [lia | reflexivity].
    + destruct (jwt.exp c) as [e |]; [| reflexivity].
      specialize (Hexp e eq_refl).
      destruct (Z.ltb_spec e (timegm now)); [lia | reflexivity].
Qed.

(** The payloads that [validate_claims] refuses. *)
Lemma validate_claims_refuses (c : jwt.Payload) (now : datetime) :
  (exists e, jwt.validate_claims c now = Raise e) <->
  (exists e, jwt.exp c = Some e /\ e < timegm now)
  \/ (exists n, jwt.nbf c = Some n /\ timegm now < n)
  \/ (exists a, jwt.aud c = Some a)
  \/ (exists h, jwt.at_hash c = Some h).
Proof.
  unfold jwt.validate_claims. split.
  - intros [x Hx]. revert Hx.
    destruct (jwt.nbf c) as [n |].
    + destruct (Z.ltb_spec (timegm now) n); [intros _; eauto 6 |].
      destruct (jwt.exp c) as [e |].
      * destruct (Z.ltb_spec e (timegm now)); [intros _; eauto 6 |].
        destruct (jwt.aud c); [intros _; eauto 6 |].
        destruct (jwt.at_hash c); [intros _; eauto 6 | discriminate].
      * destruct (jwt.aud c); [intros _; eauto 6 |].
        destruct (jwt.at_hash c); [intros _; eauto 6 | discriminate].
    + destruct (jwt.exp c) as [e |].
      * destruct (Z.ltb_spec e (timegm now)); [intros _; eauto 6 |].
        destruct (jwt.aud c); [intros _; eauto 6 |].
        destruct (jwt.at_hash c); [intros _; eauto 6 | discriminate].
      * destruct (jwt.aud c); [intros _; eauto 6 |].
        destruct (jwt.at_hash c); [intros _; eauto 6 | discriminate].
  - intros [(e & -> & He) | [(n & -> & Hn) | [(a & ->) | (h & ->)]]].
    + destruct (jwt.nbf c) as [n |].
      * destruct (timegm now <? n); [eauto |].
        destruct (Z.ltb_spec e (timegm now)); [eauto | lia].
      * destruct (Z.ltb_spec e (timegm now)); [eauto | lia].
    + destruct (Z.ltb_spec (timegm now) n); [eauto | lia].
    + repeat match goal with
             | |- context [if ?b then _ else _] => destruct b
             end; eauto.
    + repeat match goal with
             | |- context [if ?b then _ else _] => destruct b
             end; eauto.
Qed.

(** What [get_current_user] computes, as one expression. *)
Lemma get_current_user_unfold (creds : HTTPAuthorizationCredentials)
      (now : datetime) (db : Session) :
  get_current_user creds now db =
  match credentials creds with
  | jwt.Undecodable _ jwt.RaisesJWTError => (Raise credentials_exception, db)
  | jwt.Undecodable _ (jwt.RaisesOther class_name) =>
      (Raise (Exception class_name), db)
  | jwt.Signed alg k c =>
      if String.eqb alg ALGORITHM && String.eqb k SECRET_KEY then
        match jwt.validate_claims c now with
        | Raise _ => (Raise credentials_exception, db)
        | Ok _ =>
            match jwt.sub c with
            | None => (Raise credentials_exception, db)
            | Some name =>
                match find (fun u => String.eqb (username u) name) db with
                | Some u => (Ok u, db)
                | None => (Raise credentials_exception, db)
                end
            end
        end
      else (Raise credentials_exception, db)
  end.
Proof.
  unfold_bearer.
  destruct (credentials creds) as [raw [| class_name] | alg k c];
    [reflexivity | reflexivity |].
  rewrite algorithm_listed.
  destruct (String.eqb alg ALGORITHM); simpl; [| reflexivity].
  destruct (String.eqb k SECRET_KEY); simpl; [| reflexivity].
  destruct (jwt.validate_claims c now) as [[] | e] eqn:Hv.
  - destruct (jwt.sub c) as [name |]; [| reflexivity].
    now destruct (find _ db).
  - apply validate_claims_raises in Hv as [kind ->]. reflexivity.
Qed.

(** Verification only reads the table. *)
Lemma get_current_user_session (creds : HTTPAuthorizationCredentials)
      (now : datetime) (db : Session) :
  snd (get_current_user creds now db) = db.
Proof.
  rewrite get_current_user_unfold.
  repeat match goal with
         | |- context [match ?x with _ => _ end] => destruct x
         end; reflexivity.
Qed.

(** Verification raises [credentials_exception], or what jose raises
    outside [JWTError]. *)
Lemma get_current_user_raises (creds : HTTPAuthorizationCredentials)
      (now : datetime) (db : Session) (e : exn) :
  fst (get_current_user creds now db) = Raise e ->
  e = credentials_exception
  \/ exists class_name,
       BearerCrash (credentials creds) class_name
       /\ e = Exception class_name.
Proof.
  rewrite get_current_user_unfold. unfold BearerCrash.
  destruct (credentials creds) as [raw [| class_name] | alg k c].
  - simpl. intros [= <-]. now left.
  - simpl. intros [= <-]. right. eauto.
  - repeat match goal with
           | |- context [match ?x with _ => _ end] => destruct x
           end; simpl; intros [= <-]; now left.
Qed.

(** On a string where jose raises outside [JWTError], verification
    raises the same. *)
Lemma get_current_user_crash (creds : HTTPAuthorizationCredentials)
      (now : datetime) (db : Session) (class_name : string) :
  BearerCrash (credentials creds) class_name ->
  get_current_user creds now db = (Raise (Exception class_name), db).
Proof.
  intros [raw Ht]. rewrite get_current_user_unfold, Ht. reflexivity.
Qed.

Lemma get_current_user_valid (creds : HTTPAuthorizationCredentials)
      (now : datetime) (db : Session) (u : User) :
  fst (get_current_user creds now db) = Ok u <->
  BearerValid db now (credentials creds) u.
Proof.
  rewrite get_current_user_unfold. split.
  - destruct (credentials creds) as [raw [| class_name] | alg k c];
      [discriminate | discriminate |].
    destruct (String.eqb_spec alg ALGORITHM) as [-> |]; [| discriminate].
    destruct (String.eqb_spec k SECRET_KEY) as [-> |]; [| discriminate].
    simpl. intros Hok. exists c.
    destruct (jwt.validate_claims c now) as [[] | x] eqn:Hv;
      [| discriminate].
    apply validate_claims_ok in Hv as [Hexp Hreg].
    destruct (jwt.sub c) as [name |]; [| discriminate].
    destruct (find _ db) as [r |] eqn:Hf; [| discriminate].
    simpl in Hok. exists name.
    split; [reflexivity |].
    split; [assumption |].
    split; [reflexivity |].
    split; [congruence | assumption].
  - intros (c & name & -> & Hexp & Hsub & Hfind & Hreg).
    rewrite !String.eqb_refl. simpl.
    assert (Hv : jwt.validate_claims c now = Ok tt)
      by (apply validate_claims_ok; now split).
    rewrite Hv, Hsub, Hfind. reflexivity.
Qed.

Lemma get_current_user_failure (creds : HTTPAuthorizationCredentials)
      (now : datetime) (db : Session) :
  BearerFailure db now (credentials creds) <->
  get_current_user creds now db = (Raise credentials_exception, db).
Proof.
  rewrite get_current_user_unfold. split.
  - intros F.
    assert (Hr : forall alg k c,
               (exists x, jwt.validate_claims c now = Raise x) ->
               (if String.eqb alg ALGORITHM && String.eqb k SECRET_KEY then
                  match jwt.validate_claims c now with
                  | Raise _ => (Raise credentials_exception, db)
                  | Ok _ =>
                      match jwt.sub c with
                      | None => (Raise credentials_exception, db)
                      | Some name =>
                          match find (fun u => String.eqb (username u) name)
                                     db with
                          | Some u => (Ok u, db)
                          | None => (Raise credentials_exception, db)
                          end
                      end
                  end
                else (Raise credentials_exception, db))
               = (Raise credentials_exception, db)).
    { intros alg k c [x Hx]. rewrite Hx. now destruct (_ && _). }
    inversion F as
      [raw Ht | alg k c Ha Ht | alg k c Hk Ht | alg k c e He Hlt Ht
       | alg k c n Hn Hlt Ht | alg k c a Ha Ht | alg k c h Hh Ht
       | alg k c Hs Ht | alg k c name Hs Hf Ht]; clear F.
    + reflexivity.
    + destruct (String.eqb_spec alg ALGORITHM); [contradiction | reflexivity].
    + destruct (String.eqb_spec k SECRET_KEY); [contradiction |].
      now rewrite andb_false_r.
    + apply Hr, validate_claims_refuses. eauto.
    + apply Hr, validate_claims_refuses. eauto 6.
    + apply Hr, validate_claims_refuses. eauto 6.
    + apply Hr, validate_claims_refuses. eauto 6.
    + rewrite Hs. destruct (_ && _); [| reflexivity].
      now destruct (jwt.validate_claims c now).
    + rewrite Hs, Hf. destruct (_ && _); [| reflexivity].
      now destruct (jwt.validate_claims c now).
  - destruct (credentials creds) as [raw [| class_name] | alg k c];
      [constructor | discriminate |].
    destruct (String.eqb_spec alg ALGORITHM) as [-> | Ha];
      [| intros _; now apply Fail_algorithm].
    destruct (String.eqb_spec k SECRET_KEY) as [-> | Hk];
      [| intros _; now apply Fail_signature].
    simpl.
    destruct (jwt.validate_claims c now) as [[] | x] eqn:Hv.
    + destruct (jwt.sub c) as [name |] eqn:Hs;
        [| intros _; now apply Fail_no_subject].
      destruct (find _ db) eqn:Hf; [discriminate |].
      intros _. now apply Fail_unknown_subject with name.
    + intros _.
      assert (Hx : exists x, jwt.validate_claims c now = Raise x) by eauto.
      apply validate_claims_refuses in Hx
        as [(e & He & Hlt) | [(n & Hn & Hlt) | [(a & Ha) | (h & Hh)]]].
      * now apply Fail_expired with e.
      * now apply Fail_not_yet_valid with n.
      * now apply Fail_audience with a.
      * now apply Fail_at_hash with h.
Qed.

(** A verification accepts, fails in one of the listed ways, or lets
    through what jose raises outside [JWTError]. *)
Lemma get_current_user_total (creds : HTTPAuthorizationCredentials)
      (now : datetime) (db : Session) :
  (exists u, get_current_user creds now db = (Ok u, db))
  \/ get_current_user creds now db = (Raise credentials_exception, db)
  \/ (exists class_name,
        BearerCrash (credentials creds) class_name
        /\ get_current_user creds now db
           = (Raise (Exception class_name), db)).
Proof.
  pose proof (get_current_user_session creds now db) as Hs.
  destruct (get_current_user creds now db) as [[u | e] db'] eqn:E;
    simpl in Hs; subst db'.
  - left. now exists u.
  - right.
    destruct (get_current_user_raises creds now db e) as [-> | (n & Hc & ->)].
    + now rewrite E.
    + now left.
    + right. eauto.
Qed.

(** A token is refused before its [nbf] and accepted from it on. *)
Example not_before_then_accepted :
  get_current_user (Sample.bearer Sample.token_not_before)
    Sample.t0 Sample.db0
  = (Raise credentials_exception, Sample.db0)
  /\ get_current_user (Sample.bearer Sample.token_not_before)
       (Sample.t0 + timedelta_minutes 60) Sample.db0
     = (Ok Sample.client_user, Sample.db0).
Proof. split; vm_compute; reflexivity. Qed.

(** The nested header ends verification in [RecursionError]. *)
Example nested_header_crashes :
  get_current_user (Sample.bearer Sample.nested_header)
    Sample.t0 Sample.db0
  = (Raise (Exception "RecursionError"), Sample.db0).
Proof. reflexivity. Qed.

(** The three outcomes exclude one another on the token. *)
Lemma BearerCrash_not_failure (db : Session) (now : datetime)
      (token : jwt.Token) (class_name : string) :
  BearerCrash token class_name -> ~ BearerFailure db now token.
Proof. intros [raw ->] F. inversion F. Qed.

(** ** The identity resolver *)

Lemma get_api_key_valid :
  auth.get_api_key (Some auth.API_KEY) = Ok (Some auth.API_KEY).
Proof. reflexivity. Qed.


(** A bearer success ends the resolution; [api_key] is not looked at. *)
Lemma dual_bearer_accepted (creds : HTTPAuthorizationCredentials)
      (api_key : option string) (now : datetime) (db : Session) (u : User) :
  fst (get_current_user creds now db) = Ok u ->
  auth_dependencies.get_current_user_dual (Some creds) api_key now db
  = (Ok (Some u), db).
Proof.
  intros Hok. pose proof (get_current_user_session creds now db) as Hs.
  unfold auth_dependencies.get_current_user_dual,
    auth_dependencies.jwt_get_current_user.
  destruct (get_current_user creds now db) as [r db']. simpl in *.
  now subst.
Qed.

(** A bearer failure is swallowed; the API key decides. *)
Lemma dual_bearer_rejected (creds : HTTPAuthorizationCredentials)
      (api_key : option string) (now : datetime) (db : Session) :
  BearerFailure db now (credentials creds) ->
  auth_dependencies.get_current_user_dual (Some creds) api_key now db
  = auth_dependencies.try_api_key api_key db.
Proof.
  intros F. apply get_current_user_failure in F.
  unfold auth_dependencies.get_current_user_dual,
    auth_dependencies.jwt_get_current_user.
  now rewrite F.
Qed.

Lemma try_api_key_valid (db : Session) :
  auth_dependencies.try_api_key (Some auth.API_KEY) db
  = (Ok (Some auth_dependencies.virtual_admin), db).
Proof. reflexivity. Qed.

(** With an accepted API-key header the dependency chain is the resolver
    body on that key. *)
Lemma Depends_dual_key_valid (b : option HTTPAuthorizationCredentials)
      (now : datetime) (db : Session) :
  Depends.get_current_user_dual (mkRequest b (Some auth.API_KEY)) now db
  = auth_dependencies.get_current_user_dual b (Some auth.API_KEY) now db.
Proof. reflexivity. Qed.

Lemma Depends_dual_key_absent (b : option HTTPAuthorizationCredentials)
      (now : datetime) (db : Session) :
  Depends.get_current_user_dual (mkRequest b None) now db
  = auth_dependencies.get_current_user_dual b None now db.
Proof. reflexivity. Qed.



(** C1: a request with a bearer token that verifies against a client
    account and with a valid API key resolves to that account, with the
    role stored in its row (client); the resolver returns it whatever
    the API-key argument is, although the same API key alone resolves
    to the admin identity. *)
Theorem C1_bearer_precedence (creds : HTTPAuthorizationCredentials)
        (now : datetime) (db : Session) (u : User) :
  BearerValid db now (credentials creds) u ->
  role u = Some CLIENT ->
  Depends.get_current_user_dual
    (mkRequest (Some creds) (Some auth.API_KEY)) now db
  = (Ok (Some u), db)
  /\ In u db
  /\ (forall api_key,
        auth_dependencies.get_current_user_dual (Some creds) api_key now db
        = (Ok (Some u), db))
  /\ Depends.get_current_user_dual
       (mkRequest None (Some auth.API_KEY)) now db
     = (Ok (Some auth_dependencies.virtual_admin), db)
  /\ role auth_dependencies.virtual_admin = Some ADMIN.
Proof.
  intros Hv Hrole.
  assert (Hin : In u db).
  { destruct Hv as (c & name & _ & _ & _ & Hf & _).
    now apply find_some in Hf. }
  apply get_current_user_valid in Hv.
  repeat split; try assumption.
  - rewrite Depends_dual_key_valid. now apply dual_bearer_accepted.
  - intros api_key. now apply dual_bearer_accepted.
Qed.

Lemma C1_witness :
  BearerValid Sample.db0 Sample.t0
    (credentials (Sample.bearer (Sample.token_of Sample.client_user)))
    Sample.client_user
  /\ role Sample.client_user = Some CLIENT
  /\ Depends.get_current_user_dual
       (mkRequest (Some (Sample.bearer (Sample.token_of Sample.client_user)))
                  (Some auth.API_KEY)) Sample.t0 Sample.db0
     = (Ok (Some Sample.client_user), Sample.db0).
Proof.
  assert (Hv : BearerValid Sample.db0 Sample.t0
                 (credentials
                    (Sample.bearer (Sample.token_of Sample.client_user)))
                 Sample.client_user).
  { apply get_current_user_valid. vm_compute. reflexivity. }
  split; [exact Hv |]. split; [reflexivity |].
  exact (proj1 (C1_bearer_precedence _ _ _ _ Hv eq_refl)).
Defined.




(** What jose raises outside [JWTError] is not an [HTTPException]: the
    resolver does not catch it, and no API key is looked at. *)
Lemma dual_bearer_crash (creds : HTTPAuthorizationCredentials)
      (api_key : option string) (now : datetime) (db : Session)
      (class_name : string) :
  BearerCrash (credentials creds) class_name ->
  auth_dependencies.get_current_user_dual (Some creds) api_key now db
  = (Raise (Exception class_name), db).
Proof.
  intros Hc. apply (get_current_user_crash creds now db) in Hc.
  unfold auth_dependencies.get_current_user_dual,
    auth_dependencies.jwt_get_current_user.
  now rewrite Hc.
Qed.

(** The exceptions a request can meet on its way through both gates. *)
Lemma Depends_require_admin_raises (req : Request) (now : datetime)
      (db : Session) (e : exn) :
  fst (Depends.require_admin req now db) = Raise e ->
  e = InvalidApiKey \/ e = Unauthenticated \/ e = Forbidden
  \/ exists creds class_name,
       authorization req = Some creds
       /\ BearerCrash (credentials creds) class_name
       /\ e = Exception class_name.
Proof.
  unfold Depends.require_admin, Depends.require_authentication,
    Depends.get_current_user_dual, bind, lift.
  unfold auth.get_api_key.
  destruct (api_key_header req) as [k |].
  - destruct (String.eqb k auth.API_KEY).
    + destruct (authorization req) as [creds |].
      * destruct (get_current_user_total creds now db)
          as [[u Hu] | [Hf | (n & Hc & _)]].
        -- rewrite (dual_bearer_accepted creds (Some k) now db u)
             by now rewrite Hu.
           simpl. unfold auth_dependencies.require_admin.
           destruct (role_ne (role u) ADMIN); simpl; [| discriminate].
           intros [= <-]. auto.
        -- unfold auth_dependencies.get_current_user_dual,
             auth_dependencies.jwt_get_current_user.
           rewrite Hf. simpl. unfold auth_dependencies.try_api_key.
           destruct (truthy_str k); simpl.
           ++ discriminate.
           ++ intros [= <-]. auto.
        -- rewrite (dual_bearer_crash creds (Some k) now db n Hc).
           simpl. intros [= <-]. do 3 right. eauto.
      * simpl. unfold auth_dependencies.try_api_key.
        destruct (truthy_str k); simpl.
        -- discriminate.
        -- intros [= <-]. auto.
    + simpl. intros [= <-]. auto.
  - destruct (authorization req) as [creds |].
    + destruct (get_current_user_total creds now db)
        as [[u Hu] | [Hf | (n & Hc & _)]].
      * rewrite (dual_bearer_accepted creds None now db u)
          by now rewrite Hu.
        simpl. unfold auth_dependencies.require_admin.
        destruct (role_ne (role u) ADMIN); simpl; [| discriminate].
        intros [= <-]. auto.
      * unfold auth_dependencies.get_current_user_dual,
          auth_dependencies.jwt_get_current_user.
        rewrite Hf. simpl. intros [= <-]. auto.
      * rewrite (dual_bearer_crash creds None now db n Hc).
        simpl. intros [= <-]. do 3 right. eauto.
    + simpl. intros [= <-]. auto.
Qed.




(** ** The authorization gates *)



Lemma role_ne_admin (r : option UserRole) :
  role_ne r ADMIN = false <-> r = Some ADMIN.
Proof.
  destruct r as [[|] |]; simpl; split; congruence.
Qed.

(** C5: [require_admin] raises 403 [Forbidden] exactly when the role of
    the identity is not admin, and otherwise returns the identity as it
    is; a missing role is refused, and whatever it lets through is the
    identity it was given, with the admin role. *)
Theorem C5_require_admin (u : User) (db : Session) :
  (auth_dependencies.require_admin u db = (Raise Forbidden, db)
   <-> role u <> Some ADMIN)
  /\ (auth_dependencies.require_admin u db = (Ok u, db)
      <-> role u = Some ADMIN)
  /\ (role u = None ->
      auth_dependencies.require_admin u db = (Raise Forbidden, db))
  /\ (forall r db',
        auth_dependencies.require_admin u db = (Ok r, db') ->
        r = u /\ db' = db /\ role r = Some ADMIN).
Proof.
  unfold auth_dependencies.require_admin, raise, ret.
  pose proof (role_ne_admin (role u)) as Hr.
  destruct (role_ne (role u) ADMIN) eqn:E.
  - assert (Hn : role u <> Some ADMIN).
    { intros Hc. apply Hr in Hc. discriminate. }
    repeat split; try reflexivity; try congruence; try tauto;
      try discriminate.
  - assert (Ha : role u = Some ADMIN) by now apply Hr.
    split; [split; [discriminate | congruence] |].
    split; [split; [congruence | reflexivity] |].
    split; [congruence |].
    intros r db' [= <- <-]. auto.
Qed.

(** ** Login *)

Section Login.
Context `{Bcrypt}.

Lemma authenticate_user_unfold (name password : string) (db : Session) :
  authenticate_user name password db =
  (Ok match find (fun u => String.eqb (username u) name) db with
      | None => None
      | Some u =>
          if verify_password password (hashed_password u) && is_active u
          then Some u else None
      end, db).
Proof.
  unfold authenticate_user, get_user_by_username, query_first, bind, ret.
  destruct (find _ db) as [u |]; [| reflexivity].
  destruct (verify_password _ _); simpl; [| reflexivity].
  now destruct (is_active u).
Qed.

Lemma authenticate_user_refuses (user_data : UserLogin) (db : Session) :
  LoginFailure db user_data <->
  authenticate_user (ul_username user_data) (ul_password user_data) db
  = (Ok None, db).
Proof.
  rewrite authenticate_user_unfold. split.
  - intros [Hf | u Hf Hp | u Hf Hp Ha]; rewrite Hf; [reflexivity | |].
    + now rewrite Hp.
    + now rewrite Hp, Ha.
  - destruct (find _ db) as [u |] eqn:Hf;
      [| intros _; now apply Login_unknown_username].
    destruct (verify_password _ _) eqn:Hp;
      [| intros _; now apply Login_wrong_password with u].
    destruct (is_active u) eqn:Ha; [discriminate |].
    intros _. now apply Login_inactive with u.
Qed.

Lemma login_refused (user_data : UserLogin) (now : datetime)
      (db : Session) :
  LoginFailure db user_data ->
  auth_router.login user_data now db = (Raise InvalidCredentials, db).
Proof.
  intros F. apply authenticate_user_refuses in F.
  unfold auth_router.login, bind. now rewrite F.
Qed.

(** Whatever makes [login] raise, it raises the same exception. *)
Lemma login_raises (user_data : UserLogin) (now : datetime)
      (db : Session) (e : exn) :
  fst (auth_router.login user_data now db) = Raise e ->
  e = InvalidCredentials /\ LoginFailure db user_data.
Proof.
  unfold auth_router.login, bind.
  destruct (authenticate_user _ _ db) as [[[u |] | e'] db'] eqn:E.
  - discriminate.
  - rewrite authenticate_user_unfold in E.
    assert (db' = db) by congruence. subst db'.
    intros [= <-]. split; [reflexivity |].
    now apply authenticate_user_refuses; rewrite authenticate_user_unfold.
  - rewrite authenticate_user_unfold in E. discriminate.
Qed.

End Login.

(** The example of the specification: a login as [admin] yields a token
    with the claims sub = admin and role = admin, and a request that
    carries it resolves to the admin account. *)
Example login_admin_then_resolve :
  exists resp,
    @auth_router.login Sample.toy_bcrypt
       (mkUserLogin "admin" "admin123") Sample.t0 Sample.db0
    = (Ok resp, Sample.db0)
    /\ access_token resp
       = jwt.Signed "HS256" SECRET_KEY
           (jwt.mkClaims (Some "admin") (Some "admin")
                         (Some (timegm Sample.t0 + 86400)))
    /\ Depends.get_current_user_dual
         (mkRequest (Some (Sample.bearer (access_token resp))) None)
         (Sample.t0 + timedelta_minutes 5) Sample.db0
       = (Ok (Some Sample.admin_user), Sample.db0).
Proof.
  eexists (mkTokenResponse _ _ _).
  split; [vm_compute; reflexivity |].
  split; vm_compute; reflexivity.
Qed.

(** C6: a login that fails because the username is unknown, because the
    password does not match the stored hash, or because the account is
    inactive raises the same exception, 401 "Incorrect username or
    password" with the same header, and leaves the table as it was: two
    failed attempts give equal responses whatever their causes. *)
Theorem C6_login_failures_identical `{Bcrypt}
        (attempt1 attempt2 : UserLogin) (now1 now2 : datetime)
        (db1 db2 : Session) :
  LoginFailure db1 attempt1 ->
  LoginFailure db2 attempt2 ->
  auth_router.login attempt1 now1 db1
  = (Raise (HTTPException 401 "Incorrect username or password"
                          [("WWW-Authenticate", "Bearer")]), db1)
  /\ fst (auth_router.login attempt1 now1 db1)
     = fst (auth_router.login attempt2 now2 db2).
Proof.
  intros F1 F2.
  rewrite (login_refused attempt1 now1 db1 F1).
  rewrite (login_refused attempt2 now2 db2 F2).
  split; reflexivity.
Qed.

Lemma C6_witness :
  @LoginFailure Sample.toy_bcrypt Sample.db_off
     (mkUserLogin "demoadmin" "demo123")
  /\ @LoginFailure Sample.toy_bcrypt Sample.db_off
       (mkUserLogin "admin" "letmein")
  /\ fst (@auth_router.login Sample.toy_bcrypt
            (mkUserLogin "demoadmin" "demo123") Sample.t0 Sample.db_off)
     = fst (@auth_router.login Sample.toy_bcrypt
              (mkUserLogin "admin" "letmein") Sample.t0 Sample.db_off).
Proof.
  assert (F1 : @LoginFailure Sample.toy_bcrypt Sample.db_off
                 (mkUserLogin "demoadmin" "demo123")).
  { apply Login_inactive with Sample.demo_admin_off; reflexivity. }
  assert (F2 : @LoginFailure Sample.toy_bcrypt Sample.db_off
                 (mkUserLogin "admin" "letmein")).
  { apply Login_wrong_password with Sample.admin_user; reflexivity. }
  split; [exact F1 |]. split; [exact F2 |].
  exact (proj2 (@C6_login_failures_identical Sample.toy_bcrypt
                  _ _ Sample.t0 Sample.t0 _ _ F1 F2)).
Defined.

(** ** Registration *)

Lemma find_existsb {A} (p : A -> bool) (l : list A) :
  existsb p l = match find p l with Some _ => true | None => false end.
Proof.
  induction l as [| a l IH]; simpl; [reflexivity |].
  now destruct (p a).
Qed.

Section Registration.
Context `{Bcrypt}.

Lemma register_username_taken (user_data : UserCreate) (salt : string)
      (now : datetime) (db : Session) :
  username_taken db (uc_username user_data) = true ->
  auth_router.register user_data salt now db
  = (Raise AlreadyExists_username, db).
Proof.
  unfold username_taken. rewrite find_existsb.
  unfold auth_router.register, get_user_by_username, query_first, bind.
  destruct (find _ db); [reflexivity | discriminate].
Qed.

Lemma register_email_taken (user_data : UserCreate) (salt : string)
      (now : datetime) (db : Session) :
  username_taken db (uc_username user_data) = false ->
  email_taken db (uc_email user_data) = true ->
  auth_router.register user_data salt now db
  = (Raise AlreadyExists_email, db).
Proof.
  unfold username_taken, email_taken. rewrite !find_existsb.
  unfold auth_router.register, get_user_by_username, get_user_by_email,
    query_first, bind.
  destruct (find _ db); [discriminate |].
  destruct (find _ db); [reflexivity | discriminate].
Qed.

Lemma register_admin_refused (user_data : UserCreate) (salt : string)
      (now : datetime) (db : Session) :
  db <> [] ->
  uc_role user_data = ADMIN ->
  username_taken db (uc_username user_data) = false ->
  email_taken db (uc_email user_data) = false ->
  auth_router.register user_data salt now db
  = (Raise Forbidden_self_admin, db).
Proof.
  intros Hne Hrole. unfold username_taken, email_taken.
  rewrite !find_existsb.
  unfold auth_router.register, get_user_by_username, get_user_by_email,
    query_first, query_count, bind.
  destruct (find _ db); [discriminate |].
  destruct (find _ db); [discriminate |].
  intros _ _. rewrite Hrole.
  destruct db as [| r db]; [contradiction |].
  replace (0 <? Z.of_nat (length (r :: db))) with true; [reflexivity |].
  symmetry. apply Z.ltb_lt. simpl length. lia.
Qed.

Lemma hash_password_takes (password salt : string) :
  bcrypt_takes password ->
  hash_password password salt = Ok (bcrypt_hashpw password salt).
Proof.
  unfold bcrypt_takes, hash_password. intros Hp.
  destruct (Z.ltb_spec 72 (Z.of_nat (String.length password)));
    [lia | reflexivity].
Qed.

Lemma hash_password_refuses (password salt : string) :
  ~ bcrypt_takes password ->
  hash_password password salt = Raise (Exception "ValueError").
Proof.
  unfold bcrypt_takes, hash_password. intros Hp.
  destruct (Z.ltb_spec 72 (Z.of_nat (String.length password)));
    [reflexivity | lia].
Qed.

(** The row and the token of a registration into the empty table. *)
Lemma register_first (user_data : UserCreate) (salt : string)
      (now : datetime) :
  bcrypt_takes (uc_password user_data) ->
  let row := mkUser 1 (uc_username user_data) (uc_email user_data)
                    (uc_full_name user_data)
                    (bcrypt_hashpw (uc_password user_data) salt)
                    (Some (uc_role user_data)) true in
  auth_router.register user_data salt now []
  = (Ok (mkTokenResponse
           (create_access_token
              (jwt.mkClaims (Some (uc_username user_data))
                            (Some (UserRole_value (uc_role user_data)))
                            None)
              (Some (timedelta_minutes ACCESS_TOKEN_EXPIRE_MINUTES)) now)
           "bearer" row),
     [row]).
Proof.
  intros Hp. unfold auth_router.register, create_user, bind, lift.
  cbn [get_user_by_username get_user_by_email query_first query_count
       find length Z.of_nat fst snd].
  rewrite (hash_password_takes _ salt Hp).
  destruct (uc_role user_data); reflexivity.
Qed.

(** A registration that passes its checks with a password bcrypt
    refuses ends in [ValueError]; nothing is stored. *)
Lemma register_long_password (user_data : UserCreate) (salt : string)
      (now : datetime) (db : Session) :
  username_taken db (uc_username user_data) = false ->
  email_taken db (uc_email user_data) = false ->
  (uc_role user_data = ADMIN -> db = []) ->
  ~ bcrypt_takes (uc_password user_data) ->
  auth_router.register user_data salt now db
  = (Raise (Exception "ValueError"), db).
Proof.
  unfold username_taken, email_taken. rewrite !find_existsb.
  intros Hu He Hrole Hp.
  unfold auth_router.register, create_user, get_user_by_username,
    get_user_by_email, query_first, query_count, bind, lift.
  destruct (find _ db); [discriminate |].
  destruct (find _ db); [discriminate |].
  rewrite (hash_password_refuses _ salt Hp).
  destruct (uc_role user_data).
  - rewrite (Hrole eq_refl). reflexivity.
  - cbn [UserRole_value]. now rewrite andb_false_r.
Qed.

End Registration.

(** C7, as the code has it.  The checks of [register] run in a fixed
    order: username, email, then the admin rule, and only then is the
    password hashed.  Into the empty table a registration as admin whose
    password bcrypt takes (at most 72 bytes) succeeds and stores an
    admin row.  Into a table with a row, a registration as admin whose
    username and email are free raises 403.  A taken username raises 400
    "Username already registered" whatever else holds, and a taken email
    with a free username raises 400 "Email already registered".  A
    registration that passes the three checks with a password of more
    than 72 bytes ends in bcrypt's [ValueError] and stores nothing. *)
Theorem C7_register_rules `{Bcrypt} (user_data : UserCreate)
        (salt : string) (now : datetime) (db : Session) :
  (db = [] -> uc_role user_data = ADMIN ->
   bcrypt_takes (uc_password user_data) ->
   exists resp,
     auth_router.register user_data salt now db = (Ok resp, [user resp])
     /\ role (user resp) = Some ADMIN
     /\ username (user resp) = uc_username user_data
     /\ email (user resp) = uc_email user_data
     /\ token_type resp = "bearer")
  /\ (db <> [] -> uc_role user_data = ADMIN ->
      username_taken db (uc_username user_data) = false ->
      email_taken db (uc_email user_data) = false ->
      auth_router.register user_data salt now db
      = (Raise (HTTPException 403
           "Cannot self-register as admin. Please contact an existing admin."
           []), db))
  /\ (username_taken db (uc_username user_data) = true ->
      auth_router.register user_data salt now db
      = (Raise (HTTPException 400 "Username already registered" []), db))
  /\ (username_taken db (uc_username user_data) = false ->
      email_taken db (uc_email user_data) = true ->
      auth_router.register user_data salt now db
      = (Raise (HTTPException 400 "Email already registered" []), db))
  /\ (username_taken db (uc_username user_data) = false ->
      email_taken db (uc_email user_data) = false ->
      (uc_role user_data = ADMIN -> db = []) ->
      ~ bcrypt_takes (uc_password user_data) ->
      auth_router.register user_data salt now db
      = (Raise (Exception "ValueError"), db)).
Proof.
  split; [| split; [| split; [| split]]].
  - intros -> Hrole Hp. rewrite register_first by assumption.
    eexists (mkTokenResponse _ _ _). split; [reflexivity |].
    simpl. rewrite Hrole. repeat split.
  - apply register_admin_refused.
  - apply register_username_taken.
  - apply register_email_taken.
  - apply register_long_password.
Qed.

Lemma C7_witness :
  (exists resp,
     @auth_router.register Sample.toy_bcrypt
        (mkUserCreate "admin" "admin@example.com" (Some "Admin User")
                      "admin123" ADMIN) "salt" Sample.t0 []
     = (Ok resp, [user resp])
     /\ role (user resp) = Some ADMIN
     /\ username (user resp) = "admin"
     /\ email (user resp) = "admin@example.com"
     /\ token_type resp = "bearer")
  /\ @auth_router.register Sample.toy_bcrypt
        (mkUserCreate "eve" "eve@example.com" None "evepass" ADMIN)
        "salt" Sample.t0 Sample.db0
     = (Raise Forbidden_self_admin, Sample.db0)
  /\ @auth_router.register Sample.toy_bcrypt
        (mkUserCreate "client" "eve@example.com" None "evepass" CLIENT)
        "salt" Sample.t0 Sample.db0
     = (Raise AlreadyExists_username, Sample.db0)
  /\ @auth_router.register Sample.toy_bcrypt
        (mkUserCreate "eve" "client@example.com" None "evepass" CLIENT)
        "salt" Sample.t0 Sample.db0
     = (Raise AlreadyExists_email, Sample.db0)
  /\ @auth_router.register Sample.toy_bcrypt
        (mkUserCreate "eve" "eve@example.com" None Sample2.long_password
                      CLIENT)
        "salt" Sample.t0 Sample.db0
     = (Raise (Exception "ValueError"), Sample.db0).
Proof.
  split; [| split; [| split; [| split]]].
  - apply (proj1 (@C7_register_rules Sample.toy_bcrypt
                    (mkUserCreate "admin" "admin@example.com"
                       (Some "Admin User") "admin123" ADMIN)
                    "salt" Sample.t0 []));
      [reflexivity | reflexivity | unfold bcrypt_takes; simpl; lia].
  - apply (proj1 (proj2 (@C7_register_rules Sample.toy_bcrypt
                    (mkUserCreate "eve" "eve@example.com" None "evepass"
                       ADMIN) "salt" Sample.t0 Sample.db0)));
      [discriminate | reflexivity | reflexivity | reflexivity].
  - apply (proj1 (proj2 (proj2 (@C7_register_rules Sample.toy_bcrypt
                    (mkUserCreate "client" "eve@example.com" None "evepass"
                       CLIENT) "salt" Sample.t0 Sample.db0))));
      reflexivity.
  - apply (proj1 (proj2 (proj2 (proj2 (@C7_register_rules Sample.toy_bcrypt
                    (mkUserCreate "eve" "client@example.com" None "evepass"
                       CLIENT) "salt" Sample.t0 Sample.db0)))));
      reflexivity.
  - apply (proj2 (proj2 (proj2 (proj2 (@C7_register_rules Sample.toy_bcrypt
                    (mkUserCreate "eve" "eve@example.com" None
                       Sample2.long_password CLIENT)
                    "salt" Sample.t0 Sample.db0)))));
      [reflexivity | reflexivity | discriminate
       | unfold bcrypt_takes; simpl; lia].
Defined.

(** C7 as stated fails: with accounts in the table, a registration as
    admin under the taken username [admin] does not end with 403 but
    with 400 "Username already registered"; and one with a taken email
    under that taken username gets the username failure, not the email
    one. *)
Lemma C7_counterexample :
  Sample.db0 <> []
  /\ @auth_router.register Sample.toy_bcrypt
        (mkUserCreate "admin" "second@example.com" None "secret1" ADMIN)
        "salt" Sample.t0 Sample.db0
     = (Raise (HTTPException 400 "Username already registered" []),
        Sample.db0)
  /\ fst (@auth_router.register Sample.toy_bcrypt
            (mkUserCreate "admin" "second@example.com" None "secret1" ADMIN)
            "salt" Sample.t0 Sample.db0)
     <> Raise (HTTPException 403
          "Cannot self-register as admin. Please contact an existing admin."
          [])
  /\ email_taken Sample.db0 "client@example.com" = true
  /\ fst (@auth_router.register Sample.toy_bcrypt
            (mkUserCreate "admin" "client@example.com" None "secret1" CLIENT)
            "salt" Sample.t0 Sample.db0)
     <> Raise (HTTPException 400 "Email already registered" []).
Proof.
  split; [discriminate |].
  split; [vm_compute; reflexivity |].
  split; [vm_compute; discriminate |].
  split; [reflexivity |].
  vm_compute. discriminate.
Qed.

(** ** Token expiry *)

(** The token [create_access_token] makes. *)
Lemma create_access_token_shape (data : jwt.Claims)
      (expires_delta : option timedelta) (issued : datetime) :
  create_access_token data expires_delta issued
  = jwt.Signed ALGORITHM SECRET_KEY
      (jwt.mkClaims (jwt.sub data) (jwt.role_claim data)
                    (Some (timegm (issued + lifetime expires_delta)))).
Proof.
  unfold create_access_token, lifetime, jwt.encode.
  destruct expires_delta as [d |]; [| reflexivity].
  now destruct (truthy_timedelta d).
Qed.

Lemma timegm_next_second (d now : datetime) :
  d + timedelta_seconds 1 <= now -> timegm d < timegm now.
Proof.
  unfold timegm, timedelta_seconds. intros Hle.
  assert (d / 1000000 + 1 <= now / 1000000); [| lia].
  replace (d / 1000000 + 1) with ((d + 1 * 1000000) / 1000000)
    by (rewrite Z.div_add by lia; reflexivity).
  apply Z.div_le_mono; lia.
Qed.

Lemma decode_expired (c : jwt.Claims) (e : Z) (now : datetime) :
  jwt.exp c = Some e -> e < timegm now ->
  jwt.decode (jwt.Signed ALGORITHM SECRET_KEY c) SECRET_KEY [ALGORITHM] now
  = Raise (JWTError ExpiredSignatureError).
Proof.
  intros He Hlt. unfold jwt.decode, jwt.validate_claims.
  rewrite algorithm_listed, !String.eqb_refl.
  cbn [negb jwt.nbf jwt.payload]. rewrite He.
  destruct (Z.ltb_spec e (timegm now)); [reflexivity | lia].
Qed.

(** Until the second of its expiry is over, an issued token decodes. *)
Lemma decode_fresh (data : jwt.Claims) (expires_delta : option timedelta)
      (issued now : datetime) :
  timegm now <= timegm (issued + lifetime expires_delta) ->
  exists c,
    jwt.decode (create_access_token data expires_delta issued)
               SECRET_KEY [ALGORITHM] now = Ok c
    /\ jwt.sub c = jwt.sub data.
Proof.
  intros Hle. rewrite create_access_token_shape.
  unfold jwt.decode, jwt.validate_claims.
  rewrite algorithm_listed, !String.eqb_refl. simpl.
  destruct (Z.ltb_spec (timegm (issued + lifetime expires_delta))
                       (timegm now)); [lia |].
  eexists. split; reflexivity.
Qed.

(** Expiry is compared in whole seconds: a token whose expiry instant is
    0.25 s into a second is still accepted 0.5 s later. *)
Lemma expiry_within_the_second :
  Sample.t0 + timedelta_minutes 1440
  < Sample.t0 + timedelta_minutes 1440 + 500000
  /\ get_current_user (Sample.bearer (Sample.token_of Sample.client_user))
       (Sample.t0 + timedelta_minutes 1440 + 500000) Sample.db0
     = (Ok Sample.client_user, Sample.db0).
Proof. split; [reflexivity | vm_compute; reflexivity]. Qed.

(** C8, as the code has it.  A token made by [create_access_token] at
    [issued] expires [lifetime expires_delta] later (the given duration,
    or the configured one when none or a zero one is given).  Checked a
    full second or more after that instant, decoding raises
    [ExpiredSignatureError] and [get_current_user] raises its 401
    "Could not validate credentials"; so does any token whose [exp] is
    before the current second.  Nothing is required of a token that has
    no [exp]. *)
Theorem C8_expired_token_rejected (data : jwt.Claims)
        (expires_delta : option timedelta) (issued now : datetime)
        (scheme' : string) (db : Session) :
  issued + lifetime expires_delta + timedelta_seconds 1 <= now ->
  jwt.decode (create_access_token data expires_delta issued)
             SECRET_KEY [ALGORITHM] now
  = Raise (JWTError ExpiredSignatureError)
  /\ get_current_user
       (mkCredentials scheme'
          (create_access_token data expires_delta issued)) now db
     = (Raise (HTTPException 401 "Could not validate credentials"
                             [("WWW-Authenticate", "Bearer")]), db)
  /\ (forall alg k c e,
        jwt.exp c = Some e -> e < timegm now ->
        get_current_user (mkCredentials scheme' (jwt.Signed alg k c)) now db
        = (Raise (HTTPException 401 "Could not validate credentials"
                                [("WWW-Authenticate", "Bearer")]), db)).
Proof.
  intros Hlate. apply timegm_next_second in Hlate.
  rewrite create_access_token_shape. split; [| split].
  - now apply decode_expired with (e := timegm (issued + lifetime expires_delta)).
  - apply get_current_user_failure. simpl.
    now apply Fail_expired
      with (e := timegm (issued + lifetime expires_delta)).
  - intros alg k c e He Hlt. apply get_current_user_failure. simpl.
    now apply Fail_expired with (e := e).
Qed.

Lemma C8_witness :
  Sample.t0 + lifetime (Some (timedelta_minutes 30)) + timedelta_seconds 1
  <= Sample.t0 + timedelta_minutes 31
  /\ get_current_user
       (mkCredentials "Bearer"
          (create_access_token
             (jwt.mkClaims (Some "client") (Some "client") None)
             (Some (timedelta_minutes 30)) Sample.t0))
       (Sample.t0 + timedelta_minutes 31) Sample.db0
     = (Raise credentials_exception, Sample.db0).
Proof.
  assert (Hlate : Sample.t0 + lifetime (Some (timedelta_minutes 30))
                  + timedelta_seconds 1
                  <= Sample.t0 + timedelta_minutes 31)
    by (vm_compute; discriminate).
  split; [exact Hlate |].
  exact (proj1 (proj2 (C8_expired_token_rejected
                         (jwt.mkClaims (Some "client") (Some "client") None)
                         (Some (timedelta_minutes 30)) Sample.t0
                         (Sample.t0 + timedelta_minutes 31)
                         "Bearer" Sample.db0 Hlate))).
Defined.

(** C8 as stated fails: a token signed with the configured key and
    algorithm that carries no [exp] claim is accepted, here ten years
    after [t0]. *)
Lemma C8_counterexample :
  jwt.exp (jwt.mkClaims (Some "client") (Some "client") None) = None
  /\ get_current_user
       (mkCredentials "Bearer"
          (jwt.Signed ALGORITHM SECRET_KEY
             (jwt.mkClaims (Some "client") (Some "client") None)))
       (Sample.t0 + timedelta_minutes (10 * 365 * 1440)) Sample.db0
     = (Ok Sample.client_user, Sample.db0).
Proof. split; [reflexivity | vm_compute; reflexivity]. Qed.

(** ** Verification is a read *)

(** C9: verifying a token that is accepted returns the same account
    when it is verified again on the table the first verification left,
    and at whatever later time it is still accepted; no verification,
    accepted or not, changes the table. *)
Theorem C9_verification_idempotent (creds : HTTPAuthorizationCredentials)
        (now : datetime) (db : Session) (u : User) :
  fst (get_current_user creds now db) = Ok u ->
  get_current_user creds now db = (Ok u, db)
  /\ get_current_user creds now (snd (get_current_user creds now db))
     = (Ok u, db)
  /\ (forall now' u',
        fst (get_current_user creds now'
               (snd (get_current_user creds now db))) = Ok u' ->
        u' = u)
  /\ (forall creds' now' db', snd (get_current_user creds' now' db') = db').
Proof.
  intros Hok.
  assert (E : get_current_user creds now db = (Ok u, db)).
  { pose proof (get_current_user_session creds now db) as Hs.
    destruct (get_current_user creds now db) as [r db']. simpl in *.
    now subst. }
  rewrite E. simpl. repeat split; try assumption.
  - intros now' u' Hok'.
    apply get_current_user_valid in Hok, Hok'.
    destruct Hok as (c & name & Ht & _ & Hs & Hf & _).
    destruct Hok' as (c' & name' & Ht' & _ & Hs' & Hf' & _).
    rewrite Ht in Ht'. injection Ht' as <-.
    rewrite Hs in Hs'. injection Hs' as <-.
    congruence.
  - apply get_current_user_session.
Qed.

Lemma C9_witness :
  fst (get_current_user
         (Sample.bearer (Sample.token_of Sample.admin_user))
         Sample.t0 Sample.db0) = Ok Sample.admin_user
  /\ get_current_user
       (Sample.bearer (Sample.token_of Sample.admin_user)) Sample.t0
       (snd (get_current_user
               (Sample.bearer (Sample.token_of Sample.admin_user))
               Sample.t0 Sample.db0))
     = (Ok Sample.admin_user, Sample.db0).
Proof.
  assert (Hok : fst (get_current_user
                       (Sample.bearer (Sample.token_of Sample.admin_user))
                       Sample.t0 Sample.db0) = Ok Sample.admin_user)
    by (vm_compute; reflexivity).
  split; [exact Hok |].
  exact (proj1 (proj2 (C9_verification_idempotent _ _ _ _ Hok))).
Defined.

(** ** The active flag *)

(** The bearer-only chain of jwt_auth.py does look at the flag. *)
Lemma get_current_active_user_inactive (u : User) (db : Session) :
  is_active u = false ->
  get_current_active_user u db
  = (Raise (HTTPException 400 "Inactive user" []), db).
Proof.
  intros Ha. unfold get_current_active_user. now rewrite Ha.
Qed.

(** C10: a request whose bearer token verifies against an account that
    is not active, with no API-key header or a valid one, is resolved to
    that account by [get_current_user_dual]; [require_authentication]
    lets it through, and so does [require_admin] when its role is
    admin. *)
Theorem C10_active_flag_not_consulted (req : Request)
        (creds : HTTPAuthorizationCredentials)
        (now : datetime) (db : Session) (u : User) :
  authorization req = Some creds ->
  x_api_key req = None \/ x_api_key req = Some auth.API_KEY ->
  BearerValid db now (credentials creds) u ->
  is_active u = false ->
  Depends.get_current_user_dual req now db = (Ok (Some u), db)
  /\ Depends.require_authentication req now db = (Ok u, db)
  /\ (role u = Some ADMIN -> Depends.require_admin req now db = (Ok u, db)).
Proof.
  intros Hb Hk Hv _. apply get_current_user_valid in Hv.
  destruct req as [b k]. simpl in Hb, Hk. subst b.
  assert (E : Depends.get_current_user_dual
                (mkRequest (Some creds) k) now db = (Ok (Some u), db)).
  { destruct Hk as [-> | ->].
    - rewrite Depends_dual_key_absent. now apply dual_bearer_accepted.
    - rewrite Depends_dual_key_valid. now apply dual_bearer_accepted. }
  assert (E' : Depends.require_authentication
                 (mkRequest (Some creds) k) now db = (Ok u, db)).
  { unfold Depends.require_authentication, bind. now rewrite E. }
  split; [exact E |]. split; [exact E' |].
  intros Hadmin. unfold Depends.require_admin, bind. rewrite E'.
  unfold auth_dependencies.require_admin.
  now rewrite (proj2 (role_ne_admin (role u)) Hadmin).
Qed.

Lemma C10_witness :
  BearerValid Sample.db_off Sample.t0
    (credentials (Sample.bearer (Sample.token_of Sample.demo_admin)))
    Sample.demo_admin_off
  /\ is_active Sample.demo_admin_off = false
  /\ Depends.require_admin
       (mkRequest (Some (Sample.bearer (Sample.token_of Sample.demo_admin)))
                  None) Sample.t0 Sample.db_off
     = (Ok Sample.demo_admin_off, Sample.db_off).
Proof.
  assert (Hv : BearerValid Sample.db_off Sample.t0
                 (credentials
                    (Sample.bearer (Sample.token_of Sample.demo_admin)))
                 Sample.demo_admin_off).
  { apply get_current_user_valid. vm_compute. reflexivity. }
  split; [exact Hv |]. split; [reflexivity |].
  exact (proj2 (proj2 (C10_active_flag_not_consulted
                         (mkRequest
                            (Some (Sample.bearer
                                     (Sample.token_of Sample.demo_admin)))
                            None)
                         _ Sample.t0 Sample.db_off Sample.demo_admin_off
                         eq_refl (or_introl eq_refl) Hv eq_refl))
           eq_refl).
Defined.

(* ================================================================= *)
(** * Further properties *)

(** ** Tokens *)

Lemma timegm_monotone (a b : datetime) : a <= b -> timegm a <= timegm b.
Proof. unfold timegm. intros Hle. apply Z.div_le_mono; lia. Qed.

(** Issue and verification, for the claims [login] and [register] put
    into a token. *)
Lemma token_round_trip (u : User) (expires_delta : option timedelta)
      (issued now : datetime) (scheme' : string) (db : Session) :
  find (fun r => String.eqb (username r) (username u)) db = Some u ->
  timegm now <= timegm (issued + lifetime expires_delta) ->
  get_current_user
    (mkCredentials scheme'
       (create_access_token
          (jwt.mkClaims (Some (username u))
                        (option_map UserRole_value (role u)) None)
          expires_delta issued)) now db
  = (Ok u, db).
Proof.
  intros Hf Hle. rewrite get_current_user_unfold. simpl credentials.
  rewrite create_access_token_shape. rewrite !String.eqb_refl.
  unfold jwt.validate_claims. simpl.
  destruct (Z.ltb_spec (timegm (issued + lifetime expires_delta))
                       (timegm now)); [lia |].
  now rewrite Hf.
Qed.

(** X1: a token made by [create_access_token] for the username of a row
    verifies back to that row until the second of its expiry is over:
    issue and verification are a round trip. *)
Theorem X1_token_round_trip (u : User) (expires_delta : option timedelta)
        (issued now : datetime) (scheme' : string) (db : Session) :
  find (fun r => String.eqb (username r) (username u)) db = Some u ->
  timegm now <= timegm (issued + lifetime expires_delta) ->
  get_current_user
    (mkCredentials scheme'
       (create_access_token
          (jwt.mkClaims (Some (username u))
                        (option_map UserRole_value (role u)) None)
          expires_delta issued)) now db
  = (Ok u, db).
Proof.
  intros Hf Hle. now apply token_round_trip.
Qed.

Lemma X1_witness :
  find (fun r => String.eqb (username r) (username Sample.client_user))
       Sample.db0 = Some Sample.client_user
  /\ timegm (Sample.t0 + timedelta_minutes 1439)
     <= timegm (Sample.t0
                + lifetime (Some (timedelta_minutes 1440)))
  /\ get_current_user
       (mkCredentials "Bearer"
          (create_access_token
             (jwt.mkClaims (Some (username Sample.client_user))
                (option_map UserRole_value (role Sample.client_user)) None)
             (Some (timedelta_minutes 1440)) Sample.t0))
       (Sample.t0 + timedelta_minutes 1439) Sample.db0
     = (Ok Sample.client_user, Sample.db0).
Proof.
  assert (Hf : find (fun r => String.eqb (username r)
                                  (username Sample.client_user))
                    Sample.db0 = Some Sample.client_user) by reflexivity.
  assert (Hle : timegm (Sample.t0 + timedelta_minutes 1439)
                <= timegm (Sample.t0
                           + lifetime (Some (timedelta_minutes 1440))))
    by (vm_compute; discriminate).
  split; [exact Hf |]. split; [exact Hle |].
  exact (X1_token_round_trip Sample.client_user
           (Some (timedelta_minutes 1440)) Sample.t0
           (Sample.t0 + timedelta_minutes 1439) "Bearer" Sample.db0 Hf Hle).
Defined.

(** X2: whatever [get_current_user] returns is a row of the table, and
    the token was signed with the configured key under the configured
    algorithm, names that row's username as its subject and is not past
    its expiry: a token made with another key or algorithm never
    authenticates. *)
Theorem X2_bearer_acceptance_sound (creds : HTTPAuthorizationCredentials)
        (now : datetime) (db : Session) (u : User) :
  fst (get_current_user creds now db) = Ok u ->
  exists c,
    credentials creds
    = jwt.Signed settings.JWT_ALGORITHM settings.JWT_SECRET_KEY c
    /\ jwt.sub c = Some (username u)
    /\ In u db
    /\ (forall e, jwt.exp c = Some e -> timegm now <= e).
Proof.
  intros Hok. apply get_current_user_valid in Hok.
  destruct Hok as (c & name & Ht & Hexp & Hs & Hf & _).
  exists c. apply find_some in Hf as [Hin Heq].
  apply String.eqb_eq in Heq. subst name.
  repeat split; assumption.
Qed.

Lemma X2_witness :
  fst (get_current_user
         (Sample.bearer (Sample.token_of Sample.admin_user))
         Sample.t0 Sample.db0) = Ok Sample.admin_user
  /\ exists c,
       credentials (Sample.bearer (Sample.token_of Sample.admin_user))
       = jwt.Signed settings.JWT_ALGORITHM settings.JWT_SECRET_KEY c
       /\ jwt.sub c = Some (username Sample.admin_user)
       /\ In Sample.admin_user Sample.db0
       /\ (forall e, jwt.exp c = Some e -> timegm Sample.t0 <= e).
Proof.
  assert (Hok : fst (get_current_user
                       (Sample.bearer (Sample.token_of Sample.admin_user))
                       Sample.t0 Sample.db0) = Ok Sample.admin_user)
    by (vm_compute; reflexivity).
  split; [exact Hok |].
  exact (X2_bearer_acceptance_sound _ _ _ _ Hok).
Defined.

(** X3: the moments at which a token is accepted form an interval.  A
    token accepted for an account at two moments is accepted for that
    account at every moment between them; and a token that carries no
    [nbf] claim and is accepted at some moment is accepted, for the same
    account, at every earlier moment.  (With an [nbf] claim the second
    part fails: before that second the token is refused.) *)
Theorem X3_acceptance_interval (creds : HTTPAuthorizationCredentials)
        (now1 now2 now3 : datetime) (db : Session) (u : User) :
  now1 <= now2 -> now2 <= now3 ->
  fst (get_current_user creds now3 db) = Ok u ->
  (fst (get_current_user creds now1 db) = Ok u ->
   get_current_user creds now2 db = (Ok u, db))
  /\ (forall alg k c,
        credentials creds = jwt.Signed alg k c -> jwt.nbf c = None ->
        get_current_user creds now2 db = (Ok u, db)).
Proof.
  intros Hle12 Hle23 Hok3. apply get_current_user_valid in Hok3.
  destruct Hok3 as (c & name & Ht & Hexp & Hs & Hf & Hnbf3 & Haud & Hat).
  pose proof (timegm_monotone now1 now2 Hle12) as H12.
  pose proof (timegm_monotone now2 now3 Hle23) as H23.
  assert (Hfrom : (forall n, jwt.nbf c = Some n -> n <= timegm now2) ->
                  get_current_user creds now2 db = (Ok u, db)).
  { intros Hnbf2.
    assert (Hv : BearerValid db now2 (credentials creds) u).
    { exists c, name. split; [assumption |]. split.
      - intros e He. specialize (Hexp e He). lia.
      - split; [assumption |]. split; [assumption |].
        split; [assumption | split; assumption]. }
    apply get_current_user_valid in Hv.
    pose proof (get_current_user_session creds now2 db) as Hses.
    destruct (get_current_user creds now2 db) as [r db']. simpl in *.
    now subst. }
  split.
  - intros Hok1. apply get_current_user_valid in Hok1.
    destruct Hok1 as (c1 & name1 & Ht1 & _ & _ & _ & Hnbf1 & _).
    rewrite Ht in Ht1. injection Ht1 as <-.
    apply Hfrom. intros n Hn. specialize (Hnbf1 n Hn). lia.
  - intros alg k c' Ht' Hnone. rewrite Ht in Ht'. injection Ht' as _ _ <-.
    apply Hfrom. intros n Hn. congruence.
Qed.

Lemma X3_witness :
  Sample.t0 <= Sample.t0 + timedelta_minutes 600
  /\ Sample.t0 + timedelta_minutes 600 <= Sample.t0 + timedelta_minutes 1200
  /\ fst (get_current_user
            (Sample.bearer (Sample.token_of Sample.client_user))
            (Sample.t0 + timedelta_minutes 1200) Sample.db0)
     = Ok Sample.client_user
  /\ fst (get_current_user
            (Sample.bearer (Sample.token_of Sample.client_user))
            Sample.t0 Sample.db0)
     = Ok Sample.client_user
  /\ get_current_user
       (Sample.bearer (Sample.token_of Sample.client_user))
       (Sample.t0 + timedelta_minutes 600) Sample.db0
     = (Ok Sample.client_user, Sample.db0).
Proof.
  assert (Hle12 : Sample.t0 <= Sample.t0 + timedelta_minutes 600)
    by (vm_compute; discriminate).
  assert (Hle23 : Sample.t0 + timedelta_minutes 600
                  <= Sample.t0 + timedelta_minutes 1200)
    by (vm_compute; discriminate).
  assert (Hok3 : fst (get_current_user
                        (Sample.bearer (Sample.token_of Sample.client_user))
                        (Sample.t0 + timedelta_minutes 1200) Sample.db0)
                 = Ok Sample.client_user) by (vm_compute; reflexivity).
  assert (Hok1 : fst (get_current_user
                        (Sample.bearer (Sample.token_of Sample.client_user))
                        Sample.t0 Sample.db0)
                 = Ok Sample.client_user) by (vm_compute; reflexivity).
  split; [exact Hle12 |]. split; [exact Hle23 |].
  split; [exact Hok3 |]. split; [exact Hok1 |].
  exact (proj1 (X3_acceptance_interval _ _ _ _ _ _ Hle12 Hle23 Hok3) Hok1).
Defined.

(** X4: the edge of [if expires_delta:].  A zero [timedelta] is falsy,
    so the token gets the configured 1440 minutes and is still rejected
    only after them; a negative one of a second or more gives a token
    that is rejected from the moment it is issued. *)
Theorem X4_zero_and_negative_lifetime (data : jwt.Claims)
        (d : timedelta) (issued now : datetime) (scheme' : string)
        (db : Session) :
  (d = 0 ->
   create_access_token data (Some d) issued
   = create_access_token data None issued
   /\ (issued + timedelta_minutes 1440 + timedelta_seconds 1 <= now ->
       get_current_user
         (mkCredentials scheme' (create_access_token data (Some d) issued))
         now db = (Raise credentials_exception, db))
   /\ (timegm now <= timegm (issued + timedelta_minutes 1440) ->
       jwt.decode (create_access_token data (Some d) issued)
                  SECRET_KEY [ALGORITHM] now
       = Ok (jwt.mkClaims (jwt.sub data) (jwt.role_claim data)
               (Some (timegm (issued + timedelta_minutes 1440))))))
  /\ (d <= - timedelta_seconds 1 -> issued <= now ->
      get_current_user
        (mkCredentials scheme' (create_access_token data (Some d) issued))
        now db = (Raise credentials_exception, db)).
Proof.
  split.
  - intros ->. split; [reflexivity |]. split.
    + intros Hlate. apply get_current_user_failure. simpl credentials.
      rewrite create_access_token_shape.
      apply Fail_expired
        with (e := timegm (issued + lifetime (Some 0))); [reflexivity |].
      apply timegm_next_second. exact Hlate.
    + intros Hle. rewrite create_access_token_shape.
      unfold jwt.decode, jwt.validate_claims.
      rewrite algorithm_listed, !String.eqb_refl. simpl.
      change (timedelta_minutes ACCESS_TOKEN_EXPIRE_MINUTES)
        with (timedelta_minutes 1440).
      destruct (Z.ltb_spec (timegm (issued + timedelta_minutes 1440))
                           (timegm now)); [lia | reflexivity].
  - intros Hneg Hnow. apply get_current_user_failure. simpl credentials.
    rewrite create_access_token_shape.
    apply Fail_expired
      with (e := timegm (issued + lifetime (Some d))); [reflexivity |].
    apply timegm_next_second.
    assert (lifetime (Some d) = d).
    { unfold lifetime, truthy_timedelta.
      destruct (Z.eqb_spec d 0); [| reflexivity].
      unfold timedelta_seconds in Hneg. lia. }
    unfold timedelta_seconds in *. lia.
Qed.

Lemma X4_witness :
  (0 = 0
   /\ timegm (Sample.t0 + timedelta_minutes 1000)
      <= timegm (Sample.t0 + timedelta_minutes 1440)
   /\ jwt.decode
        (create_access_token
           (jwt.mkClaims (Some "client") (Some "client") None)
           (Some 0) Sample.t0)
        SECRET_KEY [ALGORITHM] (Sample.t0 + timedelta_minutes 1000)
      = Ok (jwt.mkClaims (Some "client") (Some "client")
              (Some (timegm (Sample.t0 + timedelta_minutes 1440)))))
  /\ (- timedelta_minutes 5 <= - timedelta_seconds 1
      /\ Sample.t0 <= Sample.t0
      /\ get_current_user
           (mkCredentials "Bearer"
              (create_access_token
                 (jwt.mkClaims (Some "client") (Some "client") None)
                 (Some (- timedelta_minutes 5)) Sample.t0))
           Sample.t0 Sample.db0
         = (Raise credentials_exception, Sample.db0)).
Proof.
  assert (Hle : timegm (Sample.t0 + timedelta_minutes 1000)
                <= timegm (Sample.t0 + timedelta_minutes 1440))
    by (vm_compute; discriminate).
  assert (Hneg : - timedelta_minutes 5 <= - timedelta_seconds 1)
    by (vm_compute; discriminate).
  assert (Hnow : Sample.t0 <= Sample.t0) by lia.
  split.
  - split; [reflexivity |]. split; [exact Hle |].
    exact (proj2 (proj2 (proj1 (X4_zero_and_negative_lifetime
             (jwt.mkClaims (Some "client") (Some "client") None)
             0 Sample.t0 (Sample.t0 + timedelta_minutes 1000)
             "Bearer" Sample.db0) eq_refl)) Hle).
  - split; [exact Hneg |]. split; [exact Hnow |].
    exact (proj2 (X4_zero_and_negative_lifetime
             (jwt.mkClaims (Some "client") (Some "client") None)
             (- timedelta_minutes 5) Sample.t0 Sample.t0
             "Bearer" Sample.db0) Hneg Hnow).
Defined.

(** ** The resolver and the gates, continued *)

Lemma api_key_header_truthy (req : Request) (k : string) :
  api_key_header req = Some k ->
  truthy_str k = true /\ x_api_key req = Some k.
Proof.
  unfold api_key_header. destruct (x_api_key req) as [k' |]; [| discriminate].
  destruct (truthy_str k') eqn:E; [| discriminate].
  intros [= <-]. split; [assumption | reflexivity].
Qed.

(** The resolver chain, by cases on the header and the bearer. *)
Lemma Depends_dual_unfold (req : Request) (now : datetime) (db : Session) :
  Depends.get_current_user_dual req now db =
  match api_key_header req with
  | Some k =>
      if String.eqb k auth.API_KEY then
        match authorization req with
        | Some creds =>
            match fst (get_current_user creds now db) with
            | Ok u => (Ok (Some u), db)
            | Raise (HTTPException _ _ _) =>
                (Ok (Some auth_dependencies.virtual_admin), db)
            | Raise e => (Raise e, db)
            end
        | None => (Ok (Some auth_dependencies.virtual_admin), db)
        end
      else (Raise InvalidApiKey, db)
  | None =>
      match authorization req with
      | Some creds =>
          match fst (get_current_user creds now db) with
          | Ok u => (Ok (Some u), db)
          | Raise (HTTPException _ _ _) => (Ok None, db)
          | Raise e => (Raise e, db)
          end
      | None => (Ok None, db)
      end
  end.
Proof.
  unfold Depends.get_current_user_dual, bind, lift, auth.get_api_key.
  destruct (api_key_header req) as [k |] eqn:Hk.
  - apply api_key_header_truthy in Hk as [Ht _].
    destruct (String.eqb k auth.API_KEY); [| reflexivity].
    unfold auth_dependencies.get_current_user_dual,
      auth_dependencies.jwt_get_current_user,
      auth_dependencies.try_api_key.
    rewrite Ht.
    destruct (authorization req) as [creds |]; [| reflexivity].
    destruct (get_current_user_total creds now db)
      as [[u Hu] | [Hf | (n & _ & Hx)]];
      [rewrite Hu | rewrite Hf | rewrite Hx]; reflexivity.
  - unfold auth_dependencies.get_current_user_dual,
      auth_dependencies.jwt_get_current_user,
      auth_dependencies.try_api_key.
    destruct (authorization req) as [creds |]; [| reflexivity].
    destruct (get_current_user_total creds now db)
      as [[u Hu] | [Hf | (n & _ & Hx)]];
      [rewrite Hu | rewrite Hf | rewrite Hx]; reflexivity.
Qed.

(** X5: the configured API key, with no bearer or with one that
    verification rejects (jose raises a [JWTError], or the subject is
    missing or unknown), passes the admin gate as the virtual admin, on
    any table.  With a bearer on which jose raises outside [JWTError]
    the key does not help: that exception leaves the gate. *)
Theorem X5_api_key_passes_admin_gate
        (b : option HTTPAuthorizationCredentials)
        (now : datetime) (db : Session) :
  (bearer_yields_nothing db now b ->
   Depends.require_admin (mkRequest b (Some auth.API_KEY)) now db
   = (Ok auth_dependencies.virtual_admin, db))
  /\ (forall creds class_name,
        b = Some creds ->
        BearerCrash (credentials creds) class_name ->
        Depends.require_admin (mkRequest b (Some auth.API_KEY)) now db
        = (Raise (Exception class_name), db)).
Proof.
  unfold Depends.require_admin, Depends.require_authentication, bind.
  rewrite Depends_dual_key_valid. split.
  - intros Hb. destruct b as [creds |].
    + rewrite dual_bearer_rejected by exact Hb. reflexivity.
    + reflexivity.
  - intros creds n -> Hc.
    rewrite (dual_bearer_crash creds _ now db n Hc). reflexivity.
Qed.

Lemma X5_witness :
  bearer_yields_nothing [] Sample.t0
    (Some (Sample.bearer (Sample.token_of Sample.client_user)))
  /\ Depends.require_admin
       (mkRequest (Some (Sample.bearer (Sample.token_of Sample.client_user)))
                  (Some auth.API_KEY)) Sample.t0 []
     = (Ok auth_dependencies.virtual_admin, [])
  /\ BearerCrash (credentials (Sample.bearer Sample.nested_header))
                 "RecursionError"
  /\ Depends.require_admin
       (mkRequest (Some (Sample.bearer Sample.nested_header))
                  (Some auth.API_KEY)) Sample.t0 Sample.db0
     = (Raise (Exception "RecursionError"), Sample.db0).
Proof.
  assert (Hb : bearer_yields_nothing [] Sample.t0
                 (Some (Sample.bearer (Sample.token_of Sample.client_user)))).
  { apply get_current_user_failure. vm_compute. reflexivity. }
  assert (Hc : BearerCrash (credentials (Sample.bearer Sample.nested_header))
                           "RecursionError").
  { exists "[[[[...]]]].e30.sig". reflexivity. }
  split; [exact Hb |].
  split; [exact (proj1 (X5_api_key_passes_admin_gate _ _ _) Hb) |].
  split; [exact Hc |].
  exact (proj2 (X5_api_key_passes_admin_gate _ Sample.t0 Sample.db0)
           _ _ eq_refl Hc).
Defined.

(** X6: an identity the resolver returns is a row of the table, or it is
    the virtual admin and the request carried exactly the configured
    API key. *)
Theorem X6_resolved_identity_origin (req : Request) (now : datetime)
        (db : Session) (u : User) :
  fst (Depends.get_current_user_dual req now db) = Ok (Some u) ->
  In u db
  \/ (u = auth_dependencies.virtual_admin
      /\ x_api_key req = Some settings.API_KEY).
Proof.
  rewrite Depends_dual_unfold.
  assert (Hrow : forall creds,
             fst (get_current_user creds now db) = Ok u -> In u db).
  { intros creds Hok. apply get_current_user_valid in Hok.
    destruct Hok as (c & name & _ & _ & _ & Hf & _).
    now apply find_some in Hf. }
  destruct (api_key_header req) as [k |] eqn:Hk.
  - apply api_key_header_truthy in Hk as [_ Hx].
    destruct (String.eqb_spec k auth.API_KEY) as [-> |]; [| discriminate].
    destruct (authorization req) as [creds |].
    + destruct (fst (get_current_user creds now db)) as [u' | e] eqn:E.
      * intros [= <-]. left. now apply Hrow with creds.
      * destruct e; try discriminate.
        intros [= <-]. right. split; [reflexivity | exact Hx].
    + intros [= <-]. right. split; [reflexivity | exact Hx].
  - destruct (authorization req) as [creds |]; [| discriminate].
    destruct (fst (get_current_user creds now db)) as [u' | e] eqn:E;
      [| destruct e; discriminate].
    intros [= <-]. left. now apply Hrow with creds.
Qed.

Lemma X6_witness :
  fst (Depends.get_current_user_dual Sample2.api_key_request
         Sample.t0 Sample.db0)
  = Ok (Some auth_dependencies.virtual_admin)
  /\ (In auth_dependencies.virtual_admin Sample.db0
      \/ (auth_dependencies.virtual_admin = auth_dependencies.virtual_admin
          /\ x_api_key Sample2.api_key_request = Some settings.API_KEY)).
Proof.
  assert (Hok : fst (Depends.get_current_user_dual Sample2.api_key_request
                       Sample.t0 Sample.db0)
                = Ok (Some auth_dependencies.virtual_admin))
    by reflexivity.
  split; [exact Hok |].
  exact (X6_resolved_identity_origin _ _ _ _ Hok).
Defined.

Lemma Depends_dual_session (req : Request) (now : datetime) (db : Session) :
  snd (Depends.get_current_user_dual req now db) = db.
Proof.
  rewrite Depends_dual_unfold.
  repeat match goal with
         | |- context [match ?x with _ => _ end] => destruct x
         end; reflexivity.
Qed.

Lemma Depends_require_authentication_session (req : Request)
      (now : datetime) (db : Session) :
  snd (Depends.require_authentication req now db) = db.
Proof.
  unfold Depends.require_authentication, bind.
  pose proof (Depends_dual_session req now db) as Hs.
  destruct (Depends.get_current_user_dual req now db) as [[[u |] | e] db'];
    simpl in *; now subst.
Qed.

Lemma Depends_require_admin_session (req : Request)
      (now : datetime) (db : Session) :
  snd (Depends.require_admin req now db) = db.
Proof.
  unfold Depends.require_admin, bind.
  pose proof (Depends_require_authentication_session req now db) as Hs.
  destruct (Depends.require_authentication req now db) as [[u | e] db'];
    simpl in *; subst; [| reflexivity].
  unfold auth_dependencies.require_admin.
  now destruct (role_ne (role u) ADMIN).
Qed.

(** X7: resolving and gating a request never changes the [users] table,
    whether the request is let through or refused. *)
Theorem X7_gates_read_only (req : Request) (now : datetime) (db : Session) :
  snd (Depends.get_current_user_dual req now db) = db
  /\ snd (Depends.require_authentication req now db) = db
  /\ snd (Depends.require_admin req now db) = db.
Proof.
  split; [apply Depends_dual_session |].
  split; [apply Depends_require_authentication_session |].
  apply Depends_require_admin_session.
Qed.

(** X8: [require_authentication] answers 401 "Authentication required"
    exactly when the request has no API-key header (or an empty one) and
    its bearer credentials are absent or fail verification, that is,
    [get_current_user] raises its 401.  (A bearer on which jose raises
    outside [JWTError] is answered with that exception, not with the
    401.) *)
Theorem X8_unauthenticated_iff (req : Request) (now : datetime)
        (db : Session) :
  Depends.require_authentication req now db = (Raise Unauthenticated, db)
  <-> api_key_header req = None
      /\ bearer_yields_nothing db now (authorization req).
Proof.
  unfold Depends.require_authentication, bind.
  rewrite Depends_dual_unfold. unfold bearer_yields_nothing.
  destruct (api_key_header req) as [k |].
  - split; [| intros [[=] _]].
    destruct (String.eqb k auth.API_KEY); [| discriminate].
    destruct (authorization req) as [creds |]; [| discriminate].
    destruct (fst (get_current_user creds now db)) as [u | []];
      discriminate.
  - destruct (authorization req) as [creds |].
    + rewrite get_current_user_failure.
      destruct (get_current_user_total creds now db)
        as [[u Hu] | [Hf | (n & _ & Hx)]].
      * rewrite Hu. simpl. split; [discriminate |].
        intros [_ [=]].
      * rewrite Hf. simpl. split; auto.
      * rewrite Hx. simpl. split; [discriminate |].
        intros [_ [=]].
    + simpl. split; auto.
Qed.

(** X9: the bearer-only chain of the [/auth] routes.  For a token that
    verifies, an inactive account is refused with 400 "Inactive user"
    whatever its role, an active one that is not admin with 403, and an
    active admin is let through and is given the whole table by
    [GET /auth/users]. *)
Theorem X9_jwt_admin_chain (creds : HTTPAuthorizationCredentials)
        (now : datetime) (db : Session) (u : User) :
  BearerValid db now (credentials creds) u ->
  (is_active u = false ->
   DependsJWT.get_current_admin_user creds now db
   = (Raise (HTTPException 400 "Inactive user" []), db))
  /\ (is_active u = true -> role u <> Some ADMIN ->
      DependsJWT.get_current_admin_user creds now db
      = (Raise (HTTPException 403 "Admin privileges required" []), db))
  /\ (is_active u = true -> role u = Some ADMIN ->
      DependsJWT.get_current_admin_user creds now db = (Ok u, db)
      /\ AuthRoutes.users creds now db = (Ok db, db)).
Proof.
  intros Hv. apply get_current_user_valid in Hv.
  assert (E : get_current_user creds now db = (Ok u, db)).
  { pose proof (get_current_user_session creds now db) as Hs.
    destruct (get_current_user creds now db) as [r db']. simpl in *.
    now subst. }
  unfold AuthRoutes.users, DependsJWT.get_current_admin_user,
    DependsJWT.get_current_active_user, bind.
  rewrite E. unfold get_current_active_user, get_current_admin_user.
  split; [| split].
  - intros Ha. now rewrite Ha.
  - intros Ha Hr. rewrite Ha. simpl.
    destruct (role_ne (role u) ADMIN) eqn:Er; [reflexivity |].
    apply role_ne_admin in Er. contradiction.
  - intros Ha Hr. rewrite Ha. simpl.
    rewrite (proj2 (role_ne_admin (role u)) Hr). split; reflexivity.
Qed.

Lemma X9_witness :
  BearerValid Sample.db_off Sample.t0
    (credentials (Sample.bearer (Sample.token_of Sample.demo_admin)))
    Sample.demo_admin_off
  /\ is_active Sample.demo_admin_off = false
  /\ DependsJWT.get_current_admin_user
       (Sample.bearer (Sample.token_of Sample.demo_admin))
       Sample.t0 Sample.db_off
     = (Raise (HTTPException 400 "Inactive user" []), Sample.db_off).
Proof.
  assert (Hv : BearerValid Sample.db_off Sample.t0
                 (credentials
                    (Sample.bearer (Sample.token_of Sample.demo_admin)))
                 Sample.demo_admin_off).
  { apply get_current_user_valid. vm_compute. reflexivity. }
  split; [exact Hv |]. split; [reflexivity |].
  exact (proj1 (X9_jwt_admin_chain _ _ _ _ Hv) eq_refl).
Defined.

(** ** Accounts: registration, login and the admin routes *)

Lemma next_id_above (db : Session) (u : User) :
  In u db -> id u < next_id db.
Proof.
  unfold next_id. induction db as [| r db IH]; [contradiction |].
  cbn [fold_right]. intros [-> | Hin]; [lia |]. specialize (IH Hin). lia.
Qed.

Lemma next_id_fresh (db : Session) : ~ In (next_id db) (map id db).
Proof.
  intros Hin. apply in_map_iff in Hin as (u & Heq & Hin).
  apply next_id_above in Hin. lia.
Qed.

Lemma existsb_not_in {A} (f : A -> string) (l : list A) (x : string) :
  existsb (fun a => String.eqb (f a) x) l = false ->
  ~ In x (map f l).
Proof.
  induction l as [| a l IH]; simpl; [tauto |].
  intros Hb. apply orb_false_iff in Hb as [Ha Hl].
  apply String.eqb_neq in Ha. intros [Heq | Hin]; [congruence |].
  now apply IH.
Qed.

Lemma find_app_new {A} (p : A -> bool) (l : list A) (x : A) :
  existsb p l = false -> p x = true -> find p (l ++ [x]) = Some x.
Proof.
  induction l as [| a l IH]; simpl; intros Hl Hx.
  - now rewrite Hx.
  - apply orb_false_iff in Hl as [Ha Hl]. rewrite Ha. now apply IH.
Qed.

Lemma NoDup_app_one {A} (l : list A) (x : A) :
  NoDup l -> ~ In x l -> NoDup (l ++ [x]).
Proof.
  intros Hl Hx. induction Hl as [| a l Ha Hl IH]; simpl.
  - constructor; [tauto | constructor].
  - constructor.
    + rewrite in_app_iff. simpl. intros [H1 | [H2 | []]]; [tauto |].
      subst. apply Hx. now left.
    + apply IH. intros Hin. apply Hx. now right.
Qed.

Section Accounts.
Context `{Bcrypt}.

Lemma create_user_unfold (n e p : string) (f : option string)
      (r : UserRole) (salt : string) (db : Session) :
  create_user n e p f r salt db =
  if 72 <? Z.of_nat (String.length p) then
    (Raise (Exception "ValueError"), db)
  else if username_taken db n then
    (Raise (IntegrityError "users.username"), db)
  else if email_taken db e then (Raise (IntegrityError "users.email"), db)
  else (Ok (new_row db n e p f r salt),
        (db ++ [new_row db n e p f r salt])%list).
Proof.
  unfold create_user, hash_password, bind, lift.
  now destruct (72 <? Z.of_nat (String.length p)).
Qed.

(** All the outcomes of [register]. *)
Lemma register_unfold (user_data : UserCreate) (salt : string)
      (now : datetime) (db : Session) :
  auth_router.register user_data salt now db =
  if username_taken db (uc_username user_data) then
    (Raise AlreadyExists_username, db)
  else if email_taken db (uc_email user_data) then
    (Raise AlreadyExists_email, db)
  else if (0 <? Z.of_nat (length db))
          && UserRole_eqb (uc_role user_data) ADMIN then
    (Raise Forbidden_self_admin, db)
  else if 72 <? Z.of_nat (String.length (uc_password user_data)) then
    (Raise (Exception "ValueError"), db)
  else
    let row := new_row db (uc_username user_data) (uc_email user_data)
                 (uc_password user_data) (uc_full_name user_data)
                 (uc_role user_data) salt in
    (Ok (mkTokenResponse
           (create_access_token
              (jwt.mkClaims (Some (uc_username user_data))
                            (Some (UserRole_value (uc_role user_data)))
                            None)
              (Some (timedelta_minutes ACCESS_TOKEN_EXPIRE_MINUTES)) now)
           "bearer" row),
     (db ++ [row])%list).
Proof.
  destruct (username_taken db (uc_username user_data)) eqn:Eu.
  - now apply register_username_taken.
  - destruct (email_taken db (uc_email user_data)) eqn:Ee.
    + now apply register_email_taken.
    + unfold auth_router.register, get_user_by_username, get_user_by_email,
        query_first, query_count, bind.
      pose proof Eu as Eu'. pose proof Ee as Ee'.
      unfold username_taken in Eu'. unfold email_taken in Ee'.
      rewrite find_existsb in Eu', Ee'.
      destruct (find _ db); [discriminate |].
      destruct (find _ db); [discriminate |].
      replace (String.eqb (UserRole_value (uc_role user_data)) "admin")
        with (UserRole_eqb (uc_role user_data) ADMIN)
        by now destruct (uc_role user_data).
      destruct ((0 <? Z.of_nat (length db))
                && UserRole_eqb (uc_role user_data) ADMIN);
        [reflexivity |].
      rewrite create_user_unfold, Eu, Ee.
      now destruct (72 <? Z.of_nat (String.length (uc_password user_data))).
Qed.

End Accounts.

(** A successful [register], read back from its result. *)
Lemma register_ok_inv `{Bcrypt} (user_data : UserCreate) (salt : string)
      (now : datetime) (db db' : Session) (resp : TokenResponse) :
  auth_router.register user_data salt now db = (Ok resp, db') ->
  username_taken db (uc_username user_data) = false
  /\ email_taken db (uc_email user_data) = false
  /\ (db = [] \/ uc_role user_data = CLIENT)
  /\ user resp = new_row db (uc_username user_data) (uc_email user_data)
                   (uc_password user_data) (uc_full_name user_data)
                   (uc_role user_data) salt
  /\ access_token resp
     = create_access_token
         (jwt.mkClaims (Some (uc_username user_data))
                       (Some (UserRole_value (uc_role user_data))) None)
         (Some (timedelta_minutes ACCESS_TOKEN_EXPIRE_MINUTES)) now
  /\ token_type resp = "bearer"
  /\ db' = (db ++ [user resp])%list
  /\ bcrypt_takes (uc_password user_data).
Proof.
  rewrite register_unfold. unfold bcrypt_takes.
  destruct (username_taken db _); [discriminate |].
  destruct (email_taken db _); [discriminate |].
  destruct (Z.ltb_spec 72 (Z.of_nat (String.length (uc_password user_data))));
    [now destruct (_ && _) |].
  destruct (0 <? Z.of_nat (length db)) eqn:El;
    destruct (UserRole_eqb (uc_role user_data) ADMIN) eqn:Er;
    simpl; try discriminate;
    intros [= <- <-]; simpl; repeat split; try reflexivity;
    try assumption.
  - right. now destruct (uc_role user_data).
  - left. destruct db; [reflexivity |].
    apply Z.ltb_ge in El. simpl length in El. lia.
  - right. now destruct (uc_role user_data).
Qed.

(** X10: a registration whose username and email are free, as client or
    into the empty table, and whose password bcrypt takes (at most 72
    bytes), succeeds.  It appends one row to the table: active, with the
    requested role, the password stored as its bcrypt hash and a primary
    key that no other row has. *)
Theorem X10_register_success `{Bcrypt} (user_data : UserCreate)
        (salt : string) (now : datetime) (db : Session) :
  username_taken db (uc_username user_data) = false ->
  email_taken db (uc_email user_data) = false ->
  db = [] \/ uc_role user_data = CLIENT ->
  bcrypt_takes (uc_password user_data) ->
  exists resp,
    auth_router.register user_data salt now db
    = (Ok resp, (db ++ [user resp])%list)
    /\ username (user resp) = uc_username user_data
    /\ email (user resp) = uc_email user_data
    /\ full_name (user resp) = uc_full_name user_data
    /\ role (user resp) = Some (uc_role user_data)
    /\ is_active (user resp) = true
    /\ hashed_password (user resp)
       = bcrypt_hashpw (uc_password user_data) salt
    /\ ~ In (id (user resp)) (map id db)
    /\ token_type resp = "bearer".
Proof.
  intros Eu Ee Hr Hp. rewrite register_unfold, Eu, Ee.
  assert (Eg : (0 <? Z.of_nat (length db))
               && UserRole_eqb (uc_role user_data) ADMIN = false).
  { destruct Hr as [-> | ->]; [reflexivity |]. apply andb_false_r. }
  rewrite Eg. unfold bcrypt_takes in Hp.
  destruct (Z.ltb_spec 72 (Z.of_nat (String.length (uc_password user_data))));
    [lia |].
  eexists (mkTokenResponse _ _ _).
  split; [reflexivity |]. simpl.
  repeat split; try reflexivity. apply next_id_fresh.
Qed.

Lemma X10_witness :
  username_taken Sample.db0 "eve" = false
  /\ email_taken Sample.db0 "eve@example.com" = false
  /\ (Sample.db0 = [] \/ CLIENT = CLIENT)
  /\ bcrypt_takes "evepass"
  /\ exists resp,
       @auth_router.register Sample.toy_bcrypt
          (mkUserCreate "eve" "eve@example.com" None "evepass" CLIENT)
          "salt" Sample.t0 Sample.db0
       = (Ok resp, (Sample.db0 ++ [user resp])%list)
       /\ username (user resp) = "eve"
       /\ email (user resp) = "eve@example.com"
       /\ full_name (user resp) = None
       /\ role (user resp) = Some CLIENT
       /\ is_active (user resp) = true
       /\ hashed_password (user resp)
          = @bcrypt_hashpw Sample.toy_bcrypt "evepass" "salt"
       /\ ~ In (id (user resp)) (map id Sample.db0)
       /\ token_type resp = "bearer".
Proof.
  split; [reflexivity |]. split; [reflexivity |].
  split; [right; reflexivity |].
  assert (Hp : bcrypt_takes "evepass") by (unfold bcrypt_takes; simpl; lia).
  split; [exact Hp |].
  exact (@X10_register_success Sample.toy_bcrypt
           (mkUserCreate "eve" "eve@example.com" None "evepass" CLIENT)
           "salt" Sample.t0 Sample.db0 eq_refl eq_refl
           (or_intror eq_refl) Hp).
Defined.

(** X11: the token a registration returns authenticates as the row the
    registration wrote, on the table the registration left, until the
    second of its expiry (1440 minutes later) is over. *)
Theorem X11_register_then_authenticate `{Bcrypt} (user_data : UserCreate)
        (salt scheme' : string) (now now' : datetime)
        (db db' : Session) (resp : TokenResponse) :
  auth_router.register user_data salt now db = (Ok resp, db') ->
  timegm now' <= timegm (now + timedelta_minutes 1440) ->
  Depends.require_authentication
    (mkRequest (Some (mkCredentials scheme' (access_token resp))) None)
    now' db'
  = (Ok (user resp), db').
Proof.
  intros Hreg Hle.
  apply register_ok_inv in Hreg
    as (Eu & Ee & _ & Hrow & Htok & _ & -> & _).
  unfold Depends.require_authentication, bind.
  rewrite Depends_dual_key_absent.
  rewrite (dual_bearer_accepted _ None now' _ (user resp)); [reflexivity |].
  rewrite Htok.
  assert (Hname : username (user resp) = uc_username user_data)
    by now rewrite Hrow.
  assert (Hrole : option_map UserRole_value (role (user resp))
                  = Some (UserRole_value (uc_role user_data)))
    by now rewrite Hrow.
  rewrite <- Hname, <- Hrole.
  rewrite token_round_trip; [reflexivity | | exact Hle].
  apply find_app_new.
  - rewrite Hname. exact Eu.
  - apply String.eqb_refl.
Qed.

Lemma X11_witness :
  @auth_router.register Sample.toy_bcrypt Sample2.eve_create "salt"
     Sample.t0 Sample.db0
  = (Ok Sample2.eve_response, (Sample.db0 ++ [Sample2.eve_row])%list)
  /\ timegm (Sample.t0 + timedelta_minutes 90)
     <= timegm (Sample.t0 + timedelta_minutes 1440)
  /\ Depends.require_authentication
       (mkRequest
          (Some (mkCredentials "Bearer"
                   (access_token Sample2.eve_response))) None)
       (Sample.t0 + timedelta_minutes 90)
       (Sample.db0 ++ [Sample2.eve_row])%list
     = (Ok (user Sample2.eve_response),
        (Sample.db0 ++ [Sample2.eve_row])%list).
Proof.
  assert (Hreg : @auth_router.register Sample.toy_bcrypt Sample2.eve_create
                    "salt" Sample.t0 Sample.db0
                 = (Ok Sample2.eve_response,
                    (Sample.db0 ++ [Sample2.eve_row])%list))
    by (vm_compute; reflexivity).
  assert (Hle : timegm (Sample.t0 + timedelta_minutes 90)
                <= timegm (Sample.t0 + timedelta_minutes 1440))
    by (vm_compute; discriminate).
  split; [exact Hreg |]. split; [exact Hle |].
  exact (@X11_register_then_authenticate Sample.toy_bcrypt _ _ "Bearer"
           _ _ _ _ _ Hreg Hle).
Defined.

(** The outcomes of [login]. *)
Lemma login_unfold `{Bcrypt} (user_data : UserLogin) (now : datetime)
      (db : Session) :
  auth_router.login user_data now db =
  match find (fun u => String.eqb (username u) (ul_username user_data)) db
  with
  | Some u =>
      if verify_password (ul_password user_data) (hashed_password u)
         && is_active u
      then
        (Ok (mkTokenResponse
               (create_access_token
                  (jwt.mkClaims (Some (username u))
                                (option_map UserRole_value (role u)) None)
                  (Some (timedelta_minutes ACCESS_TOKEN_EXPIRE_MINUTES))
                  now)
               "bearer" u), db)
      else (Raise InvalidCredentials, db)
  | None => (Raise InvalidCredentials, db)
  end.
Proof.
  unfold auth_router.login, bind. rewrite authenticate_user_unfold.
  destruct (find _ db) as [u |]; [| reflexivity].
  now destruct (verify_password _ _ && is_active u).
Qed.

(** X12: once an account is registered, a login with the same username
    and password succeeds on the resulting table and returns the
    registered row, provided bcrypt accepts a password against its own
    hash. *)
Theorem X12_register_then_login `{Bcrypt} (user_data : UserCreate)
        (salt : string) (now now' : datetime)
        (db db' : Session) (resp : TokenResponse) :
  bcrypt_correct ->
  auth_router.register user_data salt now db = (Ok resp, db') ->
  exists resp',
    auth_router.login
      (mkUserLogin (uc_username user_data) (uc_password user_data))
      now' db'
    = (Ok resp', db')
    /\ user resp' = user resp.
Proof.
  intros Hbc Hreg.
  apply register_ok_inv in Hreg
    as (Eu & Ee & _ & Hrow & _ & _ & -> & Htakes).
  rewrite login_unfold. cbn [ul_username ul_password].
  rewrite (find_app_new _ db (user resp)); [| exact Eu |].
  - assert (Hp : verify_password (uc_password user_data)
                   (hashed_password (user resp)) = true).
    { rewrite Hrow. unfold verify_password, new_row.
      cbn [hashed_password]. now rewrite Hbc. }
    assert (Ha : is_active (user resp) = true) by now rewrite Hrow.
    rewrite Hp, Ha. eexists (mkTokenResponse _ _ _).
    split; reflexivity.
  - rewrite Hrow. apply String.eqb_refl.
Qed.

Lemma toy_bcrypt_correct : @bcrypt_correct Sample.toy_bcrypt.
Proof.
  intros password salt _. simpl. now rewrite String.eqb_refl.
Qed.

Lemma X12_witness :
  @bcrypt_correct Sample.toy_bcrypt
  /\ @auth_router.register Sample.toy_bcrypt Sample2.eve_create "salt"
        Sample.t0 Sample.db0
     = (Ok Sample2.eve_response, (Sample.db0 ++ [Sample2.eve_row])%list)
  /\ exists resp',
       @auth_router.login Sample.toy_bcrypt
          (mkUserLogin "eve" "evepass") (Sample.t0 + 1)
          (Sample.db0 ++ [Sample2.eve_row])%list
       = (Ok resp', (Sample.db0 ++ [Sample2.eve_row])%list)
       /\ user resp' = user Sample2.eve_response.
Proof.
  assert (Hreg : @auth_router.register Sample.toy_bcrypt Sample2.eve_create
                    "salt" Sample.t0 Sample.db0
                 = (Ok Sample2.eve_response,
                    (Sample.db0 ++ [Sample2.eve_row])%list))
    by (vm_compute; reflexivity).
  split; [exact toy_bcrypt_correct |]. split; [exact Hreg |].
  exact (@X12_register_then_login Sample.toy_bcrypt Sample2.eve_create
           "salt" Sample.t0 (Sample.t0 + 1) _ _ _
           toy_bcrypt_correct Hreg).
Defined.

Lemma create_user_unique `{Bcrypt} (n e p : string) (f : option string)
      (r : UserRole) (salt : string) (db db' : Session) (row : User) :
  users_unique db ->
  create_user n e p f r salt db = (Ok row, db') ->
  users_unique db' /\ db' = (db ++ [row])%list /\ role row = Some r.
Proof.
  intros (Hid & Hname & Hmail). rewrite create_user_unfold.
  destruct (72 <? Z.of_nat (String.length p)); [discriminate |].
  destruct (username_taken db n) eqn:Eu; [discriminate |].
  destruct (email_taken db e) eqn:Ee; [discriminate |].
  intros [= <- <-]. split; [| split; reflexivity].
  unfold users_unique. rewrite !map_app. simpl.
  split; [| split]; apply NoDup_app_one; try assumption.
  - apply next_id_fresh.
  - now apply existsb_not_in.
  - now apply existsb_not_in.
Qed.

(** X13: the uniqueness of primary keys, usernames and emails in the
    [users] table is kept by every registration and by every creation
    of an admin. *)
Theorem X13_accounts_stay_unique `{Bcrypt} (user_data : UserCreate)
        (salt : string) (now : datetime) (db : Session) :
  users_unique db ->
  (forall resp db',
      auth_router.register user_data salt now db = (Ok resp, db') ->
      users_unique db')
  /\ (forall current_admin row db',
        auth_router.create_admin_user user_data current_admin salt db
        = (Ok row, db') ->
        users_unique db').
Proof.
  intros Hu. split.
  - intros resp db' Hreg.
    apply register_ok_inv in Hreg
      as (Eu & Ee & _ & Hrow & _ & _ & -> & Hp).
    destruct (create_user_unique (uc_username user_data)
                (uc_email user_data) (uc_password user_data)
                (uc_full_name user_data) (uc_role user_data) salt db
                (db ++ [user resp])%list (user resp) Hu) as [Hu' _];
      [| exact Hu'].
    rewrite create_user_unfold, Eu, Ee, Hrow. unfold bcrypt_takes in Hp.
    destruct (Z.ltb_spec 72
                (Z.of_nat (String.length (uc_password user_data))));
      [lia | reflexivity].
  - intros current_admin row db'.
    unfold auth_router.create_admin_user, get_user_by_username,
      get_user_by_email, query_first, bind.
    destruct (find _ db); [discriminate |].
    destruct (find _ db); [discriminate |].
    intros Hc. now apply create_user_unique in Hc as [Hu' _].
Qed.

Lemma db0_unique : users_unique Sample.db0.
Proof.
  unfold users_unique, Sample.db0. simpl.
  repeat split;
    repeat (constructor; [simpl; intuition discriminate |]);
    constructor.
Qed.

Lemma X13_witness :
  users_unique Sample.db0
  /\ users_unique (Sample.db0 ++ [Sample2.eve_row])%list.
Proof.
  split; [exact db0_unique |].
  apply (proj1 (@X13_accounts_stay_unique Sample.toy_bcrypt
                  Sample2.eve_create "salt" Sample.t0 Sample.db0
                  db0_unique) Sample2.eve_response).
  vm_compute. reflexivity.
Defined.

Lemma count_admins_app (db : Session) (u : User) :
  count_admins (db ++ [u])%list
  = (count_admins db + if role_ne (role u) ADMIN then 0 else 1)%nat.
Proof.
  unfold count_admins. rewrite filter_app, length_app. simpl.
  now destruct (role_ne (role u) ADMIN).
Qed.

(** X14: nobody makes themselves admin once an account exists.  A
    registration that succeeds on a table with a row writes a client
    row, and the number of admin rows is what it was. *)
Theorem X14_register_never_adds_admin `{Bcrypt} (user_data : UserCreate)
        (salt : string) (now : datetime) (db db' : Session)
        (resp : TokenResponse) :
  db <> [] ->
  auth_router.register user_data salt now db = (Ok resp, db') ->
  role (user resp) = Some CLIENT
  /\ count_admins db' = count_admins db.
Proof.
  intros Hne Hreg.
  apply register_ok_inv in Hreg as (_ & _ & Hr & Hrow & _ & _ & -> & _).
  destruct Hr as [-> | Hr]; [contradiction |].
  assert (Hrole : role (user resp) = Some CLIENT)
    by (rewrite Hrow; simpl; now rewrite Hr).
  split; [exact Hrole |].
  rewrite count_admins_app, Hrole. simpl. lia.
Qed.

Lemma X14_witness :
  Sample.db0 <> []
  /\ @auth_router.register Sample.toy_bcrypt Sample2.eve_create "salt"
        Sample.t0 Sample.db0
     = (Ok Sample2.eve_response, (Sample.db0 ++ [Sample2.eve_row])%list)
  /\ role (user Sample2.eve_response) = Some CLIENT
  /\ count_admins (Sample.db0 ++ [Sample2.eve_row])%list
     = count_admins Sample.db0.
Proof.
  assert (Hne : Sample.db0 <> []) by discriminate.
  assert (Hreg : @auth_router.register Sample.toy_bcrypt Sample2.eve_create
                    "salt" Sample.t0 Sample.db0
                 = (Ok Sample2.eve_response,
                    (Sample.db0 ++ [Sample2.eve_row])%list))
    by (vm_compute; reflexivity).
  split; [exact Hne |]. split; [exact Hreg |].
  exact (@X14_register_never_adds_admin Sample.toy_bcrypt _ _ _ _ _ _
           Hne Hreg).
Defined.

(** X15: a registration that is refused, handled on its own (no other
    request writes between its checks and its insert), leaves the table
    as it was.  It is refused with 400 username, 400 email or 403; or
    else its username and email are free, its password is longer than
    the 72 bytes bcrypt takes, and it ends in bcrypt's [ValueError],
    which nothing catches.  The uniqueness constraints of the table are
    not what stops it. *)
Theorem X15_register_refusals `{Bcrypt} (user_data : UserCreate)
        (salt : string) (now : datetime) (db : Session) (e : exn) :
  fst (auth_router.register user_data salt now db) = Raise e ->
  snd (auth_router.register user_data salt now db) = db
  /\ (e = HTTPException 400 "Username already registered" []
      \/ e = HTTPException 400 "Email already registered" []
      \/ e = HTTPException 403
           "Cannot self-register as admin. Please contact an existing admin."
           []
      \/ (e = Exception "ValueError"
          /\ ~ bcrypt_takes (uc_password user_data)
          /\ username_taken db (uc_username user_data) = false
          /\ email_taken db (uc_email user_data) = false)).
Proof.
  rewrite register_unfold. unfold bcrypt_takes.
  destruct (username_taken db _);
    [intros [= <-]; split; [reflexivity | now left] |].
  destruct (email_taken db _);
    [intros [= <-]; split; [reflexivity | right; now left] |].
  destruct (_ && _);
    [intros [= <-]; split; [reflexivity | right; right; now left] |].
  destruct (Z.ltb_spec 72 (Z.of_nat (String.length (uc_password user_data))));
    [| discriminate].
  intros [= <-]. split; [reflexivity |]. do 3 right.
  repeat split; try reflexivity. lia.
Qed.

Lemma X15_witness :
  fst (@auth_router.register Sample.toy_bcrypt
         (mkUserCreate "eve" "eve@example.com" None Sample2.long_password
                       CLIENT)
         "salt" Sample.t0 Sample.db0)
  = Raise (Exception "ValueError")
  /\ snd (@auth_router.register Sample.toy_bcrypt
            (mkUserCreate "eve" "eve@example.com" None Sample2.long_password
                          CLIENT)
            "salt" Sample.t0 Sample.db0)
     = Sample.db0.
Proof.
  assert (Hr : fst (@auth_router.register Sample.toy_bcrypt
                      (mkUserCreate "eve" "eve@example.com" None
                                    Sample2.long_password CLIENT)
                      "salt" Sample.t0 Sample.db0)
               = Raise (Exception "ValueError"))
    by (vm_compute; reflexivity).
  split; [exact Hr |].
  exact (proj1 (@X15_register_refusals Sample.toy_bcrypt _ _ _ _ _ Hr)).
Defined.

(** X16: a login that succeeds returns a row of the table that has the
    given username, is active and whose stored hash bcrypt accepts for
    the given password; the token names that row's username and role
    and expires 1440 minutes after the login; the table is unchanged. *)
Theorem X16_login_success `{Bcrypt} (user_data : UserLogin)
        (now : datetime) (db db' : Session) (resp : TokenResponse) :
  auth_router.login user_data now db = (Ok resp, db') ->
  db' = db
  /\ In (user resp) db
  /\ username (user resp) = ul_username user_data
  /\ is_active (user resp) = true
  /\ bcrypt_checkpw (ul_password user_data) (hashed_password (user resp))
     = Some true
  /\ token_type resp = "bearer"
  /\ access_token resp
     = jwt.Signed "HS256" settings.JWT_SECRET_KEY
         (jwt.mkClaims (Some (username (user resp)))
                       (option_map UserRole_value (role (user resp)))
                       (Some (timegm (now + timedelta_minutes 1440)))).
Proof.
  rewrite login_unfold.
  destruct (find _ db) as [u |] eqn:Hf; [| discriminate].
  destruct (verify_password _ _) eqn:Hp; [| discriminate].
  destruct (is_active u) eqn:Ha; [| discriminate].
  simpl. intros [= <- <-]. simpl.
  apply find_some in Hf as [Hin Hn]. apply String.eqb_eq in Hn.
  repeat split; try assumption; try reflexivity.
  unfold verify_password in Hp.
  destruct (bcrypt_checkpw _ _) as [[|] |]; congruence.
Qed.

Lemma X16_witness :
  @auth_router.login Sample.toy_bcrypt (mkUserLogin "admin" "admin123")
     Sample.t0 Sample.db0
  = (Ok Sample2.admin_response, Sample.db0)
  /\ In (user Sample2.admin_response) Sample.db0.
Proof.
  assert (Hl : @auth_router.login Sample.toy_bcrypt
                  (mkUserLogin "admin" "admin123") Sample.t0 Sample.db0
               = (Ok Sample2.admin_response, Sample.db0))
    by (vm_compute; reflexivity).
  split; [exact Hl |].
  exact (proj1 (proj2 (@X16_login_success Sample.toy_bcrypt _ _ _ _ _ Hl))).
Defined.

(** X17: the token of a successful login, sent as bearer credentials
    with or without the configured API key, passes
    [require_authentication] as the account that logged in, until the
    second of its expiry is over. *)
Theorem X17_login_then_authenticate `{Bcrypt} (user_data : UserLogin)
        (scheme' : string) (now now' : datetime) (db db' : Session)
        (resp : TokenResponse) (k : option string) :
  auth_router.login user_data now db = (Ok resp, db') ->
  timegm now' <= timegm (now + timedelta_minutes 1440) ->
  k = None \/ k = Some auth.API_KEY ->
  Depends.require_authentication
    (mkRequest (Some (mkCredentials scheme' (access_token resp))) k)
    now' db
  = (Ok (user resp), db).
Proof.
  rewrite login_unfold.
  destruct (find _ db) as [u |] eqn:Hf; [| discriminate].
  destruct (_ && _); [| discriminate].
  intros [= <- <-] Hle Hk. cbn [access_token user].
  assert (Hf' : find (fun r => String.eqb (username r) (username u)) db
                = Some u).
  { pose proof Hf as Hf0. apply find_some in Hf0 as [_ Hn].
    apply String.eqb_eq in Hn. now rewrite Hn. }
  unfold Depends.require_authentication, bind.
  assert (E : forall a,
             auth_dependencies.get_current_user_dual
               (Some (mkCredentials scheme'
                  (create_access_token
                     (jwt.mkClaims (Some (username u))
                        (option_map UserRole_value (role u)) None)
                     (Some (timedelta_minutes ACCESS_TOKEN_EXPIRE_MINUTES))
                     now))) a now' db
             = (Ok (Some u), db)).
  { intros a. apply dual_bearer_accepted.
    now rewrite token_round_trip. }
  destruct Hk as [-> | ->].
  - rewrite Depends_dual_key_absent, E. reflexivity.
  - rewrite Depends_dual_key_valid, E. reflexivity.
Qed.

Lemma X17_witness :
  @auth_router.login Sample.toy_bcrypt (mkUserLogin "admin" "admin123")
     Sample.t0 Sample.db0
  = (Ok Sample2.admin_response, Sample.db0)
  /\ timegm (Sample.t0 + timedelta_minutes 30)
     <= timegm (Sample.t0 + timedelta_minutes 1440)
  /\ Depends.require_authentication
       (mkRequest
          (Some (mkCredentials "Bearer"
                   (access_token Sample2.admin_response))) None)
       (Sample.t0 + timedelta_minutes 30) Sample.db0
     = (Ok (user Sample2.admin_response), Sample.db0).
Proof.
  assert (Hl : @auth_router.login Sample.toy_bcrypt
                  (mkUserLogin "admin" "admin123") Sample.t0 Sample.db0
               = (Ok Sample2.admin_response, Sample.db0))
    by (vm_compute; reflexivity).
  assert (Hle : timegm (Sample.t0 + timedelta_minutes 30)
                <= timegm (Sample.t0 + timedelta_minutes 1440))
    by (vm_compute; discriminate).
  split; [exact Hl |]. split; [exact Hle |].
  exact (@X17_login_then_authenticate Sample.toy_bcrypt _ "Bearer" _ _ _ _
           _ None Hl Hle (or_introl eq_refl)).
Defined.

Lemma jwt_admin_chain_inv (creds : HTTPAuthorizationCredentials)
      (now : datetime) (db db' : Session) (a : User) :
  DependsJWT.get_current_admin_user creds now db = (Ok a, db') ->
  db' = db
  /\ BearerValid db now (credentials creds) a
  /\ is_active a = true
  /\ role a = Some ADMIN.
Proof.
  unfold DependsJWT.get_current_admin_user,
    DependsJWT.get_current_active_user, bind.
  destruct (get_current_user_total creds now db)
    as [[u Hu] | [Hf | (n & _ & Hx)]];
    [| rewrite Hf; discriminate | rewrite Hx; discriminate].
  rewrite Hu. unfold get_current_active_user, get_current_admin_user.
  destruct (is_active u) eqn:Ha; simpl; [| discriminate].
  destruct (role_ne (role u) ADMIN) eqn:Er; simpl; [discriminate |].
  intros [= <- <-]. split; [reflexivity |].
  split; [| split; [exact Ha | now apply role_ne_admin]].
  apply get_current_user_valid. now rewrite Hu.
Qed.

(** X18: the two admin routes under [/auth].  [GET /auth/users] and
    [POST /auth/create-admin] succeed only for a bearer token that
    verifies against an active admin row.  [create-admin] then appends
    one row whose role is admin whatever role the payload asked for,
    and [users] returns the table as it is. *)
Theorem X18_admin_routes `{Bcrypt} (creds : HTTPAuthorizationCredentials)
        (now : datetime) (db : Session) :
  (forall l db',
      AuthRoutes.users creds now db = (Ok l, db') ->
      l = db /\ db' = db
      /\ exists a, BearerValid db now (credentials creds) a
                   /\ is_active a = true /\ role a = Some ADMIN)
  /\ (forall user_data salt row db',
        AuthRoutes.create_admin user_data creds salt now db = (Ok row, db') ->
        role row = Some ADMIN
        /\ username row = uc_username user_data
        /\ email row = uc_email user_data
        /\ db' = (db ++ [row])%list
        /\ exists a, BearerValid db now (credentials creds) a
                     /\ is_active a = true /\ role a = Some ADMIN).
Proof.
  split.
  - intros l db'. unfold AuthRoutes.users, bind.
    destruct (DependsJWT.get_current_admin_user creds now db)
      as [[a | e] db1] eqn:E; [| discriminate].
    apply jwt_admin_chain_inv in E as (-> & Hv & Ha & Hr).
    unfold auth_router.list_all_users, query_all.
    intros [= <- <-]. repeat split. now exists a.
  - intros user_data salt row db'. unfold AuthRoutes.create_admin, bind.
    destruct (DependsJWT.get_current_admin_user creds now db)
      as [[a | e] db1] eqn:E; [| discriminate].
    apply jwt_admin_chain_inv in E as (-> & Hv & Ha & Hr).
    unfold auth_router.create_admin_user, get_user_by_username,
      get_user_by_email, query_first, bind.
    destruct (find _ db); [discriminate |].
    destruct (find _ db); [discriminate |].
    rewrite create_user_unfold.
    destruct (72 <? _); [discriminate |].
    destruct (username_taken db _); [discriminate |].
    destruct (email_taken db _); [discriminate |].
    intros [= <- <-]. repeat split. now exists a.
Qed.

(** X19: the body of [get_optional_current_user] never changes the
    table.  It returns an account exactly when credentials are given and
    verify, as that account; it returns [None] exactly when no
    credentials are given or they fail verification; and it raises
    exactly when jose raises outside [JWTError] on the token, that same
    exception: only [HTTPException] is caught. *)
Theorem X19_optional_user (c : option HTTPAuthorizationCredentials)
        (now : datetime) (db : Session) :
  snd (get_optional_current_user c now db) = db
  /\ (forall u,
        fst (get_optional_current_user c now db) = Ok (Some u)
        <-> exists creds,
              c = Some creds /\ BearerValid db now (credentials creds) u)
  /\ (fst (get_optional_current_user c now db) = Ok None
      <-> bearer_yields_nothing db now c)
  /\ (forall e,
        fst (get_optional_current_user c now db) = Raise e
        <-> exists creds class_name,
              c = Some creds
              /\ BearerCrash (credentials creds) class_name
              /\ e = Exception class_name).
Proof.
  unfold get_optional_current_user, bearer_yields_nothing.
  destruct c as [creds |].
  - rewrite get_current_user_failure.
    destruct (get_current_user_total creds now db)
      as [[u Hu] | [Hf | (n & Hc & Hx)]].
    + rewrite Hu. cbn [fst snd].
      split; [reflexivity |]. split; [| split].
      * intros u'. split.
        -- intros [= <-]. exists creds. split; [reflexivity |].
           apply get_current_user_valid. now rewrite Hu.
        -- intros (creds' & [= <-] & Hv).
           apply get_current_user_valid in Hv. rewrite Hu in Hv.
           simpl in Hv. congruence.
      * split; discriminate.
      * intros e. split; [discriminate |].
        intros (creds' & n & [= <-] & Hc & _).
        apply (get_current_user_crash creds now db) in Hc.
        rewrite Hu in Hc. discriminate.
    + rewrite Hf. cbn [fst snd].
      split; [reflexivity |]. split; [| split].
      * intros u'. split; [discriminate |].
        intros (creds' & [= <-] & Hv).
        apply get_current_user_valid in Hv. rewrite Hf in Hv. discriminate.
      * split; reflexivity.
      * intros e. split; [discriminate |].
        intros (creds' & n & [= <-] & Hc & _).
        apply (get_current_user_crash creds now db) in Hc.
        rewrite Hf in Hc. discriminate.
    + rewrite Hx. cbn [fst snd].
      split; [reflexivity |]. split; [| split].
      * intros u'. split; [discriminate |].
        intros (creds' & [= <-] & Hv).
        apply get_current_user_valid in Hv. rewrite Hx in Hv. discriminate.
      * split; discriminate.
      * intros e. split.
        -- intros [= <-]. exists creds, n. repeat split. exact Hc.
        -- intros (creds' & n' & [= <-] & Hc' & ->).
           apply (get_current_user_crash creds now db) in Hc'.
           rewrite Hx in Hc'. congruence.
  - cbn [ret fst snd]. split; [reflexivity |]. split; [| split].
    + intros u. split; [discriminate |]. intros (creds & [=] & _).
    + split; auto.
    + intros e. split; [discriminate |]. intros (creds & n & [=] & _).
Qed.

(** X20: [create_default_users] is idempotent.  It leaves a table that
    has a row as it is; into the empty table it writes three active
    rows, [admin], [client] and [demoadmin], two of them admins, with
    unique keys, usernames and emails; and run again on its own result
    it changes nothing. *)
Theorem X20_default_users `{Bcrypt} (salt1 salt2 salt3 : string)
        (db : Session) :
  (db <> [] ->
   default_users.create_default_users salt1 salt2 salt3 db = (Ok tt, db))
  /\ (exists db1,
        default_users.create_default_users salt1 salt2 salt3 [] = (Ok tt, db1)
        /\ map username db1 = ["admin"; "client"; "demoadmin"]
        /\ map role db1 = [Some ADMIN; Some CLIENT; Some ADMIN]
        /\ map is_active db1 = [true; true; true]
        /\ map hashed_password db1
           = [bcrypt_hashpw "admin123" salt1;
              bcrypt_hashpw "client123" salt2;
              bcrypt_hashpw "demo123" salt3]
        /\ users_unique db1)
  /\ (forall r db1 s1 s2 s3,
        default_users.create_default_users salt1 salt2 salt3 db = (r, db1) ->
        default_users.create_default_users s1 s2 s3 db1 = (Ok tt, db1)).
Proof.
  assert (Hkeep : forall s1 s2 s3 d, d <> [] ->
             default_users.create_default_users s1 s2 s3 d = (Ok tt, d)).
  { intros s1 s2 s3 d Hne. unfold default_users.create_default_users,
      query_count.
    destruct d as [| r d]; [contradiction |].
    replace (0 <? Z.of_nat (length (r :: d))) with true; [reflexivity |].
    symmetry. apply Z.ltb_lt. simpl length. lia. }
  split; [apply Hkeep |]. split.
  - eexists. split; [reflexivity |]. simpl.
    repeat split; try reflexivity;
      repeat (constructor; [simpl; intuition discriminate |]);
      constructor.
  - intros r db1 s1 s2 s3 Hrun.
    destruct db as [| r0 db].
    + assert (db1 <> []).
      { cbv in Hrun. injection Hrun as _ <-. discriminate. }
      now apply Hkeep.
    + rewrite Hkeep in Hrun by discriminate.
      injection Hrun as _ <-. apply Hkeep. discriminate.
Qed.

Lemma X20_witness :
  Sample.db0 <> []
  /\ @default_users.create_default_users Sample.toy_bcrypt "s1" "s2" "s3"
        Sample.db0
     = (Ok tt, Sample.db0).
Proof.
  assert (Hne : Sample.db0 <> []) by discriminate.
  split; [exact Hne |].
  exact (proj1 (@X20_default_users Sample.toy_bcrypt "s1" "s2" "s3"
                  Sample.db0) Hne).
Defined.

(** ** Employees and tasks *)

Lemma Database_eta (d : Database) :
  mkDatabase (foreign_keys d) (users d) (employees d) (tasks d) = d.
Proof. now destruct d. Qed.

Lemma next_employee_id_above (d : Database) (e : Employee.t) :
  In e (employees d) -> Employee.id e < next_employee_id d.
Proof.
  unfold next_employee_id.
  induction (employees d) as [| r l IH]; [contradiction |].
  cbn [fold_right]. intros [-> | Hin]; [lia |]. specialize (IH Hin). lia.
Qed.

Lemma next_task_id_above (d : Database) (t : Task.t) :
  In t (tasks d) -> Task.id t < next_task_id d.
Proof.
  unfold next_task_id.
  induction (tasks d) as [| r l IH]; [contradiction |].
  cbn [fold_right]. intros [-> | Hin]; [lia |]. specialize (IH Hin). lia.
Qed.

Lemma find_app_fresh {A} (p : A -> bool) (l : list A) (x : A) :
  (forall a, In a l -> p a = false) -> p x = true ->
  find p (l ++ [x]) = Some x.
Proof.
  intros Hl Hx. apply find_app_new; [| exact Hx].
  induction l as [| a l IH]; [reflexivity |].
  simpl. rewrite (Hl a) by now left. apply IH.
  intros b Hb. apply Hl. now right.
Qed.

(** X21: [create_employee] refuses an email that a row already has with
    400 and changes nothing; otherwise it appends one row with the
    payload's name, email and role, no phone and a key no other row has,
    leaves users and tasks alone, and [get_employee_by_id] finds that
    row under its key. *)
Theorem X21_create_employee (employee : EmployeeCreate) (d : Database) :
  (employee_by_email (ec_email employee) d <> None ->
   employees_router.create_employee employee d
   = (Raise (HTTPException 400
               ("Employee with email '" ++ ec_email employee
                ++ "' already exists") []), d))
  /\ (employee_by_email (ec_email employee) d = None ->
      exists row d',
        employees_router.create_employee employee d = (Ok row, d')
        /\ row = Employee.mk (Employee.id row) (ec_name employee)
                   (ec_email employee) (ec_role employee) None
        /\ ~ In (Employee.id row) (map Employee.id (employees d))
        /\ employees d' = (employees d ++ [row])%list
        /\ tasks d' = tasks d /\ users d' = users d
        /\ foreign_keys d' = foreign_keys d
        /\ employees_router.get_employee_by_id (Employee.id row) d'
           = (Ok row, d')).
Proof.
  unfold employees_router.create_employee, tx_bind, query_employee_by_email.
  split.
  - intros Hex. destruct (employee_by_email _ d); [reflexivity | congruence].
  - intros Hnone. rewrite Hnone. unfold insert_employee.
    unfold employee_by_email in Hnone.
    pose proof (find_existsb
                  (fun e => String.eqb (Employee.email e) (ec_email employee))
                  (employees d)) as Hex.
    rewrite Hnone in Hex. rewrite Hex.
    eexists. eexists. split; [reflexivity |].
    cbn [Employee.id Employee.name Employee.email Employee.role
         Employee.phone employees tasks users foreign_keys].
    repeat split.
    + intros Hin. apply in_map_iff in Hin as (e & Heq & Hin).
      apply next_employee_id_above in Hin. lia.
    + unfold employees_router.get_employee_by_id, tx_bind,
        query_employee_by_id, employee_by_id. cbn [employees].
      rewrite find_app_fresh; [reflexivity | | apply Z.eqb_refl].
      intros a Ha. apply next_employee_id_above in Ha.
      cbn [Employee.id]. apply Z.eqb_neq. lia.
Qed.

Lemma X21_witness :
  employee_by_email "john.doe@company.com" Sample2.d0 <> None
  /\ employees_router.create_employee
       (mkEmployeeCreate "Johnny" "john.doe@company.com" "Intern")
       Sample2.d0
     = (Raise (HTTPException 400
                 "Employee with email 'john.doe@company.com' already exists"
                 []), Sample2.d0).
Proof.
  assert (Hex : employee_by_email "john.doe@company.com" Sample2.d0 <> None)
    by discriminate.
  split; [exact Hex |].
  exact (proj1 (X21_create_employee
                  (mkEmployeeCreate "Johnny" "john.doe@company.com" "Intern")
                  Sample2.d0) Hex).
Defined.

Lemma offset_limit_length {A} (skip limit : Z) (q : list A) :
  0 <= skip -> 0 <= limit ->
  Z.of_nat (length (offset_limit skip limit q))
  = Z.min limit (Z.max 0 (Z.of_nat (length q) - skip)).
Proof.
  intros Hs Hl. unfold offset_limit.
  rewrite length_firstn, length_skipn. lia.
Qed.

Lemma offset_limit_tile {A} (skip l1 l2 : Z) (q : list A) :
  0 <= skip -> 0 <= l1 -> 0 <= l2 ->
  (offset_limit skip l1 q ++ offset_limit (skip + l1) l2 q)%list
  = offset_limit skip (l1 + l2) q.
Proof.
  intros Hs H1 H2. unfold offset_limit.
  rewrite !Z2Nat.inj_add by lia.
  rewrite (Nat.add_comm (Z.to_nat skip)), <- skipn_skipn.
  generalize (skipn (Z.to_nat skip) q) as r. induction (Z.to_nat l1) as [| n IH]; intros r; [reflexivity |].
  destruct r as [| a r]; simpl.
  - now rewrite !firstn_nil.
  - f_equal. apply IH.
Qed.

Lemma filter_twice {A} (f g : A -> bool) (l : list A) :
  filter f (filter g l) = filter (fun x => g x && f x) l.
Proof.
  induction l as [| a l IH]; simpl; [reflexivity |].
  destruct (g a); simpl; [| exact IH].
  destruct (f a); now rewrite IH.
Qed.

Lemma binds_range (n : Z) : binds n = true <-> int64 n.
Proof.
  unfold binds, int64. rewrite andb_true_iff, Z.leb_le, Z.ltb_lt. tauto.
Qed.

Lemma no_row_int64 {A} (i : Z) (not_found : exn) (d : Database) :
  int64 i -> @no_row A i not_found d = (Raise not_found, d).
Proof.
  intros Hi. unfold no_row. now rewrite (proj2 (binds_range i) Hi).
Qed.

Lemma no_row_overflow {A} (i : Z) (not_found : exn) (d : Database) :
  ~ int64 i -> @no_row A i not_found d = (Raise OverflowError, d).
Proof.
  intros Hi. unfold no_row. destruct (binds i) eqn:E; [| reflexivity].
  apply binds_range in E. contradiction.
Qed.

Lemma binds_window (skip limit : Z) :
  0 <= skip < 2 ^ 63 -> 1 <= limit <= 1000 ->
  binds skip && binds limit = true.
Proof.
  intros Hs Hl. apply andb_true_iff.
  split; apply binds_range; unfold int64; lia.
Qed.

Section Listings.
Context `{Ilike}.

(** A listing is a window on one filtered list, which does not depend
    on the window. *)
Lemma get_all_employees_window (role search : option string)
      (d : Database) :
  exists q,
    (forall skip limit,
        employees_router.get_all_employees skip limit role search d
        = if binds skip && binds limit then
            (Ok (mkPage (Z.of_nat (length q)) skip limit
                   (map EmployeeResponse_model_validate
                        (offset_limit skip limit q))), d)
          else (Raise OverflowError, d))
    /\ (forall e, In e q -> In e (employees d))
    /\ (length q <= length (employees d))%nat
    /\ ((role = None \/ role = Some "") ->
        (search = None \/ search = Some "") -> q = employees d).
Proof.
  unfold employees_router.get_all_employees.
  eexists. split; [intros skip limit; reflexivity |].
  split; [| split].
  - intros e.
    destruct role as [r |]; [destruct (truthy_str r) |];
      (destruct search as [s |]; [destruct (truthy_str s) |]);
      rewrite ?filter_In; tauto.
  - destruct role as [r |]; [destruct (truthy_str r) |];
      (destruct search as [s |]; [destruct (truthy_str s) |]);
      repeat (etransitivity; [apply filter_length_le |]); auto.
  - intros [-> | ->] [-> | ->]; reflexivity.
Qed.

Lemma get_all_tasks_window (status_filter : option TaskStatus)
      (employee_id : option Z) (search : option string) (d : Database) :
  exists q,
    (forall skip limit,
        tasks_router.get_all_tasks skip limit status_filter employee_id
                                   search d
        = if negb (binds_opt employee_id)
          then (Raise OverflowError, d)
          else if binds skip && binds limit then
            (Ok (mkPage (Z.of_nat (length q)) skip limit
                   (map (tasks_router.task_with_employee d)
                        (offset_limit skip limit q))), d)
          else (Raise OverflowError, d))
    /\ (forall t, In t q ->
          In t (tasks d)
          /\ (forall st, status_filter = Some st -> Task.status t = st)
          /\ (forall i, employee_id = Some i ->
                Task.employee_id t = Some i))
    /\ (search = None \/ search = Some "" ->
        q = filter
              (fun t =>
                 match status_filter with
                 | Some st => TaskStatus_eqb (Task.status t) st
                 | None => true
                 end
                 && match employee_id with
                    | Some i => match Task.employee_id t with
                                | Some j => j =? i
                                | None => false
                                end
                    | None => true
                    end) (tasks d)).
Proof.
  unfold tasks_router.get_all_tasks.
  eexists. split; [intros skip limit; reflexivity |].
  assert (Hst : forall a b, TaskStatus_eqb a b = true <-> a = b).
  { intros [] []; simpl; split; congruence. }
  assert (Hemp : forall (o : option Z) i,
             match o with Some j => j =? i | None => false end = true
             <-> o = Some i).
  { intros [j |] i; [rewrite Z.eqb_eq |]; split; congruence. }
  split.
  - intros t.
    destruct status_filter as [st |];
      destruct employee_id as [i |];
      (destruct search as [s |]; [destruct (truthy_str s) |]);
      rewrite ?filter_In, ?Hst, ?Hemp;
      intuition (try congruence).
  - intros Hs.
    assert (Hq : forall l,
               match search with
               | Some s =>
                   if truthy_str s then
                     filter (fun t => ilike (Task.title t) ("%" ++ s ++ "%")
                                      || ilike (Task.description t)
                                               ("%" ++ s ++ "%")) l
                   else l
               | None => l
               end = l).
    { intros l. destruct Hs as [-> | ->]; reflexivity. }
    rewrite Hq.
    destruct status_filter as [st |]; destruct employee_id as [i |].
    + apply filter_twice.
    + apply filter_ext. intros t. now rewrite andb_true_r.
    + apply filter_ext. intros t. reflexivity.
    + symmetry. apply filter_true.
Qed.

End Listings.

Lemma offset_limit_incl {A} (skip limit : Z) (q : list A) (x : A) :
  In x (offset_limit skip limit q) -> In x q.
Proof.
  unfold offset_limit. intros Hin.
  rewrite <- (firstn_skipn (Z.to_nat skip) q).
  apply in_or_app. right.
  rewrite <- (firstn_skipn (Z.to_nat limit) (skipn (Z.to_nat skip) q)).
  apply in_or_app. now left.
Qed.

(** X22: [GET /employees/] for a valid window ([skip] at least 0,
    [limit] from 1 to 1000) whose [skip] fits a signed 64-bit integer.
    The request changes nothing; [total] does not depend on the window
    and is at most the number of rows (equal to it without filters, an
    empty filter string counting as none); the page holds
    [min limit (max 0 (total - skip))] items; and two adjacent windows
    give, put together, the items of the window that covers both.  A
    [skip] of 2^63 or more passes validation and ends in the driver's
    [OverflowError]. *)
Theorem X22_employee_listing `{Ilike} (skip limit : Z)
        (role search : option string) (d : Database) :
  0 <= skip < 2 ^ 63 -> 1 <= limit <= 1000 ->
  (exists page,
    employees_router.get_all_employees skip limit role search d
    = (Ok page, d)
    /\ page_skip page = skip /\ page_limit page = limit
    /\ Z.of_nat (length (items page))
       = Z.min limit (Z.max 0 (total page - skip))
    /\ total page <= Z.of_nat (length (employees d))
    /\ ((role = None \/ role = Some "") ->
        (search = None \/ search = Some "") ->
        total page = Z.of_nat (length (employees d)))
    /\ (forall skip' limit' page' d',
          employees_router.get_all_employees skip' limit' role search d
          = (Ok page', d') -> total page' = total page)
    /\ (forall limit2 page2 page12 d2 d12,
          0 <= limit2 ->
          employees_router.get_all_employees (skip + limit) limit2
                                             role search d = (Ok page2, d2) ->
          employees_router.get_all_employees skip (limit + limit2)
                                             role search d = (Ok page12, d12) ->
          (items page ++ items page2)%list = items page12))
  /\ (forall skip', 2 ^ 63 <= skip' ->
        employees_router.get_all_employees skip' limit role search d
        = (Raise (Exception "OverflowError"), d)).
Proof.
  intros Hs Hl.
  destruct (get_all_employees_window role search d)
    as (q & Hq & _ & Hlen & Hall).
  split.
  - eexists. split; [rewrite Hq, binds_window by assumption; reflexivity |].
    cbn [page_skip page_limit items total].
    split; [reflexivity |]. split; [reflexivity |].
    split; [| split; [| split; [| split]]].
    + rewrite length_map. apply offset_limit_length; lia.
    + lia.
    + intros Hr Hse. now rewrite (Hall Hr Hse).
    + intros skip' limit' page' d'. rewrite Hq.
      destruct (binds skip' && binds limit'); [| discriminate].
      now intros [= <- _].
    + intros limit2 page2 page12 d2 d12 H2. rewrite !Hq.
      destruct (binds (skip + limit) && binds limit2); [| discriminate].
      destruct (binds skip && binds (limit + limit2)); [| discriminate].
      intros [= <- _] [= <- _]. cbn [items].
      rewrite <- map_app. f_equal. apply offset_limit_tile; lia.
  - intros skip' Hbig. rewrite Hq.
    assert (Hb : binds skip' = false).
    { destruct (binds skip') eqn:E; [| reflexivity].
      apply binds_range in E. unfold int64 in E. lia. }
    rewrite Hb. reflexivity.
Qed.

Lemma X22_witness :
  0 <= 1 < 2 ^ 63 /\ 1 <= 5 <= 1000
  /\ (exists page,
       @employees_router.get_all_employees Sample2.toy_ilike 1 5 None
          (Some "") Sample2.d0 = (Ok page, Sample2.d0)
       /\ total page = 2
       /\ Z.of_nat (length (items page)) = 1)
  /\ @employees_router.get_all_employees Sample2.toy_ilike (2 ^ 63) 5 None
       (Some "") Sample2.d0
     = (Raise (Exception "OverflowError"), Sample2.d0).
Proof.
  assert (Hs : 0 <= 1 < 2 ^ 63) by lia.
  assert (Hl : 1 <= 5 <= 1000) by lia.
  split; [exact Hs |]. split; [exact Hl |].
  destruct (@X22_employee_listing Sample2.toy_ilike 1 5 None (Some "")
              Sample2.d0 Hs Hl)
    as ((page & Hp & _ & _ & Hlen & _ & Hall & _) & Hover).
  split.
  - exists page. split; [exact Hp |].
    assert (Ht : total page = 2)
      by (rewrite Hall; [reflexivity | now left | now right]).
    split; [exact Ht |]. rewrite Hlen, Ht. reflexivity.
  - apply Hover. lia.
Defined.

(** X23: [GET /tasks/] for a valid window whose [skip], and whose
    employee filter if one is given, fit a signed 64-bit integer.  It
    returns only tasks of the table that have the requested status and
    the requested employee, at most [limit] of them, each with the
    employee row its [employee_id] names; without a search term [total]
    counts every task that has them.  An employee filter or a [skip]
    outside 64 bits ends in the driver's [OverflowError]. *)
Theorem X23_task_listing `{Ilike} (skip limit : Z)
        (status_filter : option TaskStatus) (employee_id : option Z)
        (search : option string) (d : Database) :
  0 <= skip < 2 ^ 63 -> 1 <= limit <= 1000 ->
  ((forall i, employee_id = Some i -> int64 i) ->
   exists page,
    tasks_router.get_all_tasks skip limit status_filter employee_id search d
    = (Ok page, d)
    /\ Z.of_nat (length (items page)) <= limit
    /\ Z.of_nat (length (items page)) <= total page
    /\ (forall item, In item (items page) ->
          In (twe_task item) (tasks d)
          /\ (forall st, status_filter = Some st ->
                Task.status (twe_task item) = st)
          /\ (forall i, employee_id = Some i ->
                Task.employee_id (twe_task item) = Some i)
          /\ (forall i, Task.employee_id (twe_task item) = Some i ->
                twe_employee item
                = option_map EmployeeResponse_model_validate
                             (employee_by_id i d)))
    /\ (search = None \/ search = Some "" ->
        total page
        = Z.of_nat (length (filter
            (fun t =>
               match status_filter with
               | Some st => TaskStatus_eqb (Task.status t) st
               | None => true
               end
               && match employee_id with
                  | Some i => match Task.employee_id t with
                              | Some j => j =? i
                              | None => false
                              end
                  | None => true
                  end) (tasks d)))))
  /\ (forall i, employee_id = Some i -> ~ int64 i ->
        tasks_router.get_all_tasks skip limit status_filter employee_id
                                   search d
        = (Raise (Exception "OverflowError"), d))
  /\ (forall skip', 2 ^ 63 <= skip' ->
        tasks_router.get_all_tasks skip' limit status_filter employee_id
                                   search d
        = (Raise (Exception "OverflowError"), d)).
Proof.
  intros Hs Hl.
  destruct (get_all_tasks_window status_filter employee_id search d)
    as (q & Hq & Hsound & Hall).
  split; [| split].
  - intros Hemp.
    assert (He : negb (binds_opt employee_id) = false).
    { destruct employee_id as [i |]; [| reflexivity].
      apply negb_false_iff, binds_range. now apply Hemp. }
    eexists. split;
      [rewrite Hq, He, binds_window by assumption; reflexivity |].
    cbn [items total]. rewrite length_map.
    pose proof (offset_limit_length skip limit q ltac:(lia) ltac:(lia))
      as Hlen.
    split; [lia |]. split; [lia |]. split.
    + intros item Hin. apply in_map_iff in Hin as (t & <- & Hin).
      apply offset_limit_incl in Hin.
      apply Hsound in Hin as (H1 & H2 & H3).
      cbn [twe_task twe_employee tasks_router.task_with_employee].
      repeat split; try assumption.
      intros i Hi. unfold tasks_router.task_with_employee.
      cbn [twe_employee]. now rewrite Hi.
    + intros Hse. now rewrite <- (Hall Hse).
  - intros i -> Hout. rewrite Hq. cbn [binds_opt].
    assert (Hb : binds i = false).
    { destruct (binds i) eqn:E; [| reflexivity].
      apply binds_range in E. contradiction. }
    rewrite Hb. reflexivity.
  - intros skip' Hbig. rewrite Hq.
    assert (Hb : binds skip' = false).
    { destruct (binds skip') eqn:E; [| reflexivity].
      apply binds_range in E. unfold int64 in E. lia. }
    rewrite Hb. now destruct (negb (binds_opt employee_id)).
Qed.

Lemma X23_witness :
  0 <= 0 < 2 ^ 63 /\ 1 <= 100 <= 1000
  /\ (exists page,
       @tasks_router.get_all_tasks Sample2.toy_ilike 0 100 (Some PENDING)
          None None Sample2.d0 = (Ok page, Sample2.d0)
       /\ total page = 2)
  /\ @tasks_router.get_all_tasks Sample2.toy_ilike (2 ^ 63) 100
       (Some PENDING) None None Sample2.d0
     = (Raise (Exception "OverflowError"), Sample2.d0).
Proof.
  assert (Hs : 0 <= 0 < 2 ^ 63) by lia.
  assert (Hl : 1 <= 100 <= 1000) by lia.
  split; [exact Hs |]. split; [exact Hl |].
  destruct (@X23_task_listing Sample2.toy_ilike 0 100 (Some PENDING)
              None None Sample2.d0 Hs Hl)
    as (Hpage & _ & Hover).
  split.
  - destruct Hpage as (page & Hp & _ & _ & _ & Hall); [discriminate |].
    exists page. split; [exact Hp |].
    rewrite Hall; [reflexivity | now left].
  - apply Hover. lia.
Defined.

Lemma employee_by_id_found (i : Z) (d : Database) (e : Employee.t) :
  employee_by_id i d = Some e -> In e (employees d) /\ Employee.id e = i.
Proof.
  unfold employee_by_id. intros Hf. apply find_some in Hf as [Hin Heq].
  apply Z.eqb_eq in Heq. now split.
Qed.

Lemma employee_by_id_none (i : Z) (d : Database) :
  employee_by_id i d = None ->
  forall e, In e (employees d) -> Employee.id e <> i.
Proof.
  unfold employee_by_id. intros Hf e Hin.
  apply (find_none _ _ Hf) in Hin. now apply Z.eqb_neq.
Qed.

Lemma task_by_id_found (i : Z) (d : Database) (t : Task.t) :
  task_by_id i d = Some t -> In t (tasks d) /\ Task.id t = i.
Proof.
  unfold task_by_id. intros Hf. apply find_some in Hf as [Hin Heq].
  apply Z.eqb_eq in Heq. now split.
Qed.

(** What [delete_employee] does to the tables. *)
Lemma delete_employee_effect (employee_id : Z) (d : Database) :
  (employee_by_id employee_id d = None ->
   employees_router.delete_employee employee_id d
   = no_row employee_id
       (HTTPException 404
          ("Employee with ID " ++ str_int employee_id ++ " not found") [])
       d)
  /\ (employee_by_id employee_id d <> None ->
      exists d',
        employees_router.delete_employee employee_id d = (Ok tt, d')
        /\ employee_by_id employee_id d' = None
        /\ tasks_of employee_id d' = []
        /\ (forall e, In e (employees d') <->
                      In e (employees d) /\ Employee.id e <> employee_id)
        /\ (forall t, In t (tasks d') <->
                      In t (tasks d)
                      /\ Task.employee_id t <> Some employee_id)
        /\ users d' = users d).
Proof.
  unfold employees_router.delete_employee, tx_bind, query_employee_by_id.
  split.
  - intros Hn. rewrite Hn. unfold no_row.
    now destruct (binds employee_id).
  - destruct (employee_by_id employee_id d) as [e |] eqn:Hf;
      [intros _ | congruence].
    apply employee_by_id_found in Hf as [Hin Hid].
    unfold delete_employee_row. rewrite Hid.
    eexists. split; [reflexivity |].
    assert (He : forall r,
               In r (filter (fun r => negb (Employee.id r =? employee_id))
                            (employees d))
               <-> In r (employees d) /\ Employee.id r <> employee_id).
    { intros r. rewrite filter_In, negb_true_iff, Z.eqb_neq. tauto. }
    assert (Ht : forall t,
               In t (filter (fun t => match Task.employee_id t with
                                      | Some i => negb (i =? employee_id)
                                      | None => true
                                      end) (tasks d))
               <-> In t (tasks d) /\ Task.employee_id t <> Some employee_id).
    { intros t. rewrite filter_In.
      destruct (Task.employee_id t) as [i |].
      - rewrite negb_true_iff, Z.eqb_neq.
        split; intros [H1 H2]; (split; [exact H1 | congruence]).
      - split; intros [H1 _]; (split; [exact H1 | congruence]). }
    split; [| split; [| split; [exact He | split; [exact Ht |]]]].
    + unfold employee_by_id. cbn [employees].
      destruct (find _ _) as [r |] eqn:Hr; [| reflexivity].
      apply find_some in Hr as [Hr1 Hr2]. apply He in Hr1 as [_ Hne].
      apply Z.eqb_eq in Hr2. contradiction.
    + unfold tasks_of. cbn [tasks].
      destruct (filter _ (filter _ _)) as [| t l] eqn:El; [reflexivity |].
      assert (Hint : In t (t :: l)) by now left.
      rewrite <- El in Hint. apply filter_In in Hint as [Hint Hm].
      apply Ht in Hint as [_ Hne].
      destruct (Task.employee_id t) as [j |]; [| discriminate].
      apply Z.eqb_eq in Hm. congruence.
    + reflexivity.
Qed.

(** X24: [delete_employee] answers 404 for a key that no row has and
    that fits a signed 64-bit integer, and changes nothing; a key
    outside 64 bits ends in the driver's [OverflowError].  For a key
    that a row has, it removes the employee and, with it, every task
    assigned to it: afterwards the key is not found and no task names
    it; the other employees, the tasks of others and the unassigned
    tasks stay, and nothing is added. *)
Theorem X24_delete_employee_cascades (employee_id : Z) (d : Database) :
  (employee_by_id employee_id d = None -> int64 employee_id ->
   employees_router.delete_employee employee_id d
   = (Raise (HTTPException 404
               ("Employee with ID " ++ str_int employee_id ++ " not found")
               []), d))
  /\ (employee_by_id employee_id d = None -> ~ int64 employee_id ->
      employees_router.delete_employee employee_id d
      = (Raise (Exception "OverflowError"), d))
  /\ (employee_by_id employee_id d <> None ->
      exists d',
        employees_router.delete_employee employee_id d = (Ok tt, d')
        /\ employee_by_id employee_id d' = None
        /\ tasks_of employee_id d' = []
        /\ (forall e, In e (employees d') <->
                      In e (employees d) /\ Employee.id e <> employee_id)
        /\ (forall t, In t (tasks d') <->
                      In t (tasks d)
                      /\ Task.employee_id t <> Some employee_id)
        /\ users d' = users d).
Proof.
  destruct (delete_employee_effect employee_id d) as [Hnone Hsome].
  split; [| split; [| exact Hsome]].
  - intros Hn Hi. rewrite (Hnone Hn). now apply no_row_int64.
  - intros Hn Hi. rewrite (Hnone Hn). now apply no_row_overflow.
Qed.

Lemma X24_witness :
  employee_by_id 1 Sample2.d0 <> None
  /\ (exists d',
       employees_router.delete_employee 1 Sample2.d0 = (Ok tt, d')
       /\ employees d' = [Sample2.jane]
       /\ tasks d' = [Sample2.task2; Sample2.task3])
  /\ employee_by_id 99 Sample2.d0 = None
  /\ int64 99
  /\ employees_router.delete_employee 99 Sample2.d0
     = (Raise (HTTPException 404 "Employee with ID 99 not found" []),
        Sample2.d0)
  /\ ~ int64 (2 ^ 63)
  /\ employees_router.delete_employee (2 ^ 63) Sample2.d0
     = (Raise (Exception "OverflowError"), Sample2.d0).
Proof.
  assert (Hex : employee_by_id 1 Sample2.d0 <> None) by discriminate.
  assert (Hi : int64 99) by (unfold int64; lia).
  assert (Ho : ~ int64 (2 ^ 63)) by (unfold int64; lia).
  split; [exact Hex |]. split.
  - destruct (proj2 (proj2 (X24_delete_employee_cascades 1 Sample2.d0)) Hex)
      as (d' & Hd & _).
    exists d'. split; [exact Hd |].
    assert (E : d' = snd (employees_router.delete_employee 1 Sample2.d0))
      by now rewrite Hd.
    rewrite E. split; reflexivity.
  - split; [reflexivity |]. split; [exact Hi |].
    split;
      [exact (proj1 (X24_delete_employee_cascades 99 Sample2.d0)
                eq_refl Hi) |].
    split; [exact Ho |].
    exact (proj1 (proj2 (X24_delete_employee_cascades (2 ^ 63) Sample2.d0))
             eq_refl Ho).
Defined.

Lemma with_users_read_only {A} (m : M A) (d : Database) :
  snd (m (users d)) = users d ->
  with_users m d = (fst (m (users d)), d).
Proof.
  unfold with_users. destruct (m (users d)) as [r s]. simpl.
  intros ->. now rewrite Database_eta.
Qed.

Lemma require_authentication_then_admin (req : Request) (now : datetime)
      (db : Session) :
  fst (Depends.require_admin req now db) =
  match fst (Depends.require_authentication req now db) with
  | Ok u => if role_ne (role u) ADMIN then Raise Forbidden else Ok u
  | Raise e => Raise e
  end.
Proof.
  unfold Depends.require_admin, bind.
  destruct (Depends.require_authentication req now db) as [[u | e] db'];
    [| reflexivity].
  simpl. unfold auth_dependencies.require_admin.
  now destruct (role_ne (role u) ADMIN).
Qed.

(** X25: what the gates mean for the routes.  A request that
    [require_authentication] refuses is refused by every protected
    route with the same exception and changes nothing.  A request it
    lets through reaches the bodies of the create, update and assign
    routes whatever the role of the identity; the two delete routes
    answer 403 and change nothing unless that role is admin. *)
Theorem X25_protected_routes (req : Request) (now : datetime)
        (d : Database) (employee : EmployeeCreate) (task : TaskCreate)
        (employee_id task_id : Z) (employee_update : EmployeeUpdate)
        (task_update : TaskUpdate) :
  (forall e,
      fst (Depends.require_authentication req now (users d)) = Raise e ->
      App.create_employee req now employee d = (Raise e, d)
      /\ App.update_employee req now employee_id employee_update d
         = (Raise e, d)
      /\ App.delete_employee req now employee_id d = (Raise e, d)
      /\ App.create_task req now task d = (Raise e, d)
      /\ App.update_task req now task_id task_update d = (Raise e, d)
      /\ App.delete_task req now task_id d = (Raise e, d)
      /\ App.assign_task_to_employee req now task_id employee_id d
         = (Raise e, d))
  /\ (forall u,
        fst (Depends.require_authentication req now (users d)) = Ok u ->
        App.create_employee req now employee d
        = employees_router.create_employee employee d
        /\ App.update_employee req now employee_id employee_update d
           = employees_router.update_employee employee_id employee_update d
        /\ App.create_task req now task d = tasks_router.create_task task d
        /\ App.update_task req now task_id task_update d
           = tasks_router.update_task task_id task_update d
        /\ App.assign_task_to_employee req now task_id employee_id d
           = tasks_router.assign_task_to_employee task_id employee_id d
        /\ (role u <> Some ADMIN ->
            App.delete_employee req now employee_id d
            = (Raise (HTTPException 403 "Admin privileges required" []), d)
            /\ App.delete_task req now task_id d
               = (Raise (HTTPException 403 "Admin privileges required" []),
                  d))
        /\ (role u = Some ADMIN ->
            App.delete_employee req now employee_id d
            = employees_router.delete_employee employee_id d
            /\ App.delete_task req now task_id d
               = tasks_router.delete_task task_id d)).
Proof.
  pose proof (with_users_read_only
                (Depends.require_authentication req now) d
                (Depends_require_authentication_session req now (users d)))
    as Ha.
  pose proof (with_users_read_only
                (Depends.require_admin req now) d
                (Depends_require_admin_session req now (users d)))
    as Hadm.
  rewrite require_authentication_then_admin in Hadm.
  unfold App.create_employee, App.update_employee, App.delete_employee,
    App.create_task, App.update_task, App.delete_task,
    App.assign_task_to_employee, tx_bind.
  rewrite Ha, Hadm. split.
  - intros e ->. repeat split.
  - intros u ->. repeat split.
    + destruct (role_ne (role u) ADMIN) eqn:Er; [reflexivity |].
      apply role_ne_admin in Er. contradiction.
    + destruct (role_ne (role u) ADMIN) eqn:Er; [reflexivity |].
      apply role_ne_admin in Er. contradiction.
    + now rewrite (proj2 (role_ne_admin (role u)) H).
    + now rewrite (proj2 (role_ne_admin (role u)) H).
Qed.

Lemma employee_exists (i : Z) (d : Database) :
  existsb (fun e => Employee.id e =? i) (employees d)
  = match employee_by_id i d with Some _ => true | None => false end.
Proof. unfold employee_by_id. apply find_existsb. Qed.

Lemma find_map_replace (i : Z) (l : list Task.t) (t t' : Task.t) :
  find (fun r => Task.id r =? i) l = Some t ->
  Task.id t' = i ->
  find (fun r => Task.id r =? i)
       (map (fun r => if Task.id r =? Task.id t' then t' else r) l)
  = Some t'.
Proof.
  intros Hf <-. revert Hf.
  induction l as [| a l IH]; simpl; [discriminate |].
  destruct (Task.id a =? Task.id t') eqn:Ea.
  - intros _. simpl. now rewrite Z.eqb_refl.
  - intros Hf. simpl. rewrite Ea. now apply IH.
Qed.

(** A successful [assign_task_to_employee], read back. *)
Lemma assign_task_unfold (task_id employee_id : Z) (d : Database) :
  tasks_router.assign_task_to_employee task_id employee_id d =
  match task_by_id task_id d with
  | None => no_row task_id (tasks_router.task_not_found task_id) d
  | Some t =>
      match employee_by_id employee_id d with
      | None =>
          no_row employee_id (tasks_router.employee_not_found employee_id) d
      | Some _ =>
          if binds employee_id then
            let t' := Task.mk (Task.id t) (Task.title t)
                              (Task.description t) (Task.status t)
                              (Some employee_id) in
            (Ok t',
             mkDatabase (foreign_keys d) (users d) (employees d)
               (map (fun r => if Task.id r =? Task.id t then t' else r)
                    (tasks d)))
          else (Raise OverflowError, d)
      end
  end.
Proof.
  unfold tasks_router.assign_task_to_employee, tx_bind, query_task_by_id,
    query_employee_by_id, tx_raise, no_row.
  destruct (task_by_id task_id d) as [t |];
    [| now destruct (binds task_id)].
  destruct (employee_by_id employee_id d) as [e |] eqn:He;
    [| now destruct (binds employee_id)].
  unfold update_task_row, foreign_key_ok.
  cbn [Task.employee_id Task.id binds_opt].
  destruct (binds employee_id); [| reflexivity].
  rewrite employee_exists, He, orb_true_r. reflexivity.
Qed.

(** X26: [assign_task_to_employee] looks for the task first, for keys
    that fit a signed 64-bit integer: a missing task is a 404 about the
    task even when the employee is missing too, a missing employee a
    404 about the employee, and neither changes anything.  When both
    exist, the task gets the employee's key and keeps everything else,
    [get_task_by_id] returns it so, and no row is added or removed.  A
    task key outside 64 bits ends in the driver's [OverflowError]. *)
Theorem X26_assign_task (task_id employee_id : Z) (d : Database) :
  (task_by_id task_id d = None -> int64 task_id ->
   tasks_router.assign_task_to_employee task_id employee_id d
   = (Raise (HTTPException 404
               ("Task with ID " ++ str_int task_id ++ " not found") []), d))
  /\ (task_by_id task_id d <> None ->
      employee_by_id employee_id d = None -> int64 employee_id ->
      tasks_router.assign_task_to_employee task_id employee_id d
      = (Raise (HTTPException 404
                  ("Employee with ID " ++ str_int employee_id
                   ++ " not found") []), d))
  /\ (forall t,
        task_by_id task_id d = Some t ->
        employee_by_id employee_id d <> None -> int64 employee_id ->
        exists d',
          tasks_router.assign_task_to_employee task_id employee_id d
          = (Ok (Task.mk task_id (Task.title t) (Task.description t)
                         (Task.status t) (Some employee_id)), d')
          /\ tasks_router.get_task_by_id task_id d'
             = (Ok (Task.mk task_id (Task.title t) (Task.description t)
                            (Task.status t) (Some employee_id)), d')
          /\ length (tasks d') = length (tasks d)
          /\ (forall r, In r (tasks d) -> Task.id r <> task_id ->
                In r (tasks d'))
          /\ employees d' = employees d
          /\ users d' = users d)
  /\ (task_by_id task_id d = None -> ~ int64 task_id ->
      tasks_router.assign_task_to_employee task_id employee_id d
      = (Raise (Exception "OverflowError"), d)).
Proof.
  rewrite assign_task_unfold. split; [| split; [| split]].
  - intros Hn Hi. rewrite Hn. now apply no_row_int64.
  - intros Ht He Hi. rewrite He.
    destruct (task_by_id task_id d); [| congruence].
    now apply no_row_int64.
  - intros t Ht He Hi. rewrite Ht.
    destruct (employee_by_id employee_id d) as [e |]; [| congruence].
    rewrite (proj2 (binds_range employee_id) Hi).
    pose proof Ht as Ht'. apply task_by_id_found in Ht' as [Hin Hid].
    rewrite Hid. eexists. split; [reflexivity |].
    cbn [tasks employees users].
    split; [| split; [| split; [| split; reflexivity]]].
    + unfold tasks_router.get_task_by_id, tx_bind, query_task_by_id,
        task_by_id. cbn [tasks].
      pose proof (find_map_replace task_id (tasks d) t
                    (Task.mk task_id (Task.title t) (Task.description t)
                             (Task.status t) (Some employee_id))
                    Ht eq_refl) as Hfm.
      cbn [Task.id] in Hfm. now rewrite Hfm.
    + apply length_map.
    + intros r Hr Hne. apply in_map_iff. exists r.
      destruct (Z.eqb_spec (Task.id r) task_id); [contradiction |].
      now split.
  - intros Hn Hi. rewrite Hn. now apply no_row_overflow.
Qed.

Lemma X26_witness :
  task_by_id 3 Sample2.d0 = Some Sample2.task3
  /\ employee_by_id 2 Sample2.d0 <> None
  /\ int64 2
  /\ exists d',
       tasks_router.assign_task_to_employee 3 2 Sample2.d0
       = (Ok (Task.mk 3 "Clean the backlog" "Close stale tickets"
                      PENDING (Some 2)), d')
       /\ tasks_of 2 d'
          = [Sample2.task2;
             Task.mk 3 "Clean the backlog" "Close stale tickets"
                     PENDING (Some 2)].
Proof.
  assert (Ht : task_by_id 3 Sample2.d0 = Some Sample2.task3) by reflexivity.
  assert (He : employee_by_id 2 Sample2.d0 <> None) by discriminate.
  assert (Hi : int64 2) by (unfold int64; lia).
  split; [exact Ht |]. split; [exact He |]. split; [exact Hi |].
  destruct (proj1 (proj2 (proj2 (X26_assign_task 3 2 Sample2.d0)))
              _ Ht He Hi)
    as (d' & Hd & _).
  exists d'. split; [exact Hd |].
  assert (E : d' = snd (tasks_router.assign_task_to_employee 3 2 Sample2.d0))
    by now rewrite Hd.
  rewrite E. reflexivity.
Defined.

Lemma create_task_unfold (task : TaskCreate) (d : Database) :
  tasks_router.create_task task d =
  match tc_employee_id task with
  | Some i =>
      if negb (i =? 0) then
        match employee_by_id i d with
        | None => no_row i (tasks_router.employee_not_found i) d
        | Some _ =>
            insert_task (tc_title task) (tc_description task)
                        (tc_status task) (Some i) d
        end
      else insert_task (tc_title task) (tc_description task)
                       (tc_status task) (Some i) d
  | None =>
      insert_task (tc_title task) (tc_description task) (tc_status task)
                  None d
  end.
Proof.
  unfold tasks_router.create_task, tx_bind, query_employee_by_id,
    truthy_int, no_row.
  destruct (tc_employee_id task) as [i |]; [| reflexivity].
  destruct (negb (i =? 0)); [| reflexivity].
  destruct (employee_by_id i d); [reflexivity |].
  now destruct (binds i).
Qed.

Lemma insert_task_unfold (ti de : string) (st : TaskStatus)
      (eid : option Z) (d : Database) :
  insert_task ti de st eid d =
  if foreign_key_ok d eid then
    (Ok (Task.mk (next_task_id d) ti de st eid),
     mkDatabase (foreign_keys d) (users d) (employees d)
                (tasks d ++ [Task.mk (next_task_id d) ti de st eid])%list)
  else (Raise (IntegrityError "tasks.employee_id"), d).
Proof.
  unfold insert_task. now destruct (foreign_key_ok d eid).
Qed.

(** X27: the edge of [if task.employee_id:] in [create_task].  An
    employee key other than 0 that no row has and that fits a signed
    64-bit integer is a 404 and nothing is written; one outside 64 bits
    ends in the driver's [OverflowError].  The key 0 is falsy and skips that check: on an engine
    that does not enforce the foreign key the task is stored with a
    reference to no employee, on one that does the commit fails.  With
    no employee key, or the key of a row, the task is appended with the
    payload's values and a key no other task has, and
    [get_task_by_id] finds it. *)
Theorem X27_create_task (task : TaskCreate) (d : Database) :
  (forall i,
      tc_employee_id task = Some i -> i <> 0 ->
      employee_by_id i d = None -> int64 i ->
      tasks_router.create_task task d
      = (Raise (HTTPException 404
                  ("Employee with ID " ++ str_int i ++ " not found") []), d))
  /\ (forall i,
        tc_employee_id task = Some i ->
        employee_by_id i d = None -> ~ int64 i ->
        tasks_router.create_task task d
        = (Raise (Exception "OverflowError"), d))
  /\ (tc_employee_id task = Some 0 -> employee_by_id 0 d = None ->
      foreign_keys d = false ->
      exists row d',
        tasks_router.create_task task d = (Ok row, d')
        /\ Task.employee_id row = Some 0
        /\ In row (tasks d')
        /\ ~ references_hold d')
  /\ (tc_employee_id task = Some 0 -> employee_by_id 0 d = None ->
      foreign_keys d = true ->
      tasks_router.create_task task d
      = (Raise (IntegrityError "tasks.employee_id"), d))
  /\ (tc_employee_id task = None
      \/ (exists i, tc_employee_id task = Some i
                    /\ employee_by_id i d <> None) ->
      exists row d',
        tasks_router.create_task task d = (Ok row, d')
        /\ row = Task.mk (Task.id row) (tc_title task)
                   (tc_description task) (tc_status task)
                   (tc_employee_id task)
        /\ ~ In (Task.id row) (map Task.id (tasks d))
        /\ tasks d' = (tasks d ++ [row])%list
        /\ employees d' = employees d /\ users d' = users d
        /\ tasks_router.get_task_by_id (Task.id row) d' = (Ok row, d')).
Proof.
  rewrite create_task_unfold. split; [| split; [| split; [| split]]].
  - intros i -> Hne Hn Hi. rewrite Hn.
    destruct (Z.eqb_spec i 0); [contradiction |].
    now apply no_row_int64.
  - intros i -> Hn Hi. rewrite Hn.
    destruct (Z.eqb_spec i 0) as [-> |];
      [exfalso; apply Hi; unfold int64; lia |].
    now apply no_row_overflow.
  - intros -> Hn Hfk. simpl. rewrite insert_task_unfold.
    unfold foreign_key_ok. rewrite Hfk. simpl.
    eexists. eexists. split; [reflexivity |].
    cbn [Task.employee_id tasks].
    split; [reflexivity |].
    split; [apply in_or_app; right; now left |].
    intros Href.
    destruct (Href (Task.mk (next_task_id d) (tc_title task)
                            (tc_description task) (tc_status task) (Some 0))
                   0) as (e & Hin & Hid).
    + cbn [tasks]. apply in_or_app. right. now left.
    + reflexivity.
    + cbn [employees] in Hin.
      now apply (employee_by_id_none 0 d Hn e Hin).
  - intros -> Hn Hfk. simpl. rewrite insert_task_unfold.
    unfold foreign_key_ok. rewrite Hfk, employee_exists, Hn. reflexivity.
  - intros Hok.
    assert (E : match tc_employee_id task with
                | Some i =>
                    if negb (i =? 0) then
                      match employee_by_id i d with
                      | None =>
                          no_row i (tasks_router.employee_not_found i) d
                      | Some _ =>
                          insert_task (tc_title task) (tc_description task)
                                      (tc_status task) (Some i) d
                      end
                    else insert_task (tc_title task) (tc_description task)
                                     (tc_status task) (Some i) d
                | None =>
                    insert_task (tc_title task) (tc_description task)
                                (tc_status task) None d
                end
                = insert_task (tc_title task) (tc_description task)
                              (tc_status task) (tc_employee_id task) d
                  /\ foreign_key_ok d (tc_employee_id task) = true).
    { destruct Hok as [-> | (i & -> & Hex)]; [split; reflexivity |].
      destruct (employee_by_id i d) as [e |] eqn:He; [| congruence].
      split; [now destruct (negb (i =? 0)) |].
      unfold foreign_key_ok. rewrite employee_exists, He.
      apply orb_true_r. }
    destruct E as [-> Hfk]. rewrite insert_task_unfold, Hfk.
    eexists. eexists. split; [reflexivity |].
    cbn [Task.id tasks employees users].
    split; [reflexivity |]. split; [| split; [reflexivity |]].
    + intros Hin. apply in_map_iff in Hin as (t & Heq & Hin).
      apply next_task_id_above in Hin. lia.
    + split; [reflexivity |]. split; [reflexivity |].
      unfold tasks_router.get_task_by_id, tx_bind, query_task_by_id,
        task_by_id. cbn [tasks].
      rewrite find_app_fresh; [reflexivity | | apply Z.eqb_refl].
      intros a Ha. apply next_task_id_above in Ha.
      cbn [Task.id]. apply Z.eqb_neq. lia.
Qed.

Lemma X27_witness :
  tc_employee_id (mkTaskCreate "Orphan" "Nobody does it" PENDING (Some 0))
  = Some 0
  /\ employee_by_id 0 Sample2.d0 = None
  /\ foreign_keys Sample2.d0 = false
  /\ exists row d',
       tasks_router.create_task
         (mkTaskCreate "Orphan" "Nobody does it" PENDING (Some 0))
         Sample2.d0 = (Ok row, d')
       /\ Task.employee_id row = Some 0
       /\ In row (tasks d')
       /\ ~ references_hold d'.
Proof.
  split; [reflexivity |]. split; [reflexivity |]. split; [reflexivity |].
  exact (proj1 (proj2 (proj2 (X27_create_task
                         (mkTaskCreate "Orphan" "Nobody does it" PENDING
                                       (Some 0)) Sample2.d0)))
           eq_refl eq_refl eq_refl).
Defined.

(** All the outcomes of [update_task]. *)
Lemma update_task_unfold (task_id : Z) (u : TaskUpdate) (d : Database) :
  tasks_router.update_task task_id u d =
  match task_by_id task_id d with
  | None => no_row task_id (tasks_router.task_not_found task_id) d
  | Some t =>
      let write : Result Task.t * Database :=
        match task_after_update u t with
        | None => (Raise (IntegrityError "NOT NULL"), d)
        | Some t' =>
            if negb (binds_opt (Task.employee_id t')) then
              (Raise OverflowError, d)
            else if foreign_key_ok d (Task.employee_id t') then
              (Ok t',
               mkDatabase (foreign_keys d) (users d) (employees d)
                 (map (fun r => if Task.id r =? Task.id t then t'
                                else r) (tasks d)))
            else (Raise (IntegrityError "tasks.employee_id"), d)
        end in
      match field_value (tu_employee_id u) with
      | Some i =>
          if 0 <? i then
            match employee_by_id i d with
            | None => no_row i (tasks_router.employee_not_found i) d
            | Some _ => write
            end
          else write
      | None => write
      end
  end.
Proof.
  unfold tasks_router.update_task, tx_bind, query_task_by_id,
    query_employee_by_id, update_task_row, tx_raise, task_after_update,
    no_row.
  destruct (task_by_id task_id d) as [t |];
    [| now destruct (binds task_id)].
  cbv zeta.
  destruct (field_value (tu_employee_id u)) as [i |];
    [destruct (0 <? i);
     [destruct (employee_by_id i d); [| now destruct (binds i)] |] |];
    repeat match goal with
           | |- context [match set_required ?f ?o with _ => _ end] =>
               destruct (set_required f o)
           end;
    try reflexivity;
    cbn [Task.id Task.employee_id];
    match goal with
    | |- context [binds_opt ?a] => destruct (binds_opt a)
    end; cbn [negb]; try reflexivity;
    match goal with
    | |- context [foreign_key_ok ?a ?b] => destruct (foreign_key_ok a b)
    end; reflexivity.
Qed.

(** All the outcomes of [update_employee]. *)
Lemma update_employee_unfold (employee_id : Z) (u : EmployeeUpdate)
      (d : Database) :
  employees_router.update_employee employee_id u d =
  match employee_by_id employee_id d with
  | None =>
      no_row employee_id (employees_router.employee_not_found employee_id) d
  | Some e =>
      let conflict :=
        match field_value (eu_email u) with
        | Some a =>
            if truthy_str a && negb (String.eqb a (Employee.email e)) then
              match employee_by_email a d with
              | Some _ => Some a
              | None => None
              end
            else None
        | None => None
        end in
      match conflict with
      | Some a => (Raise (employees_router.email_exists a), d)
      | None =>
          match employee_after_update u e with
          | None => (Raise (IntegrityError "NOT NULL"), d)
          | Some e' =>
              if existsb (fun r => negb (Employee.id r =? Employee.id e)
                                   && String.eqb (Employee.email r)
                                                 (Employee.email e'))
                         (employees d)
              then (Raise (IntegrityError "employees.email"), d)
              else
                (Ok e',
                 mkDatabase (foreign_keys d) (users d)
                   (map (fun r => if Employee.id r =? Employee.id e then e'
                                  else r) (employees d))
                   (tasks d))
          end
      end
  end.
Proof.
  unfold employees_router.update_employee, tx_bind, query_employee_by_id,
    query_employee_by_email, update_employee_row, tx_raise,
    employee_after_update, no_row.
  destruct (employee_by_id employee_id d) as [e |];
    [| now destruct (binds employee_id)].
  cbv zeta.
  destruct (field_value (eu_email u)) as [a |];
    [destruct (truthy_str a && negb (String.eqb a (Employee.email e)));
     [destruct (employee_by_email a d) |] |];
    try reflexivity;
    repeat match goal with
           | |- context [match set_required ?f ?o with _ => _ end] =>
               destruct (set_required f o)
           end;
    try reflexivity;
    cbn [Employee.id Employee.email];
    match goal with
    | |- context [existsb ?a ?b] => destruct (existsb a b)
    end; reflexivity.
Qed.

Lemma set_required_spec {A} (f : Field A) (old v : A) :
  set_required f old = Some v ->
  (f = Unset -> v = old)
  /\ (forall w, f = Given (Some w) -> v = w)
  /\ f <> Given None.
Proof.
  destruct f as [| [w |]]; simpl; intros [= <-];
    repeat split; congruence.
Qed.

Lemma set_nullable_spec {A} (f : Field A) (old : option A) :
  (f = Unset -> set_nullable f old = old)
  /\ (forall w, f = Given w -> set_nullable f old = w).
Proof.
  destruct f as [| w]; simpl; split; congruence.
Qed.

Lemma update_task_ok_inv (task_id : Z) (u : TaskUpdate) (d d' : Database)
      (t' : Task.t) :
  tasks_router.update_task task_id u d = (Ok t', d') ->
  exists t,
    task_by_id task_id d = Some t
    /\ task_after_update u t = Some t'
    /\ foreign_key_ok d (Task.employee_id t') = true
    /\ (forall i, field_value (tu_employee_id u) = Some i -> 0 < i ->
          employee_by_id i d <> None)
    /\ d' = mkDatabase (foreign_keys d) (users d) (employees d)
              (map (fun r => if Task.id r =? Task.id t then t' else r)
                   (tasks d)).
Proof.
  rewrite update_task_unfold.
  destruct (task_by_id task_id d) as [t |];
    [| unfold no_row; destruct (binds task_id); discriminate].
  cbv zeta. intros Hrun. exists t. split; [reflexivity |].
  assert (Hw : forall r : Result Task.t * Database,
             r = (Ok t', d') ->
             r = match task_after_update u t with
                 | None => (Raise (IntegrityError "NOT NULL"), d)
                 | Some t1 =>
                     if negb (binds_opt (Task.employee_id t1)) then
                       (Raise OverflowError, d)
                     else if foreign_key_ok d (Task.employee_id t1) then
                       (Ok t1,
                        mkDatabase (foreign_keys d) (users d) (employees d)
                          (map (fun r => if Task.id r =? Task.id t then t1
                                         else r) (tasks d)))
                     else (Raise (IntegrityError "tasks.employee_id"), d)
                 end ->
             task_after_update u t = Some t'
             /\ foreign_key_ok d (Task.employee_id t') = true
             /\ d' = mkDatabase (foreign_keys d) (users d) (employees d)
                       (map (fun r => if Task.id r =? Task.id t then t'
                                      else r) (tasks d))).
  { intros r -> Hr.
    destruct (task_after_update u t) as [t1 |]; [| discriminate].
    destruct (negb (binds_opt (Task.employee_id t1))); [discriminate |].
    destruct (foreign_key_ok d (Task.employee_id t1)) eqn:Hfk;
      [| discriminate].
    injection Hr as -> ->. repeat split. exact Hfk. }
  destruct (field_value (tu_employee_id u)) as [i |].
  - destruct (Z.ltb_spec 0 i) as [Hpos | Hneg].
    + destruct (employee_by_id i d) as [e |] eqn:He;
        [| unfold no_row in Hrun; destruct (binds i); discriminate].
      destruct (Hw _ Hrun eq_refl) as (H1 & H2 & H3).
      split; [exact H1 |]. split; [exact H2 |]. split; [| exact H3].
      intros j [= <-] _. rewrite He. discriminate.
    + destruct (Hw _ Hrun eq_refl) as (H1 & H2 & H3).
      split; [exact H1 |]. split; [exact H2 |]. split; [| exact H3].
      intros j [= <-] Hj. lia.
  - destruct (Hw _ Hrun eq_refl) as (H1 & H2 & H3).
    split; [exact H1 |]. split; [exact H2 |]. split; [| exact H3].
    intros j [=].
Qed.

Lemma task_after_update_fields (u : TaskUpdate) (t t' : Task.t) :
  task_after_update u t = Some t' ->
  Task.id t' = Task.id t
  /\ set_required (tu_title u) (Task.title t) = Some (Task.title t')
  /\ set_required (tu_description u) (Task.description t)
     = Some (Task.description t')
  /\ set_required (tu_status u) (Task.status t) = Some (Task.status t')
  /\ Task.employee_id t'
     = set_nullable (tu_employee_id u) (Task.employee_id t).
Proof.
  unfold task_after_update.
  destruct (set_required (tu_title u) _) as [ti |]; [| discriminate].
  destruct (set_required (tu_description u) _) as [de |]; [| discriminate].
  destruct (set_required (tu_status u) _) as [st |]; [| discriminate].
  intros [= <-]. repeat split.
Qed.

(** X28: [update_task] writes the fields the request gives and keeps
    the others.  A task key that no row has and that fits a signed
    64-bit integer is a 404; one outside 64 bits ends in the driver's
    [OverflowError].  When the update
    succeeds, the row keeps its key; title, description and status are
    the given value or, if the field was left out, the old one, and none
    of them was given as [null]; the employee key is the given one
    ([null] unassigns) or the old one; the other tasks, the employees
    and the users are as before, and [get_task_by_id] returns the new
    row.  An update that is refused changes nothing. *)
Theorem X28_update_task (task_id : Z) (u : TaskUpdate) (d : Database) :
  (task_by_id task_id d = None -> int64 task_id ->
   tasks_router.update_task task_id u d
   = (Raise (HTTPException 404
               ("Task with ID " ++ str_int task_id ++ " not found") []), d))
  /\ (task_by_id task_id d = None -> ~ int64 task_id ->
      tasks_router.update_task task_id u d
      = (Raise (Exception "OverflowError"), d))
  /\ (forall t' d',
        tasks_router.update_task task_id u d = (Ok t', d') ->
        exists t,
          task_by_id task_id d = Some t
          /\ Task.id t' = task_id
          /\ ((tu_title u = Unset -> Task.title t' = Task.title t)
              /\ (forall v, tu_title u = Given (Some v) -> Task.title t' = v)
              /\ tu_title u <> Given None)
          /\ ((tu_description u = Unset ->
               Task.description t' = Task.description t)
              /\ (forall v, tu_description u = Given (Some v) ->
                    Task.description t' = v)
              /\ tu_description u <> Given None)
          /\ ((tu_status u = Unset -> Task.status t' = Task.status t)
              /\ (forall v, tu_status u = Given (Some v) ->
                    Task.status t' = v)
              /\ tu_status u <> Given None)
          /\ ((tu_employee_id u = Unset ->
               Task.employee_id t' = Task.employee_id t)
              /\ (forall v, tu_employee_id u = Given v ->
                    Task.employee_id t' = v))
          /\ (forall r, In r (tasks d) -> Task.id r <> task_id ->
                In r (tasks d'))
          /\ length (tasks d') = length (tasks d)
          /\ employees d' = employees d /\ users d' = users d
          /\ tasks_router.get_task_by_id task_id d' = (Ok t', d'))
  /\ (forall e d',
        tasks_router.update_task task_id u d = (Raise e, d') -> d' = d).
Proof.
  split; [| split; [| split]].
  - intros Hn Hi. rewrite update_task_unfold, Hn. now apply no_row_int64.
  - intros Hn Hi. rewrite update_task_unfold, Hn. now apply no_row_overflow.
  - intros t' d' Hrun.
    apply update_task_ok_inv in Hrun as (t & Ht & Hafter & _ & _ & ->).
    exists t. split; [exact Ht |].
    pose proof Ht as Ht0. apply task_by_id_found in Ht0 as [_ Hid].
    apply task_after_update_fields in Hafter
      as (Hid' & Hti & Hde & Hst & Hemp).
    split; [congruence |].
    split; [now apply set_required_spec |].
    split; [now apply set_required_spec |].
    split; [now apply set_required_spec |].
    split; [rewrite Hemp; apply set_nullable_spec |].
    cbn [tasks employees users].
    split; [| split; [apply length_map | split; [reflexivity |
                                                 split; [reflexivity |]]]].
    + intros r Hr Hne. apply in_map_iff. exists r.
      rewrite Hid. destruct (Z.eqb_spec (Task.id r) task_id);
        [contradiction | now split].
    + unfold tasks_router.get_task_by_id, tx_bind, query_task_by_id,
        task_by_id. cbn [tasks].
      pose proof (find_map_replace task_id (tasks d) t t' Ht
                    ltac:(congruence)) as Hfm.
      rewrite Hid' in Hfm. now rewrite Hfm.
  - intros e d'. rewrite update_task_unfold. unfold no_row. cbv zeta.
    repeat match goal with
           | |- context [match ?x with _ => _ end] => destruct x
           end; congruence.
Qed.

Lemma X28_witness :
  task_by_id 99 Sample2.d0 = None
  /\ int64 99
  /\ tasks_router.update_task 99
       (mkTaskUpdate Unset Unset (Given (Some COMPLETED)) Unset) Sample2.d0
     = (Raise (HTTPException 404 "Task with ID 99 not found" []),
        Sample2.d0)
  /\ ~ int64 (2 ^ 63)
  /\ tasks_router.update_task (2 ^ 63)
       (mkTaskUpdate Unset Unset (Given (Some COMPLETED)) Unset) Sample2.d0
     = (Raise (Exception "OverflowError"), Sample2.d0).
Proof.
  assert (Hi : int64 99) by (unfold int64; lia).
  assert (Ho : ~ int64 (2 ^ 63)) by (unfold int64; lia).
  split; [reflexivity |]. split; [exact Hi |].
  split; [exact (proj1 (X28_update_task 99 _ Sample2.d0) eq_refl Hi) |].
  split; [exact Ho |].
  exact (proj1 (proj2 (X28_update_task (2 ^ 63) _ Sample2.d0)) eq_refl Ho).
Defined.

Lemma update_employee_ok_inv (employee_id : Z) (u : EmployeeUpdate)
      (d d' : Database) (e' : Employee.t) :
  employees_router.update_employee employee_id u d = (Ok e', d') ->
  exists e,
    employee_by_id employee_id d = Some e
    /\ employee_after_update u e = Some e'
    /\ (forall r, In r (employees d) -> Employee.id r <> Employee.id e ->
          Employee.email r <> Employee.email e')
    /\ d' = mkDatabase (foreign_keys d) (users d)
              (map (fun r => if Employee.id r =? Employee.id e then e'
                             else r) (employees d))
              (tasks d).
Proof.
  rewrite update_employee_unfold.
  destruct (employee_by_id employee_id d) as [e |];
    [| unfold no_row; destruct (binds employee_id); discriminate].
  cbv zeta. intros Hrun. exists e. split; [reflexivity |].
  assert (Hw : match employee_after_update u e with
               | None => (Raise (IntegrityError "NOT NULL"), d)
               | Some e1 =>
                   if existsb
                        (fun r => negb (Employee.id r =? Employee.id e)
                                  && String.eqb (Employee.email r)
                                                (Employee.email e1))
                        (employees d)
                   then (Raise (IntegrityError "employees.email"), d)
                   else
                     (Ok e1,
                      mkDatabase (foreign_keys d) (users d)
                        (map (fun r => if Employee.id r =? Employee.id e
                                       then e1 else r) (employees d))
                        (tasks d))
               end = (Ok e', d')).
  { destruct (field_value (eu_email u)) as [a |]; [| exact Hrun].
    destruct (truthy_str a && negb (String.eqb a (Employee.email e)));
      [| exact Hrun].
    destruct (employee_by_email a d); [discriminate | exact Hrun]. }
  clear Hrun.
  destruct (employee_after_update u e) as [e1 |]; [| discriminate].
  destruct (existsb _ (employees d)) eqn:Hex; [discriminate |].
  injection Hw as <- <-. repeat split.
  intros r Hr Hne Heq.
  assert (Hc : existsb (fun r => negb (Employee.id r =? Employee.id e)
                                 && String.eqb (Employee.email r)
                                               (Employee.email e1))
                       (employees d) = true); [| congruence].
  apply existsb_exists. exists r. split; [exact Hr |].
  apply andb_true_iff. split.
  - apply negb_true_iff. now apply Z.eqb_neq.
  - now apply String.eqb_eq.
Qed.

Lemma employee_after_update_fields (u : EmployeeUpdate)
      (e e' : Employee.t) :
  employee_after_update u e = Some e' ->
  Employee.id e' = Employee.id e
  /\ Employee.phone e' = Employee.phone e
  /\ set_required (eu_name u) (Employee.name e) = Some (Employee.name e')
  /\ set_required (eu_email u) (Employee.email e)
     = Some (Employee.email e')
  /\ set_required (eu_role u) (Employee.role e) = Some (Employee.role e').
Proof.
  unfold employee_after_update.
  destruct (set_required (eu_name u) _) as [n |]; [| discriminate].
  destruct (set_required (eu_email u) _) as [a |]; [| discriminate].
  destruct (set_required (eu_role u) _) as [r |]; [| discriminate].
  intros [= <-]. repeat split.
Qed.

(** X29: [update_employee].  A key that no row has and that fits a
    signed 64-bit integer is a 404; one outside 64 bits ends in the
    driver's [OverflowError].  A new,
    non-empty email that differs from the employee's own and belongs to
    a row is refused with 400.  When the update succeeds, the row keeps
    its key and phone; name, email and role are the given value or, if
    left out, the old one, none given as [null]; no other employee has
    the row's email; the other employees, the tasks and the users are
    as before.  An update that is refused changes nothing. *)
Theorem X29_update_employee (employee_id : Z) (u : EmployeeUpdate)
        (d : Database) :
  (employee_by_id employee_id d = None -> int64 employee_id ->
   employees_router.update_employee employee_id u d
   = (Raise (HTTPException 404
               ("Employee with ID " ++ str_int employee_id ++ " not found")
               []), d))
  /\ (employee_by_id employee_id d = None -> ~ int64 employee_id ->
      employees_router.update_employee employee_id u d
      = (Raise (Exception "OverflowError"), d))
  /\ (forall e a,
        employee_by_id employee_id d = Some e ->
        field_value (eu_email u) = Some a ->
        a <> "" -> a <> Employee.email e ->
        employee_by_email a d <> None ->
        employees_router.update_employee employee_id u d
        = (Raise (HTTPException 400
                    ("Employee with email '" ++ a ++ "' already exists")
                    []), d))
  /\ (forall e' d',
        employees_router.update_employee employee_id u d = (Ok e', d') ->
        exists e,
          employee_by_id employee_id d = Some e
          /\ Employee.id e' = employee_id
          /\ Employee.phone e' = Employee.phone e
          /\ ((eu_name u = Unset -> Employee.name e' = Employee.name e)
              /\ (forall v, eu_name u = Given (Some v) ->
                    Employee.name e' = v)
              /\ eu_name u <> Given None)
          /\ ((eu_email u = Unset -> Employee.email e' = Employee.email e)
              /\ (forall v, eu_email u = Given (Some v) ->
                    Employee.email e' = v)
              /\ eu_email u <> Given None)
          /\ ((eu_role u = Unset -> Employee.role e' = Employee.role e)
              /\ (forall v, eu_role u = Given (Some v) ->
                    Employee.role e' = v)
              /\ eu_role u <> Given None)
          /\ (forall r, In r (employees d') ->
                Employee.email r = Employee.email e' ->
                Employee.id r = employee_id)
          /\ (forall r, In r (employees d) -> Employee.id r <> employee_id ->
                In r (employees d'))
          /\ length (employees d') = length (employees d)
          /\ tasks d' = tasks d /\ users d' = users d)
  /\ (forall x d',
        employees_router.update_employee employee_id u d = (Raise x, d') ->
        d' = d).
Proof.
  split; [| split; [| split; [| split]]].
  - intros Hn Hi. rewrite update_employee_unfold, Hn.
    now apply no_row_int64.
  - intros Hn Hi. rewrite update_employee_unfold, Hn.
    now apply no_row_overflow.
  - intros e a He Ha Hne Hdiff Hex.
    rewrite update_employee_unfold, He. cbv zeta. rewrite Ha.
    unfold truthy_str.
    destruct (String.eqb_spec a ""); [contradiction |].
    destruct (String.eqb_spec a (Employee.email e)); [contradiction |].
    cbn [negb andb].
    destruct (employee_by_email a d); [reflexivity | congruence].
  - intros e' d' Hrun.
    apply update_employee_ok_inv in Hrun as (e & He & Hafter & Huniq & ->).
    exists e. split; [exact He |].
    pose proof He as He0. apply employee_by_id_found in He0 as [_ Hid].
    apply employee_after_update_fields in Hafter
      as (Hid' & Hph & Hn & Hm & Hr).
    split; [congruence |]. split; [exact Hph |].
    split; [now apply set_required_spec |].
    split; [now apply set_required_spec |].
    split; [now apply set_required_spec |].
    cbn [tasks employees users].
    split; [| split; [| split; [apply length_map | split; reflexivity]]].
    + intros r Hin Hmail. apply in_map_iff in Hin as (r0 & Hr0 & Hin).
      destruct (Z.eqb_spec (Employee.id r0) (Employee.id e)) as [Heq | Hneq].
      * subst r. congruence.
      * subst r0. exfalso. now apply (Huniq r Hin Hneq).
    + intros r Hin Hne. apply in_map_iff. exists r.
      rewrite Hid. destruct (Z.eqb_spec (Employee.id r) employee_id);
        [contradiction | now split].
  - intros x d'. rewrite update_employee_unfold. unfold no_row. cbv zeta.
    repeat match goal with
           | |- context [match ?x with _ => _ end] => destruct x
           end; congruence.
Qed.

Lemma X29_witness :
  employee_by_id 99 Sample2.d0 = None
  /\ int64 99
  /\ employees_router.update_employee 99
       (mkEmployeeUpdate (Given (Some "Johnny")) Unset Unset) Sample2.d0
     = (Raise (HTTPException 404 "Employee with ID 99 not found" []),
        Sample2.d0)
  /\ ~ int64 (2 ^ 63)
  /\ employees_router.update_employee (2 ^ 63)
       (mkEmployeeUpdate (Given (Some "Johnny")) Unset Unset) Sample2.d0
     = (Raise (Exception "OverflowError"), Sample2.d0).
Proof.
  assert (Hi : int64 99) by (unfold int64; lia).
  assert (Ho : ~ int64 (2 ^ 63)) by (unfold int64; lia).
  split; [reflexivity |]. split; [exact Hi |].
  split; [exact (proj1 (X29_update_employee 99 _ Sample2.d0) eq_refl Hi) |].
  split; [exact Ho |].
  exact (proj1 (proj2 (X29_update_employee (2 ^ 63) _ Sample2.d0))
           eq_refl Ho).
Defined.

(** How references survive a change of the tables. *)
Lemma references_preserved (d d' : Database) :
  references_hold d ->
  (forall t i,
      In t (tasks d') -> Task.employee_id t = Some i ->
      (exists t0, In t0 (tasks d) /\ Task.employee_id t0 = Some i)
      \/ exists e, In e (employees d') /\ Employee.id e = i) ->
  (forall e,
      In e (employees d) ->
      (exists e', In e' (employees d') /\ Employee.id e' = Employee.id e)
      \/ forall t, In t (tasks d') ->
                   Task.employee_id t <> Some (Employee.id e)) ->
  references_hold d'.
Proof.
  intros Href Htasks Hemps t i Hin Hi.
  destruct (Htasks t i Hin Hi) as [(t0 & Hin0 & Hi0) | Hex]; [| exact Hex].
  destruct (Href t0 i Hin0 Hi0) as (e & He & Hid).
  destruct (Hemps e He) as [(e' & He' & Hid') | Hnone].
  - exists e'. split; [exact He' | congruence].
  - exfalso. apply (Hnone t Hin). congruence.
Qed.

Lemma create_employee_ok_inv (employee : EmployeeCreate) (d d' : Database)
      (row : Employee.t) :
  employees_router.create_employee employee d = (Ok row, d') ->
  employees d' = (employees d ++ [row])%list /\ tasks d' = tasks d.
Proof.
  unfold employees_router.create_employee, tx_bind, query_employee_by_email,
    insert_employee.
  destruct (employee_by_email _ d); [discriminate |].
  destruct (existsb _ (employees d)); [discriminate |].
  intros [= <- <-]. split; reflexivity.
Qed.

Lemma delete_task_ok_inv (task_id : Z) (d d' : Database) (r : unit) :
  tasks_router.delete_task task_id d = (Ok r, d') ->
  employees d' = employees d
  /\ forall t, In t (tasks d') <-> In t (tasks d) /\ Task.id t <> task_id.
Proof.
  unfold tasks_router.delete_task, tx_bind, query_task_by_id,
    delete_task_row.
  destruct (task_by_id task_id d) as [t |] eqn:Ht;
    [| destruct (binds task_id); discriminate].
  apply task_by_id_found in Ht as [_ Hid].
  intros [= _ <-]. split; [reflexivity |]. intros t0. cbn [tasks].
  rewrite filter_In, negb_true_iff, Z.eqb_neq, Hid. tauto.
Qed.

(** X30: every task that names an employee names a row of [employees],
    and the routes keep it so.  Creating, updating or deleting an
    employee, deleting a task and assigning a task never break it;
    creating a task keeps it unless the payload names employee 0, and
    updating a task keeps it unless the update gives an employee key
    that is 0 or negative: those two are the keys the routes do not
    check. *)
Theorem X30_references_kept (d : Database) :
  references_hold d ->
  (forall employee row d',
      employees_router.create_employee employee d = (Ok row, d') ->
      references_hold d')
  /\ (forall employee_id u e' d',
        employees_router.update_employee employee_id u d = (Ok e', d') ->
        references_hold d')
  /\ (forall employee_id r d',
        employees_router.delete_employee employee_id d = (Ok r, d') ->
        references_hold d')
  /\ (forall task row d',
        tc_employee_id task <> Some 0 ->
        tasks_router.create_task task d = (Ok row, d') ->
        references_hold d')
  /\ (forall task_id u t' d',
        (forall i, tu_employee_id u = Given (Some i) -> 0 < i) ->
        tasks_router.update_task task_id u d = (Ok t', d') ->
        references_hold d')
  /\ (forall task_id r d',
        tasks_router.delete_task task_id d = (Ok r, d') ->
        references_hold d')
  /\ (forall task_id employee_id t' d',
        tasks_router.assign_task_to_employee task_id employee_id d
        = (Ok t', d') ->
        references_hold d').
Proof.
  intros Href.
  split; [| split; [| split; [| split; [| split; [| split]]]]].
  - (* create_employee *)
    intros employee row d' Hrun.
    apply create_employee_ok_inv in Hrun as [He Ht].
    apply (references_preserved d d' Href).
    + intros t i Hin Hi. left. exists t. rewrite <- Ht. now split.
    + intros e Hin. left. exists e. rewrite He.
      split; [apply in_or_app; now left | reflexivity].
  - (* update_employee *)
    intros employee_id u e' d' Hrun.
    apply update_employee_ok_inv in Hrun as (e & He & Hafter & _ & ->).
    apply employee_after_update_fields in Hafter as (Hid & _).
    apply (references_preserved d _ Href); cbn [tasks employees].
    + intros t i Hin Hi. left. now exists t.
    + intros r Hin. left.
      exists (if Employee.id r =? Employee.id e then e' else r).
      split.
      * apply in_map_iff. now exists r.
      * destruct (Z.eqb_spec (Employee.id r) (Employee.id e));
          [congruence | reflexivity].
  - (* delete_employee *)
    intros employee_id r d' Hrun.
    destruct (employee_by_id employee_id d) as [e |] eqn:He.
    + destruct (proj2 (delete_employee_effect employee_id d)
                  ltac:(rewrite He; discriminate))
        as (d1 & Hd1 & _ & _ & Hemps & Htasks & _).
      rewrite Hd1 in Hrun. injection Hrun as _ <-.
      apply (references_preserved d d1 Href).
      * intros t i Hin Hi. left. exists t.
        apply Htasks in Hin as [Hin _]. now split.
      * intros e0 Hin.
        destruct (Z.eq_dec (Employee.id e0) employee_id) as [Heq | Hneq].
        -- right. intros t Ht. apply Htasks in Ht as [_ Hne]. congruence.
        -- left. exists e0. split; [now apply Hemps | reflexivity].
    + rewrite (proj1 (delete_employee_effect employee_id d) He) in Hrun.
      unfold no_row in Hrun. destruct (binds employee_id); discriminate.
  - (* create_task *)
    intros task row d' Hne Hrun. rewrite create_task_unfold in Hrun.
    assert (Hins : insert_task (tc_title task) (tc_description task)
                     (tc_status task) (tc_employee_id task) d = (Ok row, d')
                   /\ forall i, tc_employee_id task = Some i ->
                                employee_by_id i d <> None).
    { destruct (tc_employee_id task) as [i |].
      - destruct (Z.eqb_spec i 0) as [-> | Hi]; [congruence |].
        cbn [negb] in Hrun.
        destruct (employee_by_id i d) as [e |] eqn:He;
          [| unfold no_row in Hrun; destruct (binds i); discriminate].
        split; [exact Hrun |]. intros j [= <-]. rewrite He. discriminate.
      - split; [exact Hrun |]. discriminate. }
    destruct Hins as [Hins Hex]. rewrite insert_task_unfold in Hins.
    destruct (foreign_key_ok d _); [| discriminate].
    injection Hins as <- <-.
    apply (references_preserved d _ Href); cbn [tasks employees].
    + intros t i Hin Hi. apply in_app_or in Hin as [Hin | [<- | []]].
      * left. now exists t.
      * right. cbn [Task.employee_id] in Hi.
        destruct (employee_by_id i d) as [e |] eqn:He;
          [| exfalso; now apply (Hex i Hi)].
        apply employee_by_id_found in He as [Hin Hid]. now exists e.
    + intros e Hin. left. now exists e.
  - (* update_task *)
    intros task_id u t' d' Hpos Hrun.
    apply update_task_ok_inv in Hrun as (t & Ht & Hafter & _ & Hemp & ->).
    apply task_after_update_fields in Hafter as (_ & _ & _ & _ & Heid).
    apply task_by_id_found in Ht as [Hint _].
    apply (references_preserved d _ Href); cbn [tasks employees].
    + intros t0 i Hin Hi. apply in_map_iff in Hin as (r & Hr & Hin).
      destruct (Task.id r =? Task.id t); [| left; exists t0; now subst].
      subst t0. rewrite Heid in Hi.
      destruct (tu_employee_id u) as [| [j |]] eqn:Eu; simpl in Hi.
      * left. now exists t.
      * injection Hi as ->. right.
        destruct (employee_by_id i d) as [e |] eqn:He.
        -- apply employee_by_id_found in He as [Hine Hid]. now exists e.
        -- exfalso. apply (Hemp i); [reflexivity | now apply Hpos | exact He].
      * discriminate.
    + intros e Hin. left. now exists e.
  - (* delete_task *)
    intros task_id r d' Hrun.
    apply delete_task_ok_inv in Hrun as [He Ht].
    apply (references_preserved d d' Href).
    + intros t i Hin Hi. left. exists t. apply Ht in Hin as [Hin _].
      now split.
    + intros e Hin. left. exists e. rewrite He. now split.
  - (* assign_task_to_employee *)
    intros task_id employee_id t' d'. rewrite assign_task_unfold.
    destruct (task_by_id task_id d) as [t |] eqn:Ht;
      [| unfold no_row; destruct (binds task_id); discriminate].
    destruct (employee_by_id employee_id d) as [e |] eqn:He;
      [| unfold no_row; destruct (binds employee_id); discriminate].
    destruct (binds employee_id); [| discriminate].
    cbv zeta. intros [= <- <-].
    apply employee_by_id_found in He as [Hine Hid].
    apply (references_preserved d _ Href); cbn [tasks employees].
    + intros t0 i Hin Hi. apply in_map_iff in Hin as (r & Hr & Hin).
      destruct (Task.id r =? Task.id t); [| left; exists t0; now subst].
      subst t0. cbn [Task.employee_id] in Hi. injection Hi as <-.
      right. now exists e.
    + intros e0 Hin. left. now exists e0.
Qed.

Lemma d0_references : references_hold Sample2.d0.
Proof.
  intros t i Hin Hi. simpl in Hin.
  destruct Hin as [<- | [<- | [<- | []]]]; simpl in Hi.
  - injection Hi as <-. exists Sample2.john. split; [now left | reflexivity].
  - injection Hi as <-. exists Sample2.jane.
    split; [right; now left | reflexivity].
  - discriminate.
Qed.

Lemma X30_witness :
  references_hold Sample2.d0
  /\ references_hold
       (snd (employees_router.delete_employee 1 Sample2.d0)).
Proof.
  split; [exact d0_references |].
  apply (proj1 (proj2 (proj2 (X30_references_kept Sample2.d0
                                d0_references))) 1 tt).
  reflexivity.
Defined.
